(** * IMC Prosperity 2 trading engine (round_3.py): shallow embedding

    The Python program is embedded as Rocq functions over explicit state.

    - Python [int] is [Z]; Python [float] is modelled by exact rationals [Q]
      (no rounding, no infinities, no NaN), compared with [Qeq].  This is the
      exact-arithmetic reading of the program: the program itself computes
      in IEEE binary64, so a [Q] result gives the program's double only up
      to rounding.  The properties stated over [Q] are those that rounding
      does not decide (integer sizing, guards, orderings).  Where rounding
      decides, at the fair value of the regression, the binary64 evaluation
      is modelled next to the exact one, on Rocq's primitive doubles.
    - A [dict] whose iteration order matters (the [OrderedDict] order book,
      the result map, the carried history) is an association list.
    - Code that can raise returns [Exc], with one constructor per Python
      exception class that the program can raise.
    - Attribute mutation ([self.orders.append], [self.expected_position +=])
      is explicit state passing on records.  [print] calls are dropped. *)

From Stdlib Require Import PrimFloat FloatOps SpecFloat.
From Stdlib Require Import ZArith QArith Qround Qabs List Sorted String Bool Lia Lqa.
Import ListNotations.
Open Scope Z_scope.

(** ** Exceptions *)

Inductive PyError : Type :=
| ValueError          (* max()/min() of an empty sequence *)
| ZeroDivisionError
| KeyError
| IndexError          (* popleft on an empty deque *)
| StatisticsError     (* statistics.linear_regression *)
| DecodeError.        (* jsonpickle.decode on a string that is not an encoding *)

Inductive Exc (A : Type) : Type :=
| Ok (a : A)
| Raise (e : PyError).
Arguments Ok {A} a.
Arguments Raise {A} e.

Definition bind {A B : Type} (c : Exc A) (k : A -> Exc B) : Exc B :=
  match c with
  | Ok a => k a
  | Raise e => Raise e
  end.

Notation "x <- c ;; k" := (bind c (fun x => k))
  (at level 61, c at next level, right associativity).

(** ** Python built-ins used by the program *)

Section Dict.
Context {K V : Type} (eqb : K -> K -> bool).

(** [d[k]] *)
Fixpoint getitem (d : list (K * V)) (k : K) : Exc V :=
  match d with
  | [] => Raise KeyError
  | (k', v) :: d' => if eqb k k' then Ok v else getitem d' k
  end.

(** [d.get(k, default)] *)
Definition get_default (d : list (K * V)) (k : K) (default : V) : V :=
  match getitem d k with Ok v => v | Raise _ => default end.

(** [d[k] = v] keeps the position of an existing key and appends a new one. *)
Fixpoint setitem (d : list (K * V)) (k : K) (v : V) : list (K * V) :=
  match d with
  | [] => [(k, v)]
  | (k', v') :: d' =>
      if eqb k k' then (k, v) :: d' else (k', v') :: setitem d' k v
  end.
End Dict.

Definition keys {K V : Type} (d : list (K * V)) : list K := map fst d.
Definition values {K V : Type} (d : list (K * V)) : list V := map snd d.

(** [max(xs)] and [min(xs)] on integers; both raise on an empty sequence. *)
Definition py_max (xs : list Z) : Exc Z :=
  match xs with
  | [] => Raise ValueError
  | x :: xs' => Ok (fold_left Z.max xs' x)
  end.

Definition py_min (xs : list Z) : Exc Z :=
  match xs with
  | [] => Raise ValueError
  | x :: xs' => Ok (fold_left Z.min xs' x)
  end.

(** [sum(xs)] *)
Definition py_sum (xs : list Z) : Z := fold_left Z.add xs 0.

(** [a / b] on two integers: true division. *)
Definition truediv (a b : Z) : Exc Q :=
  if b =? 0 then Raise ZeroDivisionError
  else Ok (inject_Z a / inject_Z b)%Q.

(** [a / b] on floats. *)
Definition fdiv (a b : Q) : Exc Q :=
  if Qeq_bool b 0 then Raise ZeroDivisionError else Ok (a / b)%Q.

(** [min(xs)] on floats: the first smallest element. *)
Definition Qlt_bool (a b : Q) : bool := negb (Qle_bool b a).

Definition py_minQ (xs : list Q) : Exc Q :=
  match xs with
  | [] => Raise ValueError
  | x :: xs' => Ok (fold_left (fun m y => if Qlt_bool y m then y else m) xs' x)
  end.

Definition Qsum (xs : list Q) : Q := fold_left Qplus xs 0%Q.

(** [range(a, b)] *)
Definition py_range (a b : Z) : list Z :=
  map (fun k => a + Z.of_nat k) (seq 0 (Z.to_nat (b - a))).

Definition len {A : Type} (l : list A) : Z := Z.of_nat (List.length l).

(** ** datamodel *)

Definition Symbol := string.

Record Order : Type := mkOrder {
  o_symbol : Symbol;
  o_price : Z;
  o_quantity : Z
}.

Record OrderDepth : Type := mkOrderDepth {
  buy_orders : list (Z * Z);     (* price -> quantity, quantity positive *)
  sell_orders : list (Z * Z)     (* price -> quantity, quantity negative *)
}.

Record ConversionObservation : Type := mkConversionObservation {
  bidPrice : Q;
  askPrice : Q;
  transportFees : Q;
  exportTariff : Q;
  importTariff : Q;
  sunlight_obs : Q;
  humidity_obs : Q
}.

(** [Trader.data]: symbol -> deque of historical prices. *)
Definition Data := list (Symbol * list Q).

(** [traderData] is a string produced by jsonpickle (an external library).
    It is either the encoding of some [Data], which decodes to that data, or
    a string jsonpickle cannot decode (the empty string of the first tick, a
    truncated or foreign string), on which [jsonpickle.decode] raises. *)
Inductive Blob : Type :=
| Encoded (d : Data)
| Unparseable (raw : string).

Definition jsonpickle_encode (d : Data) : Blob := Encoded d.

Definition jsonpickle_decode (b : Blob) : Exc Data :=
  match b with
  | Encoded d => Ok d
  | Unparseable _ => Raise DecodeError
  end.

Record TradingState : Type := mkTradingState {
  traderData : Blob;
  st_timestamp : Z;
  order_depths : list (Symbol * OrderDepth);
  st_position : list (Symbol * Z);
  conversionObservations : list (Symbol * ConversionObservation)
}.

(** ** Configuration dictionaries

    [config['PRODUCT'][symbol]]: the keys COST_STORING and PER_BASKET exist
    only for some products; reading an absent one raises [KeyError]. *)
Record ProductConfig : Type := mkProductConfig {
  SYMBOL : Symbol;
  PRODUCT : Symbol;
  POSITION_LIMIT : Z;
  COST_STORING : option Q;
  PER_BASKET : option Z
}.

Definition config_key {A : Type} (o : option A) : Exc A :=
  match o with Some a => Ok a | None => Raise KeyError end.

(** ** class Strategy *)

Record Strategy : Type := mkStrategy {
  symbol : Symbol;
  product : Symbol;
  position_limit : Z;
  timestamp : Z;
  position : Z;
  bids : list (Z * Z);
  asks : list (Z * Z);
  best_bid : Z;
  best_ask : Z;
  worst_bid : Z;
  worst_ask : Z;
  bid_volume : Z;
  ask_volume : Z;
  bid_sweep : Z;
  ask_sweep : Z;
  bid_vwap : Q;
  ask_vwap : Q;
  mid_vwap : Q;
  orders : list Order;
  expected_position : Z;
  sum_buy_qty : Z;
  sum_sell_qty : Z
}.

(** [Strategy.__init__] *)
Definition Strategy_init (state : TradingState) (pc : ProductConfig)
  : Exc Strategy :=
  let symbol := SYMBOL pc in
  let product := PRODUCT pc in
  let position_limit := POSITION_LIMIT pc in
  let timestamp := st_timestamp state in
  let position := get_default String.eqb (st_position state) product 0 in
  od <- getitem String.eqb (order_depths state) symbol ;;
  let bids := buy_orders od in
  let asks := sell_orders od in
  best_bid <- py_max (keys bids) ;;
  best_ask <- py_min (keys asks) ;;
  worst_bid <- py_min (keys bids) ;;
  worst_ask <- py_max (keys asks) ;;
  let bid_volume := py_sum (values bids) in
  let ask_volume := py_sum (values asks) in
  let bid_sweep := py_sum (map (fun pq => fst pq * snd pq) bids) in
  let ask_sweep := py_sum (map (fun pq => fst pq * snd pq) asks) in
  bid_vwap <- truediv bid_sweep bid_volume ;;
  ask_vwap <- truediv ask_sweep ask_volume ;;
  let mid_vwap := ((bid_vwap + ask_vwap) / 2)%Q in
  Ok {| symbol := symbol; product := product;
        position_limit := position_limit;
        timestamp := timestamp; position := position;
        bids := bids; asks := asks;
        best_bid := best_bid; best_ask := best_ask;
        worst_bid := worst_bid; worst_ask := worst_ask;
        bid_volume := bid_volume; ask_volume := ask_volume;
        bid_sweep := bid_sweep; ask_sweep := ask_sweep;
        bid_vwap := bid_vwap; ask_vwap := ask_vwap; mid_vwap := mid_vwap;
        orders := []; expected_position := position;
        sum_buy_qty := 0; sum_sell_qty := 0 |}.

(** The three statements that every sub-strategy runs after sizing an order:
    [self.orders.append(Order(self.symbol, price, q))],
    [self.expected_position += q] and [self.sum_sell_qty += q]
    (resp. [self.sum_buy_qty += q]). *)
Definition emit_sell (s : Strategy) (price q : Z) : Strategy :=
  {| symbol := symbol s; product := product s;
     position_limit := position_limit s;
     timestamp := timestamp s; position := position s;
     bids := bids s; asks := asks s;
     best_bid := best_bid s; best_ask := best_ask s;
     worst_bid := worst_bid s; worst_ask := worst_ask s;
     bid_volume := bid_volume s; ask_volume := ask_volume s;
     bid_sweep := bid_sweep s; ask_sweep := ask_sweep s;
     bid_vwap := bid_vwap s; ask_vwap := ask_vwap s; mid_vwap := mid_vwap s;
     orders := orders s ++ [mkOrder (symbol s) price q];
     expected_position := expected_position s + q;
     sum_buy_qty := sum_buy_qty s;
     sum_sell_qty := sum_sell_qty s + q |}.

Definition emit_buy (s : Strategy) (price q : Z) : Strategy :=
  {| symbol := symbol s; product := product s;
     position_limit := position_limit s;
     timestamp := timestamp s; position := position s;
     bids := bids s; asks := asks s;
     best_bid := best_bid s; best_ask := best_ask s;
     worst_bid := worst_bid s; worst_ask := worst_ask s;
     bid_volume := bid_volume s; ask_volume := ask_volume s;
     bid_sweep := bid_sweep s; ask_sweep := ask_sweep s;
     bid_vwap := bid_vwap s; ask_vwap := ask_vwap s; mid_vwap := mid_vwap s;
     orders := orders s ++ [mkOrder (symbol s) price q];
     expected_position := expected_position s + q;
     sum_buy_qty := sum_buy_qty s + q;
     sum_sell_qty := sum_sell_qty s |}.

(** [self.orders.append(Order(self.symbol, price, q))] alone. *)
Definition append_order (s : Strategy) (price q : Z) : Strategy :=
  {| symbol := symbol s; product := product s;
     position_limit := position_limit s;
     timestamp := timestamp s; position := position s;
     bids := bids s; asks := asks s;
     best_bid := best_bid s; best_ask := best_ask s;
     worst_bid := worst_bid s; worst_ask := worst_ask s;
     bid_volume := bid_volume s; ask_volume := ask_volume s;
     bid_sweep := bid_sweep s; ask_sweep := ask_sweep s;
     bid_vwap := bid_vwap s; ask_vwap := ask_vwap s; mid_vwap := mid_vwap s;
     orders := orders s ++ [mkOrder (symbol s) price q];
     expected_position := expected_position s;
     sum_buy_qty := sum_buy_qty s;
     sum_sell_qty := sum_sell_qty s |}.

(** [self.position_limit = limit] *)
Definition set_position_limit (s : Strategy) (limit : Z) : Strategy :=
  {| symbol := symbol s; product := product s;
     position_limit := limit;
     timestamp := timestamp s; position := position s;
     bids := bids s; asks := asks s;
     best_bid := best_bid s; best_ask := best_ask s;
     worst_bid := worst_bid s; worst_ask := worst_ask s;
     bid_volume := bid_volume s; ask_volume := ask_volume s;
     bid_sweep := bid_sweep s; ask_sweep := ask_sweep s;
     bid_vwap := bid_vwap s; ask_vwap := ask_vwap s; mid_vwap := mid_vwap s;
     orders := orders s;
     expected_position := expected_position s;
     sum_buy_qty := sum_buy_qty s;
     sum_sell_qty := sum_sell_qty s |}.

(** ** class MarketMaking(Strategy) *)

(** [config['STRATEGY'][symbol]] as read by [MarketMaking.__init__]. *)
Record MMConfig : Type := mkMMConfig {
  FAIR_VALUE : Q;
  SL_INVENTORY : Z;
  SL_SPREAD : Q;
  MM_SPREAD : Q;
  ORDER_SKEW : Q
}.

Record MarketMaking : Type := mkMarketMaking {
  base : Strategy;
  fair_value : Q;
  sl_inventory : Z;
  sl_spread : Q;
  mm_spread : Q;
  order_skew : Q
}.

Definition MarketMaking_init (state : TradingState) (pc : ProductConfig)
    (sc : MMConfig) : Exc MarketMaking :=
  s <- Strategy_init state pc ;;
  Ok {| base := s;
        fair_value := FAIR_VALUE sc;
        sl_inventory := SL_INVENTORY sc;
        sl_spread := SL_SPREAD sc;
        mm_spread := MM_SPREAD sc;
        order_skew := ORDER_SKEW sc |}.

Definition with_base (m : MarketMaking) (s : Strategy) : MarketMaking :=
  {| base := s; fair_value := fair_value m; sl_inventory := sl_inventory m;
     sl_spread := sl_spread m; mm_spread := mm_spread m;
     order_skew := order_skew m |}.

(** [self.fair_value = v] *)
Definition set_fair_value (m : MarketMaking) (v : Q) : MarketMaking :=
  {| base := base m; fair_value := v; sl_inventory := sl_inventory m;
     sl_spread := sl_spread m; mm_spread := mm_spread m;
     order_skew := order_skew m |}.

(** The guard of [scratch_under_valued]:
    [-self.sl_inventory <= self.position <= self.sl_inventory]. *)
Definition within_sl_inventory (m : MarketMaking) : bool :=
  (- sl_inventory m <=? position (base m))
  && (position (base m) <=? sl_inventory m).

(** [MarketMaking.scratch_under_valued] *)
Definition scratch_under_valued (m : MarketMaking) (use_mid_vwap : bool)
  : Exc MarketMaking :=
  let s := base m in
  let reserve_price := if use_mid_vwap then mid_vwap s else fair_value m in
  if within_sl_inventory m then
    if Qle_bool reserve_price (inject_Z (best_bid s)) && (2 <=? len (bids s))
    then
      resting <- getitem Z.eqb (bids s) (best_bid s) ;;
      let order_quantity :=
        Z.min (Z.max (- resting)
                     (- position_limit s - Z.min (position s) 0)) 0 in
      Ok (with_base m (emit_sell s (best_bid s) order_quantity))
    else if Qle_bool (inject_Z (best_ask s)) reserve_price
            && (2 <=? len (asks s))
    then
      resting <- getitem Z.eqb (asks s) (best_ask s) ;;
      let order_quantity :=
        Z.max (Z.min (- resting)
                     (position_limit s - Z.max (position s) 0)) 0 in
      Ok (with_base m (emit_buy s (best_ask s) order_quantity))
    else Ok m
  else Ok m.

(** [int(b)] for a boolean. *)
Definition int_of_bool (b : bool) : Z := if b then 1 else 0.

(** [MarketMaking.stop_loss] *)
Definition stop_loss (m : MarketMaking) (ignore_worst : bool)
  : Exc MarketMaking :=
  let s := base m in
  if (sl_inventory m <? position s)
     && Qle_bool (fair_value m - sl_spread m) (inject_Z (best_bid s))
  then
    if int_of_bool ignore_worst + 1 <=? len (bids s) then
      resting <- getitem Z.eqb (bids s) (best_bid s) ;;
      let order_quantity :=
        Z.max (- resting) (- position s + sl_inventory m) in
      Ok (with_base m (emit_sell s (best_bid s) order_quantity))
    else Ok m
  else if (position s <? - sl_inventory m)
          && Qle_bool (inject_Z (best_ask s)) (fair_value m + sl_spread m)
  then
    if int_of_bool ignore_worst + 1 <=? len (asks s) then
      resting <- getitem Z.eqb (asks s) (best_ask s) ;;
      let order_quantity :=
        Z.min (- resting) (- position s - sl_inventory m) in
      Ok (with_base m (emit_buy s (best_ask s) order_quantity))
    else Ok m
  else Ok m.

Definition min4 (a b c d : Z) : Z := Z.min a (Z.min b (Z.min c d)).
Definition max4 (a b c d : Z) : Z := Z.max a (Z.max b (Z.max c d)).

(** The quoting capacities shared by both [market_make] methods. *)
Definition bid_capacity (s : Strategy) : Z :=
  Z.max (min4 (position_limit s)
              (position_limit s - position s)
              (position_limit s - expected_position s)
              (position_limit s - sum_buy_qty s - position s)) 0.

Definition ask_capacity (s : Strategy) : Z :=
  Z.min (max4 (- position_limit s)
              (- position_limit s - position s)
              (- position_limit s - expected_position s)
              (- position_limit s - sum_sell_qty s - position s)) 0.

Definition mm_bid_quantity (m : MarketMaking) : Z :=
  let s := base m in
  let bid_limit := bid_capacity s in
  let bid_skew :=
    Qceiling (order_skew m * inject_Z (Z.max (expected_position s) 0)) in
  Z.min (Z.max (bid_limit - bid_skew) 0) bid_limit.

Definition mm_ask_quantity (m : MarketMaking) : Z :=
  let s := base m in
  let ask_limit := ask_capacity s in
  let ask_skew :=
    Qfloor (order_skew m * inject_Z (Z.min (expected_position s) 0)) in
  Z.max (Z.min (ask_limit - ask_skew) 0) ask_limit.

Definition mm_bid_price (m : MarketMaking) : Z :=
  Qceiling (fair_value m - mm_spread m).

Definition mm_ask_price (m : MarketMaking) : Z :=
  Qfloor (fair_value m + mm_spread m).

(** [MarketMaking.market_make] *)
Definition market_make (m : MarketMaking) : MarketMaking :=
  let s := base m in
  let bid_quantity := mm_bid_quantity m in
  let ask_quantity := mm_ask_quantity m in
  let bid_price := mm_bid_price m in
  let ask_price := mm_ask_price m in
  with_base m
    (append_order (append_order s bid_price bid_quantity)
                  ask_price ask_quantity).

(** [MarketMaking.aggregate_orders]; the returned list is [orders (base m)]
    of the final object. *)
Definition aggregate_orders (m : MarketMaking) (ignore_worst_sl : bool)
  : Exc MarketMaking :=
  m1 <- scratch_under_valued m false ;;
  m2 <- stop_loss m1 ignore_worst_sl ;;
  Ok (market_make m2).

(** ** class LinearRegressionMM(MarketMaking) *)

Record LRConfig : Type := mkLRConfig {
  lr_mm_config : MMConfig;
  MIN_WINDOW_SIZE : Z;
  MAX_WINDOW_SIZE : Z;
  PREDICT_SHIFT : Z
}.

Record LinearRegressionMM : Type := mkLinearRegressionMM {
  mm : MarketMaking;
  min_window_size : Z;
  max_window_size : Z;
  predict_shift : Z
}.

Definition LinearRegressionMM_init (state : TradingState)
    (pc : ProductConfig) (sc : LRConfig) : Exc LinearRegressionMM :=
  m <- MarketMaking_init state pc (lr_mm_config sc) ;;
  Ok {| mm := m;
        min_window_size := MIN_WINDOW_SIZE sc;
        max_window_size := MAX_WINDOW_SIZE sc;
        predict_shift := PREDICT_SHIFT sc |}.

(** [statistics.linear_regression(x, y)] of the Python standard library:
    ordinary least squares; raises [StatisticsError] when the inputs differ
    in length, when there are fewer than two points and when x is constant.
    This is the exact-arithmetic reading; [linear_regression_float] below
    evaluates the same statements in binary64. *)
Definition linear_regression (x y : list Q) : Exc (Q * Q) :=
  let n := len x in
  if negb (len y =? n) then Raise StatisticsError
  else if n <? 2 then Raise StatisticsError
  else
    let xbar := (Qsum x / inject_Z n)%Q in
    let ybar := (Qsum y / inject_Z n)%Q in
    let sxy :=
      Qsum (map (fun xy => (fst xy - xbar) * (snd xy - ybar))%Q
                (combine x y)) in
    let sxx := Qsum (map (fun xi => (xi - xbar) * (xi - xbar))%Q x) in
    if Qeq_bool sxx 0 then Raise StatisticsError
    else
      let slope := (sxy / sxx)%Q in
      let intercept := (ybar - slope * xbar)%Q in
      Ok (slope, intercept).

(** The abscissas of the regression: [[100 * i for i in range(t - n + 1, t + 1)]]
    with [t = int(self.timestamp / 100)]. *)
Definition regression_xs (timestamp n : Z) : list Z :=
  let t := Z.quot timestamp 100 in
  map (fun i => 100 * i) (py_range (t - n + 1) (t + 1)).

(** [LinearRegressionMM.predict_price], in exact arithmetic;
    [predict_price_float] below is its evaluation in binary64. *)
Definition predict_price (l : LinearRegressionMM) (price_history : list Q)
  : Exc LinearRegressionMM :=
  let m := mm l in
  let n := len price_history in
  if min_window_size l <=? n then
    let xs := regression_xs (timestamp (base m)) n in
    let ys := price_history in
    fit <- linear_regression (map inject_Z xs) ys ;;
    let slope := fst fit in
    let intercept := snd fit in
    let y_hat :=
      (slope * inject_Z (timestamp (base m) + 100 * predict_shift l)
       + intercept)%Q in
    Ok {| mm := set_fair_value m y_hat;
          min_window_size := min_window_size l;
          max_window_size := max_window_size l;
          predict_shift := predict_shift l |}
  else
    Ok {| mm := set_fair_value m (mid_vwap (base m));
          min_window_size := min_window_size l;
          max_window_size := max_window_size l;
          predict_shift := predict_shift l |}.

(** ** class OTCArbitrage(Strategy) *)

Record OTCConfig : Type := mkOTCConfig {
  EXP_STORAGE_TIME : Q;
  MIN_EDGE : Q;
  MM_EDGE : Q
}.

Record OTCArbitrage : Type := mkOTCArbitrage {
  arb_base : Strategy;
  unit_cost_storing : Q;
  otc_bid : Q;
  otc_ask : Q;
  cost_import : Q;
  cost_export : Q;
  sunlight : Q;
  humidity : Q;
  conversions : Z;
  expected_storage_time : Q;
  effective_cost_export : Q;
  min_edge : Q;
  mm_edge : Q
}.

Definition OTCArbitrage_init (state : TradingState) (pc : ProductConfig)
    (sc : OTCConfig) : Exc OTCArbitrage :=
  s <- Strategy_init state pc ;;
  unit_cost_storing <- config_key (COST_STORING pc) ;;
  observation <- getitem String.eqb (conversionObservations state) (symbol s) ;;
  let cost_import :=
    (transportFees observation + importTariff observation)%Q in
  let cost_export :=
    (transportFees observation + exportTariff observation)%Q in
  let expected_storage_time := EXP_STORAGE_TIME sc in
  Ok {| arb_base := s;
        unit_cost_storing := unit_cost_storing;
        otc_bid := bidPrice observation;
        otc_ask := askPrice observation;
        cost_import := cost_import;
        cost_export := cost_export;
        sunlight := sunlight_obs observation;
        humidity := humidity_obs observation;
        conversions := 0;
        expected_storage_time := expected_storage_time;
        effective_cost_export :=
          (cost_export + expected_storage_time * unit_cost_storing)%Q;
        min_edge := MIN_EDGE sc;
        mm_edge := MM_EDGE sc |}.

Definition with_arb_base (o : OTCArbitrage) (s : Strategy) : OTCArbitrage :=
  {| arb_base := s; unit_cost_storing := unit_cost_storing o;
     otc_bid := otc_bid o; otc_ask := otc_ask o;
     cost_import := cost_import o; cost_export := cost_export o;
     sunlight := sunlight o; humidity := humidity o;
     conversions := conversions o;
     expected_storage_time := expected_storage_time o;
     effective_cost_export := effective_cost_export o;
     min_edge := min_edge o; mm_edge := mm_edge o |}.

Definition set_conversions (o : OTCArbitrage) (c : Z) : OTCArbitrage :=
  {| arb_base := arb_base o; unit_cost_storing := unit_cost_storing o;
     otc_bid := otc_bid o; otc_ask := otc_ask o;
     cost_import := cost_import o; cost_export := cost_export o;
     sunlight := sunlight o; humidity := humidity o;
     conversions := c;
     expected_storage_time := expected_storage_time o;
     effective_cost_export := effective_cost_export o;
     min_edge := min_edge o; mm_edge := mm_edge o |}.

(** Edge of buying one unit at exchange price [price] and selling it OTC. *)
Definition long_edge_at (o : OTCArbitrage) (price : Z) : Q :=
  (otc_bid o - inject_Z price - effective_cost_export o)%Q.

(** Edge of selling one unit at exchange price [price] and buying it OTC. *)
Definition short_edge_at (o : OTCArbitrage) (price : Z) : Q :=
  (inject_Z price - otc_ask o - cost_import o)%Q.

(** The loop [for price, quantity in self.asks.items()] of the Long branch:
    stops ([break]) at the first level whose edge is below [min_edge]. *)
Fixpoint long_walk (o : OTCArbitrage) (levels : list (Z * Z)) (s : Strategy)
  : Strategy :=
  match levels with
  | [] => s
  | (price, quantity) :: rest =>
      if Qle_bool (min_edge o) (long_edge_at o price) then
        let order_quantity :=
          Z.max (Z.min (- quantity)
                       (position_limit s - Z.max (expected_position s) 0)) 0 in
        long_walk o rest (emit_buy s price order_quantity)
      else s
  end.

(** The loop [for price, quantity in self.bids.items()] of the Short branch.
    As in the source, the body sizes and prices every order from
    [self.bids[self.best_bid]] and [self.best_bid], not from the loop
    variables [quantity] and [price]. *)
Fixpoint short_walk (o : OTCArbitrage) (levels : list (Z * Z)) (s : Strategy)
  : Exc Strategy :=
  match levels with
  | [] => Ok s
  | (price, quantity) :: rest =>
      if Qle_bool (min_edge o) (short_edge_at o price) then
        resting <- getitem Z.eqb (bids s) (best_bid s) ;;
        let order_quantity :=
          Z.min (Z.max (- resting)
                       (- position_limit s - Z.min (expected_position s) 0)) 0 in
        short_walk o rest (emit_sell s (best_bid s) order_quantity)
      else Ok s
  end.

Inductive ArbSide : Type := Long | Short.

(** [max(edges, key=lambda k: edges[k])] on [{"Long": l, "Short": s}]:
    the first key with the largest value. *)
Definition max_key (long_arb_edge short_arb_edge : Q) : ArbSide :=
  if Qlt_bool long_arb_edge short_arb_edge then Short else Long.

(** [OTCArbitrage.arbitrage_exchange_enter] *)
Definition arbitrage_exchange_enter (o : OTCArbitrage) : Exc OTCArbitrage :=
  let s := arb_base o in
  let long_arb_edge := long_edge_at o (best_ask s) in
  let short_arb_edge := short_edge_at o (best_bid s) in
  match max_key long_arb_edge short_arb_edge with
  | Long =>
      if Qle_bool (min_edge o) long_arb_edge
      then Ok (with_arb_base o (long_walk o (asks s) s))
      else Ok o
  | Short =>
      if Qle_bool (min_edge o) short_arb_edge
      then s' <- short_walk o (bids s) s ;; Ok (with_arb_base o s')
      else Ok o
  end.

(** [OTCArbitrage.market_make].  The two prices are the floor and the
    ceiling of exact rationals; the program takes them of rounded doubles,
    so at an integer boundary its quote can differ by one from this one.
    The quantities are integer arithmetic. *)
Definition arb_market_make (o : OTCArbitrage) : OTCArbitrage :=
  let s := arb_base o in
  let bid_quantity := bid_capacity s in
  let ask_quantity := ask_capacity s in
  let bid_arb_free := (otc_bid o - effective_cost_export o)%Q in
  let ask_arb_free := (otc_ask o + cost_import o)%Q in
  let bid_price := Qfloor (bid_arb_free - mm_edge o) in
  let ask_price := Qceiling (ask_arb_free + mm_edge o) in
  with_arb_base o
    (append_order (append_order s bid_price bid_quantity)
                  ask_price ask_quantity).

(** [OTCArbitrage.arbitrage_otc_exit] *)
Definition arbitrage_otc_exit (o : OTCArbitrage) : OTCArbitrage :=
  set_conversions o (- position (arb_base o)).

(** [OTCArbitrage.aggregate_orders_conversions]; the returned pair is
    [(orders (arb_base o), conversions o)] of the final object. *)
Definition aggregate_orders_conversions (o : OTCArbitrage)
  : Exc OTCArbitrage :=
  o1 <- arbitrage_exchange_enter o ;;
  Ok (arbitrage_otc_exit (arb_market_make o1)).

(** ** class BasketTrading *)

Record BasketConfig : Type := mkBasketConfig {
  basket_mm_config : MMConfig;
  PREMIUM_MEAN : Q;
  PREMIUM_STD : Q;
  LINEAR_SENSITIVITY : Q;
  QUADRATIC_SENSITIVITY : Q;
  SL_TARGET : Z;
  CARRY : Q
}.

Record BasketTrading : Type := mkBasketTrading {
  basket : MarketMaking;
  constituent : list (Symbol * Strategy);
  c_symbols : list Symbol;
  c_ratios : list (Symbol * Z);
  c_limits : list (Symbol * Z);
  c_mid_vwap : list (Symbol * Q);
  c_w_bid : list (Symbol * Z);
  c_w_ask : list (Symbol * Z);
  c_positions : list (Symbol * Z);
  basket_limit : Z;
  premium_mean : Q;
  premium_std : Q;
  alpha : Q;
  beta : Q;
  sl_target : Z;
  carry : Q;
  basket_nav : Q;
  premium : Q;
  z_score : Q
}.

(** A comprehension whose body can raise. *)
Fixpoint mapM {A B : Type} (f : A -> Exc B) (l : list A) : Exc (list B) :=
  match l with
  | [] => Ok []
  | a :: l' => b <- f a ;; bs <- mapM f l' ;; Ok (b :: bs)
  end.

(** [{symbol: f(strategy) for symbol, strategy in d.items()}] *)
Definition map_values {A B : Type} (f : A -> B) (d : list (Symbol * A))
  : list (Symbol * B) :=
  map (fun kv => (fst kv, f (snd kv))) d.

Definition BasketTrading_init (state : TradingState)
    (basket_config : ProductConfig)
    (constituent_config : list (Symbol * ProductConfig))
    (sc : BasketConfig) : Exc BasketTrading :=
  basket <- MarketMaking_init state basket_config (basket_mm_config sc) ;;
  constituent <-
    mapM (fun kv => s <- Strategy_init state (snd kv) ;; Ok (fst kv, s))
         constituent_config ;;
  let c_symbols := keys constituent in
  c_ratios <-
    mapM (fun kv => r <- config_key (PER_BASKET (snd kv)) ;; Ok (fst kv, r))
         constituent_config ;;
  let c_limits := map_values position_limit constituent in
  let c_mid_vwap := map_values mid_vwap constituent in
  let c_w_bid := map_values worst_bid constituent in
  let c_w_ask := map_values worst_ask constituent in
  let c_positions := map_values position constituent in
  per_constituent <-
    mapM (fun symbol =>
            limit <- getitem String.eqb c_limits symbol ;;
            ratio <- getitem String.eqb c_ratios symbol ;;
            truediv limit ratio)
         c_symbols ;;
  smallest <- py_minQ per_constituent ;;
  let basket_limit := Qfloor smallest in
  let basket_limit := Z.min basket_limit (position_limit (base basket)) in
  let basket :=
    with_base (set_fair_value basket (mid_vwap (base basket)))
              (set_position_limit (base basket) basket_limit) in
  navs <-
    mapM (fun symbol =>
            ratio <- getitem String.eqb c_ratios symbol ;;
            mid <- getitem String.eqb c_mid_vwap symbol ;;
            Ok (inject_Z ratio * mid)%Q)
         c_symbols ;;
  let basket_nav := Qsum navs in
  let premium := (mid_vwap (base basket) - basket_nav)%Q in
  z_score <- fdiv (premium - PREMIUM_MEAN sc) (PREMIUM_STD sc) ;;
  Ok {| basket := basket;
        constituent := constituent;
        c_symbols := c_symbols;
        c_ratios := c_ratios;
        c_limits := c_limits;
        c_mid_vwap := c_mid_vwap;
        c_w_bid := c_w_bid;
        c_w_ask := c_w_ask;
        c_positions := c_positions;
        basket_limit := basket_limit;
        premium_mean := PREMIUM_MEAN sc;
        premium_std := PREMIUM_STD sc;
        alpha := LINEAR_SENSITIVITY sc;
        beta := QUADRATIC_SENSITIVITY sc;
        sl_target := SL_TARGET sc;
        carry := CARRY sc;
        basket_nav := basket_nav;
        premium := premium;
        z_score := z_score |}.

Definition with_basket (b : BasketTrading) (m : MarketMaking)
  : BasketTrading :=
  {| basket := m; constituent := constituent b; c_symbols := c_symbols b;
     c_ratios := c_ratios b; c_limits := c_limits b;
     c_mid_vwap := c_mid_vwap b; c_w_bid := c_w_bid b; c_w_ask := c_w_ask b;
     c_positions := c_positions b; basket_limit := basket_limit b;
     premium_mean := premium_mean b; premium_std := premium_std b;
     alpha := alpha b; beta := beta b; sl_target := sl_target b;
     carry := carry b; basket_nav := basket_nav b; premium := premium b;
     z_score := z_score b |}.

(** The three local variables of [calculate_fair_value]. *)
Definition demeaned_premium (b : BasketTrading) : Q :=
  (premium b - premium_mean b)%Q.

Definition scaling_coefficient (b : BasketTrading) : Q :=
  (alpha b * Qabs (z_score b) + beta b * (z_score b) ^ 2)%Q.

Definition pricing_shift (b : BasketTrading) : Q :=
  (- demeaned_premium b * scaling_coefficient b)%Q.

(** [BasketTrading.calculate_fair_value] *)
Definition calculate_fair_value (b : BasketTrading) : BasketTrading :=
  with_basket b
    (set_fair_value (basket b)
                    (fair_value (basket b) + pricing_shift b)%Q).

(** [BasketTrading.aggressive_stop_loss] *)
Definition aggressive_stop_loss (b : BasketTrading) : BasketTrading :=
  let m := basket b in
  let s := base m in
  if sl_inventory m <? position s then
    let order_quantity :=
      Z.max (- bid_volume s) (sl_target b - position s) in
    let order_price := worst_bid s in
    with_basket b (with_base m (emit_sell s order_price order_quantity))
  else if position s <? - sl_inventory m then
    let order_quantity :=
      Z.min (- ask_volume s) (- sl_target b - position s) in
    let order_price := worst_ask s in
    with_basket b (with_base m (emit_buy s order_price order_quantity))
  else b.

(** [BasketTrading.aggregate_basket_orders]; the returned list is
    [orders (base (basket b))] of the final object. *)
Definition aggregate_basket_orders (b : BasketTrading) : Exc BasketTrading :=
  let b1 := calculate_fair_value b in
  m2 <- scratch_under_valued (basket b1) true ;;
  let b3 := aggressive_stop_loss (with_basket b1 m2) in
  Ok (with_basket b3 (market_make (basket b3))).

(** ** class Trader *)

Definition symbols : list Symbol :=
  ["AMETHYSTS"; "STARFRUIT"; "ORCHIDS";
   "GIFT_BASKET"; "CHOCOLATE"; "STRAWBERRIES"; "ROSES"]%string.

(** [Trader.config['PRODUCT']] *)
Definition config_PRODUCT : list (Symbol * ProductConfig) :=
  [ ("AMETHYSTS", mkProductConfig "AMETHYSTS" "AMETHYSTS" 20 None None);
    ("STARFRUIT", mkProductConfig "STARFRUIT" "STARFRUIT" 20 None None);
    ("ORCHIDS", mkProductConfig "ORCHIDS" "ORCHIDS" 100 (Some (1 # 10)%Q) None);
    ("GIFT_BASKET",
      mkProductConfig "GIFT_BASKET" "GIFT_BASKET" 60 None None);
    ("CHOCOLATE", mkProductConfig "CHOCOLATE" "CHOCOLATE" 250 None (Some 4));
    ("STRAWBERRIES",
      mkProductConfig "STRAWBERRIES" "STRAWBERRIES" 350 None (Some 6));
    ("ROSES", mkProductConfig "ROSES" "ROSES" 60 None (Some 1)) ]%string.

(** [Trader.config['STRATEGY']], one definition per symbol. *)
Definition config_AMETHYSTS : MMConfig :=
  mkMMConfig 10000 20 1 2 1.

Definition config_STARFRUIT : LRConfig :=
  mkLRConfig (mkMMConfig 5000 10 1 2 1) 5 10 1.

Definition config_ORCHIDS : OTCConfig :=
  mkOTCConfig 1 1 (3 # 2).

Definition config_GIFT_BASKET : BasketConfig :=
  mkBasketConfig (mkMMConfig 70000 57 1 2 1) 385 75 1 0 0 2.

(** The mutable class attribute [Trader.data]. *)
Record Trader : Type := mkTrader {
  data : Data
}.

(** [Trader.data = {"STARFRUIT": deque()}] *)
Definition Trader_initial : Trader :=
  {| data := [("STARFRUIT"%string, [])] |}.

(** [bool(v)] for a deque. *)
Definition nonempty {A : Type} (v : list A) : bool :=
  match v with [] => false | _ :: _ => true end.

(** The local variable [data_loss] of [restore_data]:
    [any([bool(v) for v in self.data.values()])]. *)
Definition data_loss (tr : Trader) : bool :=
  existsb nonempty (values (data tr)).

(** [Trader.restore_data] *)
Definition restore_data (tr : Trader) (timestamp : Z) (encoded_data : Blob)
  : Exc Trader :=
  if (100 <=? timestamp) && data_loss tr then
    d <- jsonpickle_decode encoded_data ;;
    Ok {| data := d |}
  else Ok tr.

(** The loop [while len(dq) >= max_size: dq.popleft()]. *)
Fixpoint popleft_while (dq : list Q) (max_size : Z) : Exc (list Q) :=
  match dq with
  | [] => if max_size <=? 0 then Raise IndexError else Ok []
  | _ :: rest =>
      if max_size <=? len dq then popleft_while rest max_size else Ok dq
  end.

(** [Trader.store_data]; [max_size] is [None] by default, and both [None]
    and [0] are false in [if max_size:]. *)
Definition store_data (tr : Trader) (symbol : Symbol) (value : Q)
    (max_size : option Z) : Exc Trader :=
  dq <- getitem String.eqb (data tr) symbol ;;
  dq <- match max_size with
        | None => Ok dq
        | Some size => if size =? 0 then Ok dq else popleft_while dq size
        end ;;
  Ok {| data := setitem String.eqb (data tr) symbol (dq ++ [value]) |}.

(** What [run] returns. *)
Record Output : Type := mkOutput {
  result : list (Symbol * list Order);
  out_conversions : Z;
  out_traderData : Blob
}.

(** [Trader.run].  The trader after the call is returned with the output,
    since [self.data] is mutated. *)
Definition run (tr : Trader) (state : TradingState) : Exc (Output * Trader) :=
  tr <- restore_data tr (st_timestamp state) (traderData state) ;;
  let config_p := config_PRODUCT in
  (* Symbol 0: AMETHYSTS *)
  let symbol0 := nth 0 symbols EmptyString in
  pc <- getitem String.eqb config_p symbol0 ;;
  fixed_mm <- MarketMaking_init state pc config_AMETHYSTS ;;
  fixed_mm <- aggregate_orders fixed_mm true ;;
  let result := setitem String.eqb [] symbol0 (orders (base fixed_mm)) in
  (* Symbol 1: STARFRUIT *)
  let symbol1 := nth 1 symbols EmptyString in
  pc <- getitem String.eqb config_p symbol1 ;;
  lr_mm <- LinearRegressionMM_init state pc config_STARFRUIT ;;
  tr <- store_data tr (symbol (base (mm lr_mm))) (mid_vwap (base (mm lr_mm)))
                   (Some (max_window_size lr_mm)) ;;
  history <- getitem String.eqb (data tr) symbol1 ;;
  lr_mm <- predict_price lr_mm history ;;
  lr_orders <- aggregate_orders (mm lr_mm) true ;;
  let result := setitem String.eqb result symbol1 (orders (base lr_orders)) in
  (* Symbol 2: ORCHIDS *)
  let symbol2 := nth 2 symbols EmptyString in
  pc <- getitem String.eqb config_p symbol2 ;;
  otc_arb <- OTCArbitrage_init state pc config_ORCHIDS ;;
  otc_arb <- aggregate_orders_conversions otc_arb ;;
  let result :=
    setitem String.eqb result symbol2 (orders (arb_base otc_arb)) in
  let conversions := conversions otc_arb in
  (* Symbol 3: GIFT_BASKET, 4 ~ 6: CHOCOLATE, STRAWBERRIES, ROSES *)
  let symbol_basket := nth 3 symbols EmptyString in
  let symbols_constituent :=
    map (fun i => nth (Z.to_nat i) symbols EmptyString) (py_range 4 7) in
  pc_basket <- getitem String.eqb config_p symbol_basket ;;
  pcs <- mapM (fun s => pc <- getitem String.eqb config_p s ;; Ok (s, pc))
              symbols_constituent ;;
  basket_trading <-
    BasketTrading_init state pc_basket pcs config_GIFT_BASKET ;;
  basket_trading <- aggregate_basket_orders basket_trading ;;
  let result :=
    setitem String.eqb result symbol_basket
            (orders (base (basket basket_trading))) in
  let traderData := jsonpickle_encode (data tr) in
  Ok ({| result := result; out_conversions := conversions;
         out_traderData := traderData |}, tr).

(** ** Vocabulary of the properties *)

(** The points [(x, y)] lie on the line [y = a x + b]. *)
Definition on_line (a b : Q) (xs ys : list Q) : Prop :=
  Forall2 (fun x y => (y == a * x + b)%Q) xs ys.

(** Signed quantity of a list of orders. *)
Definition total_quantity (os : list Order) : Z :=
  py_sum (map o_quantity os).

(** The position once every emitted order is fully filled. *)
Definition filled_position (s : Strategy) : Z :=
  position s + total_quantity (orders s).

(** The positions reached as the orders fill one after the other. *)
Fixpoint fills (p : Z) (os : list Order) : list Z :=
  match os with
  | [] => []
  | o :: os' => (p + o_quantity o) :: fills (p + o_quantity o) os'
  end.

Definition in_range (limit x : Z) : Prop := - limit <= x <= limit.

(** ExpectedPosition within [[-position_limit, +position_limit]]. *)
Definition within_limit (s : Strategy) : Prop :=
  in_range (position_limit s) (expected_position s).

(** The ledger of a strategy object straight after construction: the book
    features are those of its book and nothing was emitted yet. *)
Definition fresh (s : Strategy) : Prop :=
  py_max (keys (bids s)) = Ok (best_bid s)
  /\ py_min (keys (asks s)) = Ok (best_ask s)
  /\ bid_volume s = py_sum (values (bids s))
  /\ ask_volume s = py_sum (values (asks s))
  /\ orders s = []
  /\ expected_position s = position s
  /\ sum_buy_qty s = 0
  /\ sum_sell_qty s = 0.

(** Sign convention of the host: bid quantities are not negative, ask
    quantities are not positive. *)
Definition book_signed (s : Strategy) : Prop :=
  Forall (fun pq => 0 <= snd pq) (bids s)
  /\ Forall (fun pq => snd pq <= 0) (asks s).

(** The fields no sub-strategy writes. *)
Definition static (s : Strategy) :=
  (symbol s, position_limit s, position s, bids s, asks s,
   (best_bid s, best_ask s, worst_bid s, worst_ask s),
   (bid_volume s, ask_volume s)).

(** The three per-instrument engines that [Trader.run] drives. *)
Inductive Engine : Type :=
| MM_engine (m : MarketMaking) (ignore_worst_sl : bool)
| OTC_engine (o : OTCArbitrage)
| Basket_engine (b : BasketTrading).

Definition ledger (e : Engine) : Strategy :=
  match e with
  | MM_engine m _ => base m
  | OTC_engine o => arb_base o
  | Basket_engine b => base (basket b)
  end.

(** Constraints on the static configuration: the stop-loss band, resp. the
    stop-loss target, lies inside the position limit. *)
Definition engine_config_ok (e : Engine) : Prop :=
  match e with
  | MM_engine m _ => - position_limit (base m) <= sl_inventory m
  | OTC_engine _ => True
  | Basket_engine b =>
      - position_limit (base (basket b)) <= sl_target b
      /\ sl_target b <= sl_inventory (basket b)
  end.

(** The ledger after each sizing step of one tick, in the order of
    [aggregate_orders], [aggregate_orders_conversions] and
    [aggregate_basket_orders]. *)
Definition sizing_steps (e : Engine) : Exc (list Strategy) :=
  match e with
  | MM_engine m ignore_worst_sl =>
      m1 <- scratch_under_valued m false ;;
      m2 <- stop_loss m1 ignore_worst_sl ;;
      Ok [base m1; base m2; base (market_make m2)]
  | OTC_engine o =>
      o1 <- arbitrage_exchange_enter o ;;
      Ok [arb_base o1; arb_base (arb_market_make o1)]
  | Basket_engine b =>
      let b1 := calculate_fair_value b in
      m2 <- scratch_under_valued (basket b1) true ;;
      let b3 := aggressive_stop_loss (with_basket b1 m2) in
      Ok [base m2; base (basket b3); base (market_make (basket b3))]
  end.

(** The ledger that one tick of the engine returns its orders from. *)
Definition tick (e : Engine) : Exc Strategy :=
  match e with
  | MM_engine m ignore_worst_sl =>
      m' <- aggregate_orders m ignore_worst_sl ;; Ok (base m')
  | OTC_engine o =>
      o' <- aggregate_orders_conversions o ;; Ok (arb_base o')
  | Basket_engine b =>
      b' <- aggregate_basket_orders b ;; Ok (base (basket b'))
  end.

(** The ledger invariant of one tick: ExpectedPosition is the position
    after full fill of what was emitted so far, it lies within the limit, and
    so does the position after each successive fill. *)
Definition ledger_ok (s : Strategy) : Prop :=
  expected_position s = filled_position s
  /\ Forall (in_range (position_limit s)) (fills (position s) (orders s))
  /\ within_limit s.

(** The resting quantities that the sub-strategies read exist and follow
    the sign convention. *)
Definition book_ready (s : Strategy) : Prop :=
  (exists v, getitem Z.eqb (bids s) (best_bid s) = Ok v /\ 0 <= v)
  /\ (exists v, getitem Z.eqb (asks s) (best_ask s) = Ok v /\ v <= 0)
  /\ 0 <= bid_volume s
  /\ ask_volume s <= 0.

(** The best prices of the ledger are keys of its book. *)
Definition keyed (s : Strategy) : Prop :=
  (exists v, getitem Z.eqb (bids s) (best_bid s) = Ok v)
  /\ (exists v, getitem Z.eqb (asks s) (best_ask s) = Ok v).

(** A book on which [Strategy.__init__] does not raise: both sides are
    non-empty and neither side has a total volume of zero. *)
Definition two_sided (od : OrderDepth) : Prop :=
  buy_orders od <> []
  /\ sell_orders od <> []
  /\ py_sum (values (buy_orders od)) <> 0
  /\ py_sum (values (sell_orders od)) <> 0.

(** Every symbol the trader handles has a two-sided book in the state. *)
Definition books_two_sided (state : TradingState) : Prop :=
  forall sym, In sym symbols ->
    exists od,
      getitem String.eqb (order_depths state) sym = Ok od /\ two_sided od.

(** ** Concrete ticks *)

(** A snapshot with two-sided books for the seven symbols.  The basket
    mid-VWAP (70893) exceeds the net asset value of its constituents
    (4 * 8001 + 6 * 4000.5 + 14501 = 70508) by exactly the configured
    premium mean, 385. *)
Definition example_books : list (Symbol * OrderDepth) :=
  [ ("AMETHYSTS",
      mkOrderDepth [(10002, 1); (9996, 2); (9995, 29)]
                   [(10004, -2); (10005, -29)]);
    ("STARFRUIT", mkOrderDepth [(5036, 30)] [(5043, -30)]);
    ("ORCHIDS",
      mkOrderDepth [(1100, 5); (1099, 7)] [(1101, -4); (1103, -9)]);
    ("GIFT_BASKET",
      mkOrderDepth [(70891, 10); (70889, 10)] [(70895, -10); (70897, -10)]);
    ("CHOCOLATE", mkOrderDepth [(8000, 100)] [(8002, -100)]);
    ("STRAWBERRIES", mkOrderDepth [(4000, 100)] [(4001, -100)]);
    ("ROSES", mkOrderDepth [(14500, 50)] [(14502, -50)]) ]%string.

Definition example_observations : list (Symbol * ConversionObservation) :=
  [ ("ORCHIDS"%string, mkConversionObservation 1090 1092 1 1 1 2500 80) ].

Definition example_state (timestamp : Z) (blob : Blob) : TradingState :=
  {| traderData := blob;
     st_timestamp := timestamp;
     order_depths := example_books;
     st_position := [("AMETHYSTS"%string, 5)];
     conversionObservations := example_observations |}.

(** The same snapshot with every AMETHYSTS bid gone. *)
Definition empty_bids_state : TradingState :=
  {| traderData := Unparseable EmptyString;
     st_timestamp := 0;
     order_depths :=
       setitem String.eqb example_books "AMETHYSTS"%string
               (mkOrderDepth [] [(10004, -2); (10005, -29)]);
     st_position := [("AMETHYSTS"%string, 5)];
     conversionObservations := example_observations |}.

(** A trader that already stored one STARFRUIT price. *)
Definition Trader_one_price : Trader :=
  {| data := [("STARFRUIT"%string, [5039 # 1])] |}.

(** The history a previous process carried over in [traderData]. *)
Definition carried_history : Data :=
  [("STARFRUIT"%string, [5000; 5010; 5020; 5030]%Q)].

Definition linear_prices : list Q := [100; 200; 300; 400; 500]%Q.

(** The arbitrage example of the specification: best ask 95, no costs
    (transport, tariffs and storage at zero), position 0, limit 100. *)
Definition arbitrage_example_state (external_bid : Q) : TradingState :=
  {| traderData := Unparseable EmptyString;
     st_timestamp := 0;
     order_depths :=
       [("ORCHIDS"%string,
          mkOrderDepth [(90, 10)] [(95, -10); (96, -20)])];
     st_position := [];
     conversionObservations :=
       [("ORCHIDS"%string,
          mkConversionObservation external_bid 200 0 0 0 2500 80)] |}.

Definition costless_ORCHIDS : ProductConfig :=
  mkProductConfig "ORCHIDS"%string "ORCHIDS"%string 100 (Some 0%Q) None.

(** ** Vocabulary of the further properties *)

(** The last [k] elements of a list. *)
Definition keep_last {A : Type} (k : nat) (l : list A) : list A :=
  skipn (List.length l - k) l.

(** The test of the Long loop of [arbitrage_exchange_enter] on one level. *)
Definition long_clears (o : OTCArbitrage) (level : Z * Z) : bool :=
  Qle_bool (min_edge o) (long_edge_at o (fst level)).

(** The leading levels that pass a test, up to the first that does not. *)
Fixpoint leading {A : Type} (test : A -> bool) (l : list A) : list A :=
  match l with
  | [] => []
  | x :: l' => if test x then x :: leading test l' else []
  end.

(** An order takes (part of) a resting ask level. *)
Definition takes_ask (sym : Symbol) (order : Order) (level : Z * Z) : Prop :=
  o_symbol order = sym
  /\ o_price order = fst level
  /\ 0 <= o_quantity order <= Z.max (- snd level) 0.

(** The example snapshot with long inventories beyond the stop-loss bands
    (STARFRUIT 15 against a band of 10, GIFT_BASKET 58 against 57) and a
    STARFRUIT book of two levels a side. *)
Definition long_inventory_state : TradingState :=
  {| traderData := Unparseable EmptyString;
     st_timestamp := 0;
     order_depths :=
       setitem String.eqb example_books "STARFRUIT"%string
               (mkOrderDepth [(5000, 3); (4999, 8)]
                             [(5003, -4); (5004, -6)]);
     st_position := [("STARFRUIT", 15); ("GIFT_BASKET", 58)]%string;
     conversionObservations := example_observations |}.

(** Every order of the ledger is for the ledger's own symbol. *)
Definition symbols_ok (s : Strategy) : Prop :=
  Forall (fun o => o_symbol o = symbol s) (orders s).

(** ** The regression in binary64 *)

(** Python's [float] is the IEEE binary64 double, here Rocq's primitive
    [float]; [+], [-], [*] and [/] round to the nearest double, ties to
    even, as in Python. *)

(** [float(z)] for a Python [int]: the nearest double, ties to even (Python
    raises [OverflowError] from [2 ^ 1024] on, where this gives infinity). *)
Definition float_of_Z (z : Z) : float :=
  SF2Prim (binary_normalize prec emax z 0 false).

(** The exact value [m * 2 ^ e] of a finite double, as [(m, e)]. *)
Definition dyadic (f : float) : option (Z * Z) :=
  match Prim2SF f with
  | S754_zero _ => Some (0, 0)
  | S754_finite s m e => Some (cond_Zopp s (Zpos m), e)
  | S754_infinity _ | S754_nan => None
  end.

Fixpoint dyadics (l : list float) : option (list (Z * Z)) :=
  match l with
  | [] => Some []
  | f :: l' =>
      match dyadic f, dyadics l' with
      | Some d, Some ds => Some (d :: ds)
      | _, _ => None
      end
  end.

(** [math.fsum]: the exact sum of the values, rounded once to the nearest
    double, ties to even.  Finite values are summed here; on an infinity or
    a NaN, which no book price is, the model answers NaN. *)
Definition fsum (l : list float) : float :=
  match dyadics l with
  | None => nan
  | Some ds =>
      let e0 := fold_left Z.min (map snd ds) 0 in
      let m := py_sum (map (fun d => fst d * 2 ^ (snd d - e0)) ds) in
      SF2Prim (binary_normalize prec emax m e0 false)
  end.

(** [int(f)] for a finite double: truncation toward zero.  (On an infinity
    or a NaN Python raises; the quotient of two integers is neither.) *)
Definition py_int (f : float) : Z :=
  match Prim2SF f with
  | S754_finite s m e =>
      cond_Zopp s (if 0 <=? e then Zpos m * 2 ^ e else Zpos m / 2 ^ (- e))
  | _ => 0
  end.

(** [statistics.linear_regression(x, y)] as CPython 3.11 evaluates it, on
    integer abscissas and double ordinates: the means by [fsum], the sums
    [sxy] and [sxx] by [fsum] of the rounded products, and
    [StatisticsError] for the [ZeroDivisionError] of [sxy / sxx]. *)
Definition linear_regression_float (x : list Z) (y : list float)
  : Exc (float * float) :=
  let n := len x in
  if negb (len y =? n) then Raise StatisticsError
  else if n <? 2 then Raise StatisticsError
  else
    let xbar := (fsum (map float_of_Z x) / float_of_Z n)%float in
    let ybar := (fsum y / float_of_Z n)%float in
    let sxy :=
      fsum (map (fun xy => ((float_of_Z (fst xy) - xbar)
                            * (snd xy - ybar))%float)
                (combine x y)) in
    let sxx :=
      fsum (map (fun xi => let d := (float_of_Z xi - xbar)%float in
                           (d * d)%float) x) in
    if (sxx =? 0)%float then Raise StatisticsError
    else
      let slope := (sxy / sxx)%float in
      let intercept := (ybar - slope * xbar)%float in
      Ok (slope, intercept).

(** The abscissas with [t = int(self.timestamp / 100)] evaluated in
    doubles. *)
Definition regression_xs_float (timestamp n : Z) : list Z :=
  let t := py_int (float_of_Z timestamp / float_of_Z 100)%float in
  map (fun i => 100 * i) (py_range (t - n + 1) (t + 1)).

(** [LinearRegressionMM.predict_price] in doubles: the value it assigns to
    [self.fair_value], given the double [self.mid_vwap]. *)
Definition predict_price_float (l : LinearRegressionMM) (mid_vwap : float)
    (price_history : list float) : Exc float :=
  let m := mm l in
  let n := len price_history in
  if min_window_size l <=? n then
    let xs := regression_xs_float (timestamp (base m)) n in
    let ys := price_history in
    fit <- linear_regression_float xs ys ;;
    let slope := fst fit in
    let intercept := snd fit in
    let y_hat :=
      (slope * float_of_Z (timestamp (base m) + 100 * predict_shift l)
       + intercept)%float in
    Ok y_hat
  else Ok mid_vwap.

(** * Properties *)

(** ** The exception monad *)

Lemma bind_Ok {A B : Type} (c : Exc A) (k : A -> Exc B) (b : B) :
  bind c k = Ok b -> exists a, c = Ok a /\ k a = Ok b.
Proof.
  destruct c as [a | e]; simpl; intros H.
  - exists a. split; [reflexivity | assumption].
  - discriminate H.
Qed.

(** Peels the successful binds of a hypothesis [H : x <- c ;; k = Ok r]. *)
Ltac inv_bind H :=
  let a := fresh "v" in
  let Ha := fresh "E" in
  apply bind_Ok in H; destruct H as (a & Ha & H); cbv beta in H.

(** Peels every successful bind among the hypotheses. *)
Ltac inv_binds :=
  repeat match goal with
         | H : bind _ _ = Ok _ |- _ => inv_bind H
         | H : Ok _ = Ok _ |- _ => injection H as H; subst
         end.

Ltac inv_Ok H := injection H as H; subst.

(** ** Sub-strategy guards (C10) *)

Lemma within_sl_inventory_spec (m : MarketMaking) :
  within_sl_inventory m = true <->
  Z.abs (position (base m)) <= sl_inventory m.
Proof.
  unfold within_sl_inventory.
  rewrite andb_true_iff, !Z.leb_le. lia.
Qed.

Lemma scratch_outside_band (m : MarketMaking) (use_mid : bool) :
  within_sl_inventory m = false -> scratch_under_valued m use_mid = Ok m.
Proof. intros H. unfold scratch_under_valued. now rewrite H. Qed.

Lemma stop_loss_inside_band (m : MarketMaking) (ignore_worst : bool) :
  within_sl_inventory m = true -> stop_loss m ignore_worst = Ok m.
Proof.
  intros H. apply within_sl_inventory_spec in H.
  unfold stop_loss.
  replace (sl_inventory m <? position (base m)) with false
    by (symmetry; apply Z.ltb_ge; lia).
  replace (position (base m) <? - sl_inventory m) with false
    by (symmetry; apply Z.ltb_ge; lia).
  reflexivity.
Qed.

(** Whatever [scratch_under_valued] does, it leaves the position and the
    stop-loss band as they were. *)
Lemma scratch_keeps_guard (m m1 : MarketMaking) (use_mid : bool) :
  scratch_under_valued m use_mid = Ok m1 ->
  within_sl_inventory m1 = within_sl_inventory m.
Proof.
  unfold scratch_under_valued. intros H.
  destruct (within_sl_inventory m) eqn:G.
  - destruct (_ && _) in H.
    + inv_bind H. inv_Ok H. exact G.
    + destruct (_ && _) in H.
      * inv_bind H. inv_Ok H. exact G.
      * inv_Ok H. exact G.
  - inv_Ok H. exact G.
Qed.

(** C10: within one tick at most one of [scratch_under_valued] and
    [stop_loss] appends orders.  Scratching appends only when
    [-sl_inventory <= position <= sl_inventory], stop-loss only when
    [|position| > sl_inventory], and the two guards exclude each other for
    every position. *)
Theorem C10_scratch_stop_loss_exclusive
    (m m1 m2 : MarketMaking) (use_mid ignore_worst : bool)
    (Hscratch : scratch_under_valued m use_mid = Ok m1)
    (Hstop : stop_loss m1 ignore_worst = Ok m2) :
  (orders (base m1) = orders (base m) \/ orders (base m2) = orders (base m1))
  /\ (orders (base m1) <> orders (base m) ->
      - sl_inventory m <= position (base m) <= sl_inventory m)
  /\ (orders (base m2) <> orders (base m1) ->
      Z.abs (position (base m)) > sl_inventory m)
  /\ ~ (- sl_inventory m <= position (base m) <= sl_inventory m
        /\ Z.abs (position (base m)) > sl_inventory m).
Proof.
  pose proof (scratch_keeps_guard _ _ _ Hscratch) as Hguard.
  assert (Hsame : position (base m1) = position (base m)
                  /\ sl_inventory m1 = sl_inventory m).
  { clear Hstop Hguard. unfold scratch_under_valued in Hscratch.
    destruct (within_sl_inventory m).
    - destruct (_ && _) in Hscratch.
      + inv_bind Hscratch. inv_Ok Hscratch. now split.
      + destruct (_ && _) in Hscratch.
        * inv_bind Hscratch. inv_Ok Hscratch. now split.
        * inv_Ok Hscratch. now split.
    - inv_Ok Hscratch. now split. }
  destruct Hsame as [Hpos Hsl].
  destruct (within_sl_inventory m) eqn:G.
  - (* inside the band: stop_loss is silent *)
    rewrite (stop_loss_inside_band m1 ignore_worst Hguard) in Hstop.
    inv_Ok Hstop.
    apply within_sl_inventory_spec in G.
    split; [now right |].
    split; [intros _; lia |].
    split; [intros Hne; now contradiction Hne | lia].
  - (* outside the band: scratch is silent *)
    rewrite (scratch_outside_band m use_mid G) in Hscratch.
    inv_Ok Hscratch.
    assert (Hout : ~ Z.abs (position (base m1)) <= sl_inventory m1).
    { intros Hin. apply within_sl_inventory_spec in Hin. congruence. }
    split; [now left |].
    split; [intros Hne; now contradiction Hne |].
    split; [intros _; lia | lia].
Qed.

(** ** Quote prices (C4) *)

Lemma market_make_orders (m : MarketMaking) :
  orders (base (market_make m)) =
  orders (base m)
  ++ [mkOrder (symbol (base m)) (mm_bid_price m) (mm_bid_quantity m);
      mkOrder (symbol (base m)) (mm_ask_price m) (mm_ask_quantity m)].
Proof.
  unfold market_make. simpl. now rewrite <- app_assoc.
Qed.

(** C4: with a market-making spread of at least one, the bid that
    [market_make] appends is priced at [ceil(fair_value - mm_spread)], the ask
    at [floor(fair_value + mm_spread)], and
    bid price <= fair value <= ask price. *)
Theorem C4_market_make_never_crosses_fair_value (m : MarketMaking)
    (Hspread : (1 <= mm_spread m)%Q) :
  exists bid ask : Order,
    orders (base (market_make m)) = orders (base m) ++ [bid; ask]
    /\ o_price bid = Qceiling (fair_value m - mm_spread m)
    /\ o_price ask = Qfloor (fair_value m + mm_spread m)
    /\ (inject_Z (o_price bid) <= fair_value m)%Q
    /\ (fair_value m <= inject_Z (o_price ask))%Q.
Proof.
  eexists _, _. split; [apply market_make_orders |].
  simpl. unfold mm_bid_price, mm_ask_price.
  split; [reflexivity |]. split; [reflexivity |].
  split.
  - (* ceil x < x + 1 and x + 1 <= fair value *)
    pose proof (Qceiling_lt (fair_value m - mm_spread m)) as Hc.
    unfold Z.sub in Hc. rewrite inject_Z_plus, inject_Z_opp in Hc.
    change (inject_Z 1) with 1%Q in Hc. lra.
  - (* fair value <= x - 1 and x - 1 < floor x *)
    pose proof (Qlt_floor (fair_value m + mm_spread m)) as Hf.
    rewrite inject_Z_plus in Hf.
    change (inject_Z 1) with 1%Q in Hf. lra.
Qed.

(** ** Regression fallback (C7) *)

(** C7: when the price history is shorter than the minimum window,
    [predict_price] returns normally and sets the fair value to the mid-VWAP
    of the current tick. *)
Theorem C7_predict_price_fallback (l : LinearRegressionMM)
    (price_history : list Q)
    (Hshort : len price_history < min_window_size l) :
  exists l' : LinearRegressionMM,
    predict_price l price_history = Ok l'
    /\ fair_value (mm l') = mid_vwap (base (mm l))
    /\ base (mm l') = base (mm l).
Proof.
  unfold predict_price.
  replace (min_window_size l <=? len price_history) with false
    by (symmetry; apply Z.leb_gt; exact Hshort).
  eexists. split; [reflexivity |]. simpl. split; reflexivity.
Qed.

(** ** Basket pricing (C9) *)

Lemma fdiv_Ok (a b z : Q) :
  fdiv a b = Ok z -> z = (a / b)%Q /\ ~ (b == 0)%Q.
Proof.
  unfold fdiv. destruct (Qeq_bool b 0) eqn:E; intros H; [discriminate |].
  inv_Ok H. split; [reflexivity |].
  now apply Qeq_bool_neq.
Qed.

(** What [BasketTrading.__init__] establishes about the fields that
    [calculate_fair_value] reads. *)
Lemma BasketTrading_init_pricing (state : TradingState)
    (bc : ProductConfig) (cc : list (Symbol * ProductConfig))
    (sc : BasketConfig) (b : BasketTrading) :
  BasketTrading_init state bc cc sc = Ok b ->
  fair_value (basket b) = mid_vwap (base (basket b))
  /\ premium b = (mid_vwap (base (basket b)) - basket_nav b)%Q
  /\ z_score b = ((premium b - premium_mean b) / premium_std b)%Q
  /\ ~ (premium_std b == 0)%Q.
Proof.
  unfold BasketTrading_init. intros H.
  do 7 inv_bind H.
  match goal with
  | Hdiv : fdiv _ _ = Ok _ |- _ =>
      apply fdiv_Ok in Hdiv; destruct Hdiv as [Hz Hstd]
  end.
  inv_Ok H. simpl. repeat split; try reflexivity. exact Hstd.
Qed.

Lemma pricing_shift_at_mean (b : BasketTrading) :
  (premium b == premium_mean b)%Q -> (pricing_shift b == 0)%Q.
Proof.
  intros H. unfold pricing_shift, demeaned_premium.
  rewrite H. ring.
Qed.

(** C9: when the basket premium equals the configured long-run mean, the
    z-score is zero, the pricing shift of [calculate_fair_value] is zero and
    the basket fair value stays equal to the basket mid-VWAP. *)
Theorem C9_zero_correction_at_mean (state : TradingState)
    (bc : ProductConfig) (cc : list (Symbol * ProductConfig))
    (sc : BasketConfig) (b : BasketTrading)
    (Hinit : BasketTrading_init state bc cc sc = Ok b)
    (Hmean : (premium b == premium_mean b)%Q) :
  (z_score b == 0)%Q
  /\ (pricing_shift b == 0)%Q
  /\ (fair_value (basket (calculate_fair_value b))
      == mid_vwap (base (basket b)))%Q
  /\ mid_vwap (base (basket (calculate_fair_value b)))
     = mid_vwap (base (basket b)).
Proof.
  destruct (BasketTrading_init_pricing _ _ _ _ _ Hinit)
    as (Hfair & _ & Hz & Hstd).
  pose proof (pricing_shift_at_mean b Hmean) as Hshift.
  split.
  - rewrite Hz, Hmean. field. exact Hstd.
  - split; [exact Hshift |]. split; [| reflexivity].
    simpl. rewrite Hshift, Hfair. ring.
Qed.

(** ** Least squares on an exactly linear history (C8) *)

Section LeastSquares.
Local Open Scope Q_scope.

Lemma fold_left_Qplus_acc (l : list Q) (acc : Q) :
  fold_left Qplus l acc == acc + fold_left Qplus l 0.
Proof.
  revert acc. induction l as [| x l IH]; intros acc; simpl.
  - ring.
  - rewrite (IH (acc + x)), (IH (0 + x)). ring.
Qed.

Lemma Qsum_cons (x : Q) (l : list Q) : Qsum (x :: l) == x + Qsum l.
Proof.
  unfold Qsum. simpl. rewrite fold_left_Qplus_acc. ring.
Qed.

Lemma Qsum_nil : Qsum [] == 0.
Proof. reflexivity. Qed.

Lemma Qsquare_nonneg (q : Q) : 0 <= q * q.
Proof. nra. Qed.

Lemma Qsquare_pos (q : Q) : ~ q == 0 -> 0 < q * q.
Proof.
  intros H.
  destruct (Q_dec q 0) as [[Hlt | Hgt] | Heq]; [nra | nra | contradiction].
Qed.

Lemma Qsum_sq_dev_nonneg (c : Q) (l : list Q) :
  0 <= Qsum (map (fun x => (x - c) * (x - c)) l).
Proof.
  induction l as [| x l IH]; cbn [map].
  - rewrite Qsum_nil. lra.
  - rewrite Qsum_cons.
    pose proof (Qsquare_nonneg (x - c)) as Hx.
    set (s := (x - c) * (x - c)) in *. lra.
Qed.

(** Two distinct abscissas make the sum of squared deviations positive. *)
Lemma Qsum_sq_dev_pos (c x0 x1 : Q) (rest : list Q) :
  ~ x0 == x1 ->
  0 < Qsum (map (fun x => (x - c) * (x - c)) (x0 :: x1 :: rest)).
Proof.
  intros Hne. cbn [map]. rewrite !Qsum_cons.
  pose proof (Qsum_sq_dev_nonneg c rest) as Hrest.
  pose proof (Qsquare_nonneg (x0 - c)) as H0.
  pose proof (Qsquare_nonneg (x1 - c)) as H1.
  destruct (Qeq_dec x0 c) as [E0 | N0].
  - assert (N1 : ~ x1 - c == 0) by (intros E1; apply Hne; lra).
    apply Qsquare_pos in N1.
    set (s0 := (x0 - c) * (x0 - c)) in *.
    set (s1 := (x1 - c) * (x1 - c)) in *. lra.
  - assert (N0' : ~ x0 - c == 0) by (intros E; apply N0; lra).
    apply Qsquare_pos in N0'.
    set (s0 := (x0 - c) * (x0 - c)) in *.
    set (s1 := (x1 - c) * (x1 - c)) in *. lra.
Qed.

Variables a b : Q.

Lemma on_line_length (xs ys : list Q) :
  on_line a b xs ys -> List.length ys = List.length xs.
Proof. intros H. symmetry. exact (Forall2_length H). Qed.

Lemma Qsum_on_line (xs ys : list Q) :
  on_line a b xs ys -> Qsum ys == a * Qsum xs + b * inject_Z (len xs).
Proof.
  induction 1 as [| x y xs ys Hxy _ IH].
  - unfold len. simpl. rewrite Qsum_nil. ring.
  - rewrite !Qsum_cons, IH, Hxy.
    unfold len. simpl List.length.
    rewrite Nat2Z.inj_succ, <- Z.add_1_r, inject_Z_plus.
    change (inject_Z 1) with 1. ring.
Qed.

Lemma sxy_on_line (xbar ybar : Q) (xs ys : list Q) :
  on_line a b xs ys -> ybar == a * xbar + b ->
  Qsum (map (fun xy => (fst xy - xbar) * (snd xy - ybar)) (combine xs ys))
  == a * Qsum (map (fun xi => (xi - xbar) * (xi - xbar)) xs).
Proof.
  intros H Hbar.
  induction H as [| x y xs ys Hxy _ IH]; cbn [map combine fst snd].
  - rewrite Qsum_nil. ring.
  - rewrite !Qsum_cons, IH. rewrite Hxy, Hbar. ring.
Qed.

(** On at least two points of a line whose abscissas are not all equal,
    [linear_regression] returns the slope and the intercept of the line. *)
Lemma linear_regression_on_line (x0 x1 : Q) (rest ys : list Q) :
  ~ x0 == x1 ->
  on_line a b (x0 :: x1 :: rest) ys ->
  exists slope intercept,
    linear_regression (x0 :: x1 :: rest) ys = Ok (slope, intercept)
    /\ slope == a /\ intercept == b.
Proof.
  intros Hne Hline.
  set (xs := x0 :: x1 :: rest) in *.
  pose proof (on_line_length _ _ Hline) as Hlen.
  assert (Hn : (2 <= len xs)%Z).
  { unfold len, xs. simpl List.length. lia. }
  assert (Hn0 : ~ inject_Z (len xs) == 0).
  { intros E. change 0 with (inject_Z 0) in E.
    apply (proj1 (inject_Z_injective _ _)) in E. lia. }
  unfold linear_regression.
  replace (len ys =? len xs)%Z with true
    by (symmetry; apply Z.eqb_eq; unfold len; now rewrite Hlen).
  replace (len xs <? 2)%Z with false by (symmetry; apply Z.ltb_ge; exact Hn).
  simpl negb. cbv iota.
  set (xbar := Qsum xs / inject_Z (len xs)).
  set (ybar := Qsum ys / inject_Z (len xs)).
  assert (Hbar : ybar == a * xbar + b).
  { unfold ybar, xbar. rewrite (Qsum_on_line _ _ Hline). now field. }
  set (sxx := Qsum (map (fun xi => (xi - xbar) * (xi - xbar)) xs)).
  assert (Hsxx : 0 < sxx) by (apply Qsum_sq_dev_pos; exact Hne).
  assert (Hsxx0 : ~ sxx == 0) by lra.
  destruct (Qeq_bool sxx 0) eqn:E.
  - apply Qeq_bool_eq in E. contradiction.
  - eexists _, _. split; [reflexivity |].
    rewrite (sxy_on_line xbar ybar xs ys Hline Hbar). fold sxx.
    split.
    + now field.
    + rewrite Hbar. now field.
Qed.
End LeastSquares.

Lemma regression_xs_shape (timestamp n : Z) :
  2 <= n ->
  exists rest,
    regression_xs timestamp n =
    100 * (Z.quot timestamp 100 - n + 1)
    :: 100 * (Z.quot timestamp 100 - n + 2) :: rest.
Proof.
  intros Hn. unfold regression_xs, py_range.
  set (t := Z.quot timestamp 100).
  replace (t + 1 - (t - n + 1)) with n by lia.
  destruct (Z.to_nat n) as [| [| k]] eqn:E; try lia.
  cbn [seq map]. eexists. f_equal; [f_equal; lia |].
  f_equal. f_equal. lia.
Qed.

(** In exact arithmetic: on a history of at least two points (and at least
    the minimum window) that lies exactly on a line [price = a * x + b] over
    the abscissas [100 * i] ending at the current timestamp [100 * t],
    [predict_price] with [predict_shift = 1] returns normally and sets the
    fair value to the value of the line at the next tick, [100 * (t + 1)]. *)
Lemma predict_price_exact_arithmetic (l : LinearRegressionMM)
    (price_history : list Q) (a b : Q) (t : Z)
    (Htick : timestamp (base (mm l)) = 100 * t)
    (Hshift : predict_shift l = 1)
    (Hwindow : min_window_size l <= len price_history)
    (Htwo : 2 <= len price_history)
    (Hline : on_line a b
               (map inject_Z (regression_xs (100 * t) (len price_history)))
               price_history) :
  exists l' : LinearRegressionMM,
    predict_price l price_history = Ok l'
    /\ (fair_value (mm l') == a * inject_Z (100 * (t + 1)) + b)%Q
    /\ base (mm l') = base (mm l).
Proof.
  unfold predict_price.
  replace (min_window_size l <=? len price_history) with true
    by (symmetry; apply Z.leb_le; exact Hwindow).
  rewrite Htick, Hshift.
  destruct (regression_xs_shape (100 * t) (len price_history) Htwo)
    as [rest Hxs].
  rewrite Hxs in Hline |- *. cbn [map] in Hline |- *.
  assert (Hdistinct :
    ~ (inject_Z (100 * (100 * t ÷ 100 - len price_history + 1))
       == inject_Z (100 * (100 * t ÷ 100 - len price_history + 2)))%Q).
  { rewrite inject_Z_injective. lia. }
  destruct (linear_regression_on_line a b _ _ _ _ Hdistinct Hline)
    as (slope & intercept & Hfit & Hslope & Hintercept).
  rewrite Hfit. cbn [bind fst snd].
  eexists. split; [reflexivity |]. split; [| reflexivity].
  cbn [mm set_fair_value fair_value].
  rewrite Hslope, Hintercept.
  replace (100 * t + 100 * 1) with (100 * (t + 1)) by lia.
  reflexivity.
Qed.

(** C8, as the code behaves.  On a history that is perfectly linear in the
    tick index, the least-squares projection that [predict_price] evaluates
    with [predict_shift = 1] is the next in-sequence value in exact
    arithmetic.  The program evaluates it in doubles: on the example of the
    specification, the prices 100, 200, 300, 400, 500 at the ticks 0 to 4,
    the double it stores is exactly 600. *)
Theorem C8_predict_price_on_line (l : LinearRegressionMM)
    (price_history : list Q) (a b : Q) (t : Z)
    (Htick : timestamp (base (mm l)) = 100 * t)
    (Hshift : predict_shift l = 1)
    (Hwindow : min_window_size l <= len price_history)
    (Htwo : 2 <= len price_history)
    (Hline : on_line a b
               (map inject_Z (regression_xs (100 * t) (len price_history)))
               price_history) :
  (exists l' : LinearRegressionMM,
     predict_price l price_history = Ok l'
     /\ (fair_value (mm l') == a * inject_Z (100 * (t + 1)) + b)%Q
     /\ base (mm l') = base (mm l))
  /\ (t = 4 -> min_window_size l <= 5 ->
      forall mid_vwap : float,
        predict_price_float l mid_vwap [100; 200; 300; 400; 500]%float
        = Ok 600%float).
Proof.
  split.
  - now apply predict_price_exact_arithmetic.
  - intros -> Hmin mid_vwap. unfold predict_price_float.
    replace (min_window_size l <=? len [100; 200; 300; 400; 500]%float)
      with true by (symmetry; apply Z.leb_le; exact Hmin).
    rewrite Htick, Hshift. vm_compute. reflexivity.
Qed.

(** C8 fails as stated, for the program works in doubles.  The prices 100,
    93, 86, 79, 72 at the ticks 6 to 10 lie on the line
    [price = 142 - 0.07 * x]; the next in-sequence value is 65, and it is
    the fair value in exact arithmetic.  The doubles give the slope -0.07
    and the intercept 142.0, and [predict_price] stores
    64.99999999999999, the double just below 65. *)
Lemma C8_rounding_counterexample :
  exists l,
    LinearRegressionMM_init (example_state 1000 (Unparseable EmptyString))
      (mkProductConfig "STARFRUIT"%string "STARFRUIT"%string 20 None None)
      config_STARFRUIT = Ok l
    /\ on_line (- (7 # 100)) 142
               (map inject_Z (regression_xs 1000 5))
               [100; 93; 86; 79; 72]%Q
    /\ (- (7 # 100) * inject_Z 1100 + 142 == 65)%Q
    /\ (exists l' : LinearRegressionMM,
          predict_price l [100; 93; 86; 79; 72]%Q = Ok l'
          /\ (fair_value (mm l') == 65)%Q)
    /\ linear_regression_float (regression_xs_float 1000 5)
                               [100; 93; 86; 79; 72]%float
       = Ok ((-0x1.1eb851eb851ecp-4)%float, 142%float)
    /\ (forall mid_vwap : float,
          predict_price_float l mid_vwap [100; 93; 86; 79; 72]%float
          = Ok 0x1.03fffffffffffp+6%float)
    /\ (0x1.03fffffffffffp+6 <? 65)%float = true
    /\ next_up 0x1.03fffffffffffp+6%float = 65%float.
Proof.
  eexists. split; [reflexivity |].
  split; [vm_compute; repeat constructor |].
  split; [reflexivity |].
  split.
  { eexists. split; [vm_compute; reflexivity | reflexivity]. }
  split; [vm_compute; reflexivity |].
  split; [intros mid_vwap; vm_compute; reflexivity |].
  split; vm_compute; reflexivity.
Qed.

(** ** Position limits (C1) *)

Lemma fold_left_Zadd_acc (l : list Z) (acc : Z) :
  fold_left Z.add l acc = acc + fold_left Z.add l 0.
Proof.
  revert acc. induction l as [| x l IH]; intros acc; simpl.
  - lia.
  - rewrite (IH (acc + x)), (IH x). lia.
Qed.

Lemma py_sum_cons (x : Z) (l : list Z) : py_sum (x :: l) = x + py_sum l.
Proof. unfold py_sum. simpl. apply fold_left_Zadd_acc. Qed.

Lemma py_sum_nonneg (l : list Z) : Forall (fun x => 0 <= x) l -> 0 <= py_sum l.
Proof.
  induction 1 as [| x l Hx _ IH]; [reflexivity |].
  rewrite py_sum_cons. lia.
Qed.

Lemma py_sum_nonpos (l : list Z) : Forall (fun x => x <= 0) l -> py_sum l <= 0.
Proof.
  induction 1 as [| x l Hx _ IH]; [reflexivity |].
  rewrite py_sum_cons. lia.
Qed.

Lemma total_quantity_cons (o : Order) (os : list Order) :
  total_quantity (o :: os) = o_quantity o + total_quantity os.
Proof. unfold total_quantity. simpl map. apply py_sum_cons. Qed.

Lemma total_quantity_snoc (os : list Order) (o : Order) :
  total_quantity (os ++ [o]) = total_quantity os + o_quantity o.
Proof.
  induction os as [| o' os IH]; simpl app.
  - rewrite total_quantity_cons. unfold total_quantity, py_sum. simpl. lia.
  - rewrite !total_quantity_cons, IH. lia.
Qed.

Lemma fills_snoc (p : Z) (os : list Order) (o : Order) :
  fills p (os ++ [o]) = fills p os ++ [p + total_quantity (os ++ [o])].
Proof.
  revert p. induction os as [| o' os IH]; intros p; simpl.
  - rewrite total_quantity_cons. unfold total_quantity, py_sum. simpl.
    do 2 f_equal. lia.
  - rewrite IH. rewrite (total_quantity_cons o' (os ++ [o])).
    do 3 f_equal. lia.
Qed.

(** Appending an order and moving ExpectedPosition by its quantity keeps
    the ledger invariant as long as the new ExpectedPosition is in range. *)
Lemma emit_sell_ok (s : Strategy) (price q : Z) :
  ledger_ok s ->
  in_range (position_limit s) (expected_position s + q) ->
  ledger_ok (emit_sell s price q).
Proof.
  intros (Hexp & Hfills & _) Hq. unfold ledger_ok, within_limit, filled_position.
  cbn [emit_sell expected_position orders position position_limit].
  rewrite fills_snoc, total_quantity_snoc. cbn [o_quantity].
  unfold filled_position in Hexp.
  split; [lia |]. split; [| exact Hq].
  apply Forall_app. split; [exact Hfills |].
  constructor; [| constructor]. now replace
    (position s + (total_quantity (orders s) + q))
    with (expected_position s + q) by lia.
Qed.

Lemma emit_buy_ok (s : Strategy) (price q : Z) :
  ledger_ok s ->
  in_range (position_limit s) (expected_position s + q) ->
  ledger_ok (emit_buy s price q).
Proof.
  intros (Hexp & Hfills & _) Hq. unfold ledger_ok, within_limit, filled_position.
  cbn [emit_buy expected_position orders position position_limit].
  rewrite fills_snoc, total_quantity_snoc. cbn [o_quantity].
  unfold filled_position in Hexp.
  split; [lia |]. split; [| exact Hq].
  apply Forall_app. split; [exact Hfills |].
  constructor; [| constructor]. now replace
    (position s + (total_quantity (orders s) + q))
    with (expected_position s + q) by lia.
Qed.

Lemma fresh_ledger_ok (s : Strategy) :
  fresh s -> Z.abs (position s) <= position_limit s -> ledger_ok s.
Proof.
  intros (_ & _ & _ & _ & Ho & He & _) Hpos.
  unfold ledger_ok, within_limit, filled_position, in_range.
  rewrite Ho, He. cbn. split; [lia |]. split; [constructor | lia].
Qed.

Lemma fold_left_max_In (l : list Z) (x : Z) :
  In (fold_left Z.max l x) (x :: l).
Proof.
  revert x. induction l as [| y l IH]; intros x; simpl.
  - now left.
  - destruct (IH (Z.max x y)) as [H | H].
    + destruct (Z.max_spec x y) as [[_ E] | [_ E]]; rewrite E in H |- *; auto.
    + auto.
Qed.

Lemma fold_left_min_In (l : list Z) (x : Z) :
  In (fold_left Z.min l x) (x :: l).
Proof.
  revert x. induction l as [| y l IH]; intros x; simpl.
  - now left.
  - destruct (IH (Z.min x y)) as [H | H].
    + destruct (Z.min_spec x y) as [[_ E] | [_ E]]; rewrite E in H |- *; auto.
    + auto.
Qed.

Lemma py_max_In (xs : list Z) (k : Z) : py_max xs = Ok k -> In k xs.
Proof.
  destruct xs as [| x xs]; simpl; intros H; [discriminate |].
  inv_Ok H. apply fold_left_max_In.
Qed.

Lemma py_min_In (xs : list Z) (k : Z) : py_min xs = Ok k -> In k xs.
Proof.
  destruct xs as [| x xs]; simpl; intros H; [discriminate |].
  inv_Ok H. apply fold_left_min_In.
Qed.

Lemma getitem_of_key {V : Type} (d : list (Z * V)) (k : Z) :
  In k (keys d) -> exists v, getitem Z.eqb d k = Ok v /\ In (k, v) d.
Proof.
  induction d as [| [k' v'] d IH]; simpl; intros H; [contradiction |].
  destruct (Z.eqb_spec k k') as [-> | Hne].
  - exists v'. split; [reflexivity | now left].
  - destruct H as [H | H]; [congruence |].
    destruct (IH H) as (v & Hv & Hin). exists v. split; [exact Hv | now right].
Qed.

Lemma py_sum_values_nonneg (d : list (Z * Z)) :
  Forall (fun pq => 0 <= snd pq) d -> 0 <= py_sum (values d).
Proof.
  intros H. apply py_sum_nonneg. unfold values.
  apply Forall_map. exact H.
Qed.

Lemma py_sum_values_nonpos (d : list (Z * Z)) :
  Forall (fun pq => snd pq <= 0) d -> py_sum (values d) <= 0.
Proof.
  intros H. apply py_sum_nonpos. unfold values.
  apply Forall_map. exact H.
Qed.

Lemma fresh_book_ready (s : Strategy) :
  fresh s -> book_signed s -> book_ready s.
Proof.
  intros (Hb & Ha & Hbv & Hav & _) [Sb Sa]. unfold book_ready.
  apply py_max_In, getitem_of_key in Hb. destruct Hb as (vb & Hvb & Hinb).
  apply py_min_In, getitem_of_key in Ha. destruct Ha as (va & Hva & Hina).
  rewrite Forall_forall in Sb, Sa.
  split; [exists vb; split; [exact Hvb | exact (Sb _ Hinb)] |].
  split; [exists va; split; [exact Hva | exact (Sa _ Hina)] |].
  rewrite Hbv, Hav. split.
  - apply py_sum_values_nonneg. now apply Forall_forall.
  - apply py_sum_values_nonpos. now apply Forall_forall.
Qed.

(** Splits [H : static s' = static s] into one equation per field and
    rewrites with them. *)
Ltac use_static H :=
  unfold static in H; injection H as H; intros;
  repeat match goal with
         | E : ?f ?s' = ?f ?s |- _ => try rewrite E in *; clear E
         end.

Lemma book_ready_static (s s' : Strategy) :
  static s' = static s -> book_ready s -> book_ready s'.
Proof.
  intros H Hready. unfold book_ready in *. use_static H. exact Hready.
Qed.

Lemma emit_sell_static (s : Strategy) (price q : Z) :
  static (emit_sell s price q) = static s.
Proof. reflexivity. Qed.

Lemma emit_buy_static (s : Strategy) (price q : Z) :
  static (emit_buy s price q) = static s.
Proof. reflexivity. Qed.


(** *** Each sizing step keeps the ledger invariant *)

Lemma scratch_step (m : MarketMaking) (use_mid : bool) :
  book_ready (base m) ->
  ledger_ok (base m) ->
  expected_position (base m) = position (base m) ->
  exists m1,
    scratch_under_valued m use_mid = Ok m1
    /\ ledger_ok (base m1)
    /\ static (base m1) = static (base m)
    /\ sl_inventory m1 = sl_inventory m
    /\ (base m1 = base m \/ within_sl_inventory m = true).
Proof.
  intros ((vb & Hvb & _) & (va & Hva & _) & _) Hok Hexp.
  pose proof Hok as (_ & _ & Hin). unfold within_limit, in_range in Hin.
  unfold scratch_under_valued.
  destruct (within_sl_inventory m) eqn:G.
  - destruct (_ && _).
    + rewrite Hvb. cbn [bind]. eexists. split; [reflexivity |].
      cbn [base with_base sl_inventory].
      split; [| split; [apply emit_sell_static | split; [reflexivity | now right]]].
      apply emit_sell_ok; [exact Hok |]. unfold in_range. lia.
    + destruct (_ && _).
      * rewrite Hva. cbn [bind]. eexists. split; [reflexivity |].
        cbn [base with_base sl_inventory].
        split; [| split; [apply emit_buy_static | split; [reflexivity | now right]]].
        apply emit_buy_ok; [exact Hok |]. unfold in_range. lia.
      * exists m. split; [reflexivity |]. split; [exact Hok |].
        split; [reflexivity |]. split; [reflexivity | now left].
  - exists m. split; [reflexivity |]. split; [exact Hok |].
        split; [reflexivity |]. split; [reflexivity | now left].
Qed.

Lemma stop_loss_step (m : MarketMaking) (ignore_worst : bool) :
  book_ready (base m) ->
  ledger_ok (base m) ->
  expected_position (base m) = position (base m)
  \/ within_sl_inventory m = true ->
  - position_limit (base m) <= sl_inventory m ->
  exists m2,
    stop_loss m ignore_worst = Ok m2
    /\ ledger_ok (base m2)
    /\ static (base m2) = static (base m).
Proof.
  intros ((vb & Hvb & Hvb0) & (va & Hva & Hva0) & _) Hok Hfrom Hcfg.
  destruct Hfrom as [Hexp | Hband].
  2:{ rewrite (stop_loss_inside_band m ignore_worst Hband).
      exists m. split; [reflexivity | split; [assumption | reflexivity]]. }
  pose proof Hok as (_ & _ & Hin). unfold within_limit, in_range in Hin.
  unfold stop_loss.
  destruct (_ && _) eqn:Csell.
  - apply andb_true_iff in Csell. destruct Csell as [Hlong _].
    apply Z.ltb_lt in Hlong.
    destruct (_ <=? _).
    + rewrite Hvb. cbn [bind]. eexists. split; [reflexivity |].
      cbn [base with_base]. split; [| apply emit_sell_static].
      apply emit_sell_ok; [exact Hok |]. unfold in_range. lia.
    + exists m. split; [reflexivity | split; [assumption | reflexivity]].
  - clear Csell. destruct (_ && _) eqn:Cbuy.
    + apply andb_true_iff in Cbuy. destruct Cbuy as [Hshort _].
      apply Z.ltb_lt in Hshort.
      destruct (_ <=? _).
      * rewrite Hva. cbn [bind]. eexists. split; [reflexivity |].
        cbn [base with_base]. split; [| apply emit_buy_static].
        apply emit_buy_ok; [exact Hok |]. unfold in_range. lia.
      * exists m. split; [reflexivity | split; [assumption | reflexivity]].
    + exists m. split; [reflexivity | split; [assumption | reflexivity]].
Qed.

Lemma aggressive_stop_loss_step (b : BasketTrading) :
  book_ready (base (basket b)) ->
  ledger_ok (base (basket b)) ->
  expected_position (base (basket b)) = position (base (basket b))
  \/ within_sl_inventory (basket b) = true ->
  - position_limit (base (basket b)) <= sl_target b ->
  sl_target b <= sl_inventory (basket b) ->
  ledger_ok (base (basket (aggressive_stop_loss b)))
  /\ static (base (basket (aggressive_stop_loss b))) = static (base (basket b)).
Proof.
  intros (_ & _ & Hbv & Hav) Hok Hfrom Hlow Hhigh.
  pose proof Hok as (_ & _ & Hin). unfold within_limit, in_range in Hin.
  unfold aggressive_stop_loss.
  destruct (sl_inventory (basket b) <? position (base (basket b))) eqn:Hlong.
  - apply Z.ltb_lt in Hlong. cbn [basket with_basket base with_base].
    split; [| apply emit_sell_static].
    destruct Hfrom as [Hexp | Hband];
      [| apply within_sl_inventory_spec in Hband; lia].
    apply emit_sell_ok; [exact Hok |]. unfold in_range. lia.
  - apply Z.ltb_ge in Hlong.
    destruct (position (base (basket b)) <? - sl_inventory (basket b))
      eqn:Hshort.
    + apply Z.ltb_lt in Hshort. cbn [basket with_basket base with_base].
      split; [| apply emit_buy_static].
      destruct Hfrom as [Hexp | Hband];
        [| apply within_sl_inventory_spec in Hband; lia].
      apply emit_buy_ok; [exact Hok |]. unfold in_range. lia.
    + split; [exact Hok | reflexivity].
Qed.

Lemma long_walk_ok (o : OTCArbitrage) (levels : list (Z * Z)) (s : Strategy) :
  ledger_ok s ->
  ledger_ok (long_walk o levels s) /\ static (long_walk o levels s) = static s.
Proof.
  revert s. induction levels as [| [price quantity] rest IH]; intros s Hok.
  - split; [exact Hok | reflexivity].
  - cbn [long_walk]. destruct (Qle_bool _ _).
    + pose proof Hok as (_ & _ & Hin). unfold within_limit, in_range in Hin.
      match goal with
      | |- context [long_walk o rest ?s1] =>
          destruct (IH s1) as [Hok1 Hst1]
      end.
      { apply emit_buy_ok; [exact Hok |]. unfold in_range. lia. }
      split; [exact Hok1 |]. rewrite Hst1. apply emit_buy_static.
    + split; [exact Hok | reflexivity].
Qed.

Lemma short_walk_ok (o : OTCArbitrage) (levels : list (Z * Z)) (s : Strategy) :
  book_ready s ->
  ledger_ok s ->
  exists s',
    short_walk o levels s = Ok s' /\ ledger_ok s' /\ static s' = static s.
Proof.
  revert s. induction levels as [| [price quantity] rest IH];
    intros s Hready Hok.
  - exists s. split; [reflexivity | split; [exact Hok | reflexivity]].
  - cbn [short_walk]. destruct (Qle_bool _ _).
    + pose proof Hready as ((vb & Hvb & _) & _).
      pose proof Hok as (_ & _ & Hin). unfold within_limit, in_range in Hin.
      rewrite Hvb. cbn [bind].
      match goal with
      | |- context [short_walk o rest ?s1] =>
          destruct (IH s1) as (s' & Hs' & Hok' & Hst')
      end.
      { apply (book_ready_static s); [apply emit_sell_static | exact Hready]. }
      { apply emit_sell_ok; [exact Hok |]. unfold in_range. lia. }
      exists s'. split; [exact Hs' |]. split; [exact Hok' |].
      rewrite Hst'. apply emit_sell_static.
    + exists s. split; [reflexivity | split; [exact Hok | reflexivity]].
Qed.

(** *** Quoting *)

Lemma bid_capacity_bounds (s : Strategy) :
  0 <= bid_capacity s
  /\ bid_capacity s <= Z.max (position_limit s - expected_position s) 0.
Proof. unfold bid_capacity, min4. lia. Qed.

Lemma ask_capacity_bounds (s : Strategy) :
  Z.min (- position_limit s - expected_position s) 0 <= ask_capacity s
  /\ ask_capacity s <= 0.
Proof. unfold ask_capacity, max4. lia. Qed.

Lemma mm_bid_quantity_bounds (m : MarketMaking) :
  0 <= mm_bid_quantity m <= bid_capacity (base m).
Proof.
  pose proof (bid_capacity_bounds (base m)) as [H0 _].
  unfold mm_bid_quantity. cbv zeta.
  set (skew := Qceiling _). lia.
Qed.

Lemma mm_ask_quantity_bounds (m : MarketMaking) :
  ask_capacity (base m) <= mm_ask_quantity m <= 0.
Proof.
  pose proof (ask_capacity_bounds (base m)) as [_ H0].
  unfold mm_ask_quantity. cbv zeta.
  set (skew := Qfloor _). lia.
Qed.

(** A bid within the bid capacity followed by an ask within the ask capacity
    leaves every successive fill, and hence the final one, in range. *)
Lemma quote_ok (s : Strategy) (bid_price bid_q ask_price ask_q : Z) :
  ledger_ok s ->
  0 <= bid_q <= bid_capacity s ->
  ask_capacity s <= ask_q <= 0 ->
  let s' := append_order (append_order s bid_price bid_q) ask_price ask_q in
  within_limit s'
  /\ Forall (in_range (position_limit s')) (fills (position s') (orders s'))
  /\ Z.abs (filled_position s') <= position_limit s'
  /\ static s' = static s.
Proof.
  intros (Hexp & Hfills & Hin) Hb Ha s'.
  pose proof (bid_capacity_bounds s) as [_ Hbc].
  pose proof (ask_capacity_bounds s) as [Hac _].
  unfold within_limit, in_range in Hin. unfold filled_position in Hexp.
  subst s'. unfold within_limit, filled_position.
  cbn [append_order expected_position orders position position_limit].
  rewrite !fills_snoc, !total_quantity_snoc. cbn [o_quantity].
  split; [exact Hin |]. split; [| split; [lia | reflexivity]].
  apply Forall_app. split.
  - apply Forall_app. split; [exact Hfills |].
    constructor; [unfold in_range; lia | constructor].
  - constructor; [unfold in_range; lia | constructor].
Qed.

Lemma static_limit_position (s s' : Strategy) :
  static s' = static s ->
  position_limit s' = position_limit s /\ position s' = position s.
Proof. unfold static. intros H. split; congruence. Qed.

Lemma within_limit_static (s s' : Strategy) :
  ledger_ok s' -> static s' = static s ->
  within_limit s'
  /\ position_limit s' = position_limit s /\ position s' = position s.
Proof.
  intros (_ & _ & Hin) Hst. split; [exact Hin |].
  now apply static_limit_position.
Qed.

(** What one tick establishes, in terms of the engine it started from. *)
Lemma tick_summary (s0 s2 final : Strategy) :
  static s2 = static s0 ->
  within_limit final
  /\ Forall (in_range (position_limit final))
            (fills (position final) (orders final))
  /\ Z.abs (filled_position final) <= position_limit final
  /\ static final = static s2 ->
  (within_limit final
   /\ position_limit final = position_limit s0
   /\ position final = position s0)
  /\ Forall (in_range (position_limit s0))
            (fills (position s0) (orders final))
  /\ Z.abs (position s0 + total_quantity (orders final)) <= position_limit s0.
Proof.
  intros H2 (Hin & Hfills & Hfilled & Hst).
  rewrite H2 in Hst. apply static_limit_position in Hst.
  destruct Hst as [HL HP]. unfold filled_position in Hfilled.
  rewrite HL, HP in Hfills, Hfilled.
  split; [split; [exact Hin | split; [exact HL | exact HP]] |].
  split; [exact Hfills | exact Hfilled].
Qed.

(** C1: for each of the three engines, started from a freshly constructed
    ledger whose position is within the limit, on a book that follows the
    sign convention and with the stop-loss band (resp. target) inside the
    limit, one tick returns normally; ExpectedPosition is within
    [[-position_limit, +position_limit]] after every sizing step; and the
    position stays within the limit as the emitted orders fill one after the
    other, in particular after all of them are filled. *)
Theorem C1_orders_respect_position_limit (e : Engine)
    (Hfresh : fresh (ledger e))
    (Hsigned : book_signed (ledger e))
    (Hposition : Z.abs (position (ledger e)) <= position_limit (ledger e))
    (Hconfig : engine_config_ok e) :
  exists (steps : list Strategy) (final : Strategy),
    sizing_steps e = Ok steps
    /\ tick e = Ok final
    /\ last steps (ledger e) = final
    /\ Forall (fun s => within_limit s
                        /\ position_limit s = position_limit (ledger e)
                        /\ position s = position (ledger e)) steps
    /\ Forall (in_range (position_limit (ledger e)))
              (fills (position (ledger e)) (orders final))
    /\ Z.abs (position (ledger e) + total_quantity (orders final))
       <= position_limit (ledger e).
Proof.
  pose proof (fresh_book_ready _ Hfresh Hsigned) as Hready.
  pose proof (fresh_ledger_ok _ Hfresh Hposition) as Hok.
  assert (Hexp : expected_position (ledger e) = position (ledger e))
    by (destruct Hfresh as (_ & _ & _ & _ & _ & He & _); exact He).
  destruct e as [m ignore_worst | o | b]; cbn [ledger] in *.
  - (* market making: scratch, stop loss, quote *)
    cbn [engine_config_ok] in Hconfig.
    destruct (scratch_step m false Hready Hok Hexp)
      as (m1 & Hscratch & Hok1 & Hst1 & Hsl1 & Hfrom1).
    pose proof (book_ready_static _ _ Hst1 Hready) as Hready1.
    destruct (static_limit_position _ _ Hst1) as [HL1 HP1].
    destruct (stop_loss_step m1 ignore_worst Hready1 Hok1)
      as (m2 & Hstop & Hok2 & Hst2).
    { destruct Hfrom1 as [Hsame | Hband].
      - left. now rewrite Hsame.
      - right. now rewrite (scratch_keeps_guard _ _ _ Hscratch). }
    { rewrite HL1, Hsl1. exact Hconfig. }
    rewrite Hst1 in Hst2.
    pose proof (quote_ok (base m2) (mm_bid_price m2) (mm_bid_quantity m2)
                  (mm_ask_price m2) (mm_ask_quantity m2) Hok2
                  (mm_bid_quantity_bounds m2) (mm_ask_quantity_bounds m2))
      as Hquote.
    cbv zeta in Hquote.
    apply (tick_summary (base m) _ _ Hst2) in Hquote.
    destruct Hquote as (Hstep3 & Hfills & Hfilled).
    eexists _, _. cbn [sizing_steps tick]. unfold aggregate_orders.
    rewrite Hscratch. cbn [bind]. rewrite Hstop. cbn [bind].
    split; [reflexivity |]. split; [reflexivity |].
    split; [reflexivity |].
    split; [| split; [exact Hfills | exact Hfilled]].
    constructor; [exact (within_limit_static _ _ Hok1 Hst1) |].
    constructor; [exact (within_limit_static _ _ Hok2 Hst2) |].
    constructor; [exact Hstep3 | constructor].
  - (* arbitrage: takes, quote *)
    assert (Henter : exists o1,
               arbitrage_exchange_enter o = Ok o1
               /\ ledger_ok (arb_base o1)
               /\ static (arb_base o1) = static (arb_base o)).
    { unfold arbitrage_exchange_enter.
      destruct (max_key _ _); destruct (Qle_bool _ _).
      - destruct (long_walk_ok o (asks (arb_base o)) (arb_base o) Hok)
          as [Hw Hs].
        eexists. split; [reflexivity |]. split; [exact Hw | exact Hs].
      - exists o. split; [reflexivity | split; [exact Hok | reflexivity]].
      - destruct (short_walk_ok o (bids (arb_base o)) (arb_base o) Hready Hok)
          as (s' & Hs' & Hw & Hs).
        rewrite Hs'. cbn [bind].
        eexists. split; [reflexivity |]. split; [exact Hw | exact Hs].
      - exists o. split; [reflexivity | split; [exact Hok | reflexivity]]. }
    destruct Henter as (o1 & Henter & Hok1 & Hst1).
    pose proof (bid_capacity_bounds (arb_base o1)) as [Hb0 _].
    pose proof (ask_capacity_bounds (arb_base o1)) as [_ Ha0].
    set (bp := Qfloor (otc_bid o1 - effective_cost_export o1 - mm_edge o1)).
    set (ap := Qceiling (otc_ask o1 + cost_import o1 + mm_edge o1)).
    pose proof (quote_ok (arb_base o1) bp (bid_capacity (arb_base o1))
                  ap (ask_capacity (arb_base o1)) Hok1
                  (conj Hb0 (Z.le_refl _)) (conj (Z.le_refl _) Ha0))
      as Hquote.
    cbv zeta in Hquote.
    apply (tick_summary (arb_base o) _ _ Hst1) in Hquote.
    destruct Hquote as (Hstep2 & Hfills & Hfilled).
    eexists _, _. cbn [sizing_steps tick].
    unfold aggregate_orders_conversions.
    rewrite Henter. cbn [bind].
    split; [reflexivity |]. split; [reflexivity |].
    split; [reflexivity |].
    split; [| split; [exact Hfills | exact Hfilled]].
    constructor; [exact (within_limit_static _ _ Hok1 Hst1) |].
    constructor; [exact Hstep2 | constructor].
  - (* basket: scratch on the mid-VWAP, aggressive stop loss, quote *)
    cbn [engine_config_ok] in Hconfig. destruct Hconfig as [Hlow Hhigh].
    set (b1 := calculate_fair_value b).
    destruct (scratch_step (basket b1) true Hready Hok Hexp)
      as (m2 & Hscratch & Hok2 & Hst2 & Hsl2 & Hfrom2).
    cbn [b1 calculate_fair_value basket with_basket base set_fair_value
         sl_inventory] in Hst2, Hsl2.
    pose proof (book_ready_static _ _ Hst2 Hready) as Hready2.
    destruct (static_limit_position _ _ Hst2) as [HL2 HP2].
    destruct (aggressive_stop_loss_step (with_basket b1 m2)) as [Hok3 Hst3];
      cbn [with_basket basket sl_target b1 calculate_fair_value];
      try assumption.
    { destruct Hfrom2 as [Hsame | Hband].
      - left. rewrite Hsame. exact Hexp.
      - right. now rewrite (scratch_keeps_guard _ _ _ Hscratch). }
    { now rewrite HL2. }
    { now rewrite Hsl2. }
    cbn [with_basket basket] in Hst3. rewrite Hst2 in Hst3.
    set (b3 := aggressive_stop_loss (with_basket b1 m2)) in *.
    pose proof (quote_ok (base (basket b3))
                  (mm_bid_price (basket b3)) (mm_bid_quantity (basket b3))
                  (mm_ask_price (basket b3)) (mm_ask_quantity (basket b3))
                  Hok3 (mm_bid_quantity_bounds _) (mm_ask_quantity_bounds _))
      as Hquote.
    cbv zeta in Hquote.
    apply (tick_summary (base (basket b)) _ _ Hst3) in Hquote.
    destruct Hquote as (Hstep3 & Hfills & Hfilled).
    eexists _, _. cbn [sizing_steps tick]. unfold aggregate_basket_orders.
    fold b1. rewrite Hscratch. cbn [bind]. fold b3.
    split; [reflexivity |]. split; [reflexivity |].
    split; [reflexivity |].
    split; [| split; [exact Hfills | exact Hfilled]].
    constructor; [exact (within_limit_static _ _ Hok2 Hst2) |].
    constructor; [exact (within_limit_static _ _ Hok3 Hst3) |].
    constructor; [exact Hstep3 | constructor].
Qed.

(** ** Construction *)

Lemma py_max_total (xs : list Z) : xs <> [] -> exists k, py_max xs = Ok k.
Proof. destruct xs; [congruence | intros _; eexists; reflexivity]. Qed.

Lemma py_min_total (xs : list Z) : xs <> [] -> exists k, py_min xs = Ok k.
Proof. destruct xs; [congruence | intros _; eexists; reflexivity]. Qed.

Lemma keys_nonempty {K V : Type} (d : list (K * V)) : d <> [] -> keys d <> [].
Proof. destruct d; [congruence | discriminate]. Qed.

Lemma truediv_total (a b : Z) : b <> 0 -> truediv a b = Ok (inject_Z a / inject_Z b)%Q.
Proof.
  intros H. unfold truediv.
  destruct (Z.eqb_spec b 0); [contradiction | reflexivity].
Qed.

Lemma Strategy_init_total (state : TradingState) (pc : ProductConfig)
    (od : OrderDepth) :
  getitem String.eqb (order_depths state) (SYMBOL pc) = Ok od ->
  two_sided od ->
  exists s, Strategy_init state pc = Ok s.
Proof.
  intros Hod (Hb & Ha & Hbv & Hav).
  destruct (py_max_total _ (keys_nonempty _ Hb)) as [bb Ebb].
  destruct (py_min_total _ (keys_nonempty _ Ha)) as [ba Eba].
  destruct (py_min_total _ (keys_nonempty _ Hb)) as [wb Ewb].
  destruct (py_max_total _ (keys_nonempty _ Ha)) as [wa Ewa].
  unfold Strategy_init. rewrite Hod. cbn [bind].
  rewrite Ebb, Eba, Ewb, Ewa. cbn [bind].
  rewrite (truediv_total _ _ Hbv), (truediv_total _ _ Hav). cbn [bind].
  eexists. reflexivity.
Qed.

Lemma Strategy_init_fresh (state : TradingState) (pc : ProductConfig)
    (s : Strategy) :
  Strategy_init state pc = Ok s ->
  fresh s
  /\ symbol s = SYMBOL pc
  /\ position_limit s = POSITION_LIMIT pc
  /\ position s = get_default String.eqb (st_position state) (PRODUCT pc) 0
  /\ timestamp s = st_timestamp state.
Proof.
  unfold Strategy_init. intros H. do 7 inv_bind H. inv_Ok H.
  unfold fresh. cbn. repeat split; assumption.
Qed.

Lemma fresh_keyed (s : Strategy) : fresh s -> keyed s.
Proof.
  intros (Hb & Ha & _). unfold keyed.
  apply py_max_In, getitem_of_key in Hb. destruct Hb as (vb & Hvb & _).
  apply py_min_In, getitem_of_key in Ha. destruct Ha as (va & Hva & _).
  split; eexists; eassumption.
Qed.

Lemma keyed_static (s s' : Strategy) :
  static s' = static s -> keyed s -> keyed s'.
Proof.
  intros H Hk. unfold keyed in *. use_static H. exact Hk.
Qed.

(** ** The sub-strategies return on every constructed ledger *)

Lemma scratch_total (m : MarketMaking) (use_mid : bool) :
  keyed (base m) ->
  exists m1,
    scratch_under_valued m use_mid = Ok m1
    /\ static (base m1) = static (base m).
Proof.
  intros ((vb & Hvb) & (va & Hva)). unfold scratch_under_valued.
  destruct (within_sl_inventory m); [| exists m; now split].
  destruct (_ && _).
  - rewrite Hvb. eexists. split; [reflexivity | apply emit_sell_static].
  - destruct (_ && _); [| exists m; now split].
    rewrite Hva. eexists. split; [reflexivity | apply emit_buy_static].
Qed.

Lemma stop_loss_total (m : MarketMaking) (ignore_worst : bool) :
  keyed (base m) ->
  exists m2,
    stop_loss m ignore_worst = Ok m2 /\ static (base m2) = static (base m).
Proof.
  intros ((vb & Hvb) & (va & Hva)). unfold stop_loss.
  destruct (_ && _).
  - destruct (_ <=? _); [| exists m; now split].
    rewrite Hvb. eexists. split; [reflexivity | apply emit_sell_static].
  - destruct (_ && _); [| exists m; now split].
    destruct (_ <=? _); [| exists m; now split].
    rewrite Hva. eexists. split; [reflexivity | apply emit_buy_static].
Qed.

Lemma aggregate_orders_total (m : MarketMaking) (ignore_worst : bool) :
  keyed (base m) -> exists m', aggregate_orders m ignore_worst = Ok m'.
Proof.
  intros Hk. unfold aggregate_orders.
  destruct (scratch_total m false Hk) as (m1 & E1 & S1).
  destruct (stop_loss_total m1 ignore_worst (keyed_static _ _ S1 Hk))
    as (m2 & E2 & _).
  rewrite E1. cbn [bind]. rewrite E2. cbn [bind]. eexists. reflexivity.
Qed.

Lemma short_walk_total (o : OTCArbitrage) (levels : list (Z * Z))
    (s : Strategy) :
  keyed s -> exists s', short_walk o levels s = Ok s'.
Proof.
  revert s. induction levels as [| [price quantity] rest IH]; intros s Hk.
  - exists s. reflexivity.
  - cbn [short_walk]. destruct (Qle_bool _ _); [| exists s; reflexivity].
    pose proof Hk as ((vb & Hvb) & _). rewrite Hvb. cbn [bind].
    apply IH. apply (keyed_static s); [apply emit_sell_static | exact Hk].
Qed.

Lemma aggregate_orders_conversions_total (o : OTCArbitrage) :
  keyed (arb_base o) -> exists o', aggregate_orders_conversions o = Ok o'.
Proof.
  intros Hk. unfold aggregate_orders_conversions, arbitrage_exchange_enter.
  destruct (max_key _ _); destruct (Qle_bool _ _);
    try (eexists; reflexivity).
  destruct (short_walk_total o (bids (arb_base o)) _ Hk) as [s' Hs'].
  rewrite Hs'. eexists. reflexivity.
Qed.

Lemma aggregate_basket_orders_total (b : BasketTrading) :
  keyed (base (basket b)) -> exists b', aggregate_basket_orders b = Ok b'.
Proof.
  intros Hk. unfold aggregate_basket_orders.
  destruct (scratch_total (basket (calculate_fair_value b)) true Hk)
    as (m2 & E2 & _).
  rewrite E2. eexists. reflexivity.
Qed.

(** ** The rolling history *)

Lemma popleft_while_total (dq : list Q) (max_size : Z) :
  0 < max_size -> exists dq', popleft_while dq max_size = Ok dq'.
Proof.
  intros Hpos. induction dq as [| x dq IH].
  - cbn [popleft_while].
    replace (max_size <=? 0) with false by (symmetry; apply Z.leb_gt; lia).
    eexists. reflexivity.
  - cbn [popleft_while]. destruct (_ <=? _); [exact IH | eexists; reflexivity].
Qed.

Lemma getitem_setitem {V : Type} (d : list (Symbol * V)) (k : Symbol)
    (v : V) :
  getitem String.eqb (setitem String.eqb d k v) k = Ok v.
Proof.
  induction d as [| [k' v'] d IH]; cbn [setitem getitem].
  - now rewrite String.eqb_refl.
  - destruct (String.eqb k k') eqn:E; cbn [getitem].
    + now rewrite String.eqb_refl.
    + now rewrite E.
Qed.

Lemma existsb_nonempty_setitem (d : Data) (k : Symbol) (dq : list Q)
    (v : Q) :
  existsb nonempty (values (setitem String.eqb d k (dq ++ [v]))) = true.
Proof.
  assert (Hne : nonempty (dq ++ [v]) = true) by (destruct dq; reflexivity).
  induction d as [| [k' v'] d IH]; cbn [setitem values map existsb snd].
  - now rewrite Hne.
  - destruct (String.eqb k k'); cbn [values map existsb snd].
    + now rewrite Hne.
    + unfold values in IH. rewrite IH. apply orb_true_r.
Qed.

(** After [store_data] the stored deque ends with the new value, so the
    trader holds some non-empty history. *)
Lemma store_data_Ok (tr tr' : Trader) (sym : Symbol) (v : Q)
    (max_size : option Z) :
  store_data tr sym v max_size = Ok tr' ->
  data_loss tr' = true
  /\ exists dq, getitem String.eqb (data tr') sym = Ok (dq ++ [v]).
Proof.
  unfold store_data. intros H. do 2 inv_bind H. inv_Ok H.
  unfold data_loss. cbn [data]. split.
  - apply existsb_nonempty_setitem.
  - eexists. apply getitem_setitem.
Qed.

Lemma store_data_total (tr : Trader) (sym : Symbol) (v : Q) (size : Z)
    (dq : list Q) :
  getitem String.eqb (data tr) sym = Ok dq ->
  0 < size ->
  exists tr', store_data tr sym v (Some size) = Ok tr'.
Proof.
  intros Hdq Hsize. unfold store_data. rewrite Hdq. cbn [bind].
  replace (size =? 0) with false by (symmetry; apply Z.eqb_neq; lia).
  destruct (popleft_while_total dq size Hsize) as [dq' E]. rewrite E.
  eexists. reflexivity.
Qed.

(** ** The regression returns on every non-trivial window *)

Lemma regression_xs_length (timestamp n : Z) :
  0 <= n -> len (regression_xs timestamp n) = n.
Proof.
  intros Hn. unfold len, regression_xs, py_range.
  rewrite !length_map, length_seq. lia.
Qed.

Lemma linear_regression_total (x0 x1 : Q) (rest ys : list Q) :
  ~ (x0 == x1)%Q ->
  len ys = len (x0 :: x1 :: rest) ->
  exists fit, linear_regression (x0 :: x1 :: rest) ys = Ok fit.
Proof.
  intros Hne Hlen. unfold linear_regression.
  rewrite Hlen, Z.eqb_refl. cbn [negb].
  replace (len (x0 :: x1 :: rest) <? 2) with false
    by (symmetry; apply Z.ltb_ge; unfold len; cbn [List.length]; lia).
  set (xbar := (Qsum (x0 :: x1 :: rest) / inject_Z (len (x0 :: x1 :: rest)))%Q).
  pose proof (Qsum_sq_dev_pos xbar x0 x1 rest Hne) as Hpos.
  destruct (Qeq_bool _ 0) eqn:E.
  - apply Qeq_bool_eq in E. rewrite E in Hpos.
    now apply Qlt_irrefl in Hpos.
  - eexists. reflexivity.
Qed.

Lemma predict_price_total (l : LinearRegressionMM) (price_history : list Q) :
  2 <= min_window_size l ->
  exists l',
    predict_price l price_history = Ok l' /\ base (mm l') = base (mm l).
Proof.
  intros Hmin. unfold predict_price.
  destruct (min_window_size l <=? len price_history) eqn:Hwin.
  2:{ eexists. split; reflexivity. }
  apply Z.leb_le in Hwin.
  assert (Htwo : 2 <= len price_history) by lia.
  destruct (regression_xs_shape (timestamp (base (mm l)))
              (len price_history) Htwo) as [rest Hxs].
  pose proof (regression_xs_length (timestamp (base (mm l)))
                (len price_history) ltac:(lia)) as Hlen.
  rewrite Hxs in Hlen |- *. cbn [map].
  destruct (linear_regression_total
              (inject_Z (100 * (timestamp (base (mm l)) ÷ 100
                                - len price_history + 1)))
              (inject_Z (100 * (timestamp (base (mm l)) ÷ 100
                                - len price_history + 2)))
              (map inject_Z rest) price_history) as [fit Hfit].
  { rewrite inject_Z_injective. lia. }
  { rewrite <- Hlen. unfold len. cbn [List.length]. now rewrite length_map. }
  rewrite Hfit. cbn [bind]. eexists. split; reflexivity.
Qed.

(** ** [Trader.run] returns on two-sided books *)

Lemma MarketMaking_init_Ok (state : TradingState) (pc : ProductConfig)
    (sc : MMConfig) (s : Strategy) :
  Strategy_init state pc = Ok s ->
  exists m, MarketMaking_init state pc sc = Ok m /\ base m = s.
Proof.
  intros H. unfold MarketMaking_init. rewrite H.
  eexists. split; reflexivity.
Qed.

Lemma book_of_symbol (state : TradingState) (pc : ProductConfig) :
  books_two_sided state ->
  In (SYMBOL pc) symbols ->
  exists s, Strategy_init state pc = Ok s /\ fresh s /\ symbol s = SYMBOL pc.
Proof.
  intros Hbooks Hin. destruct (Hbooks _ Hin) as (od & Hod & Htwo).
  destruct (Strategy_init_total state pc od Hod Htwo) as [s Hs].
  exists s. split; [exact Hs |].
  destruct (Strategy_init_fresh _ _ _ Hs) as (Hf & Hsym & _).
  now split.
Qed.

Section Configured.
Local Open Scope string_scope.

Lemma config_lookup_AMETHYSTS :
  getitem String.eqb config_PRODUCT (nth 0 symbols EmptyString)
  = Ok (mkProductConfig "AMETHYSTS" "AMETHYSTS" 20 None None).
Proof. reflexivity. Qed.

Lemma config_lookup_STARFRUIT :
  getitem String.eqb config_PRODUCT (nth 1 symbols EmptyString)
  = Ok (mkProductConfig "STARFRUIT" "STARFRUIT" 20 None None).
Proof. reflexivity. Qed.

Lemma config_lookup_ORCHIDS :
  getitem String.eqb config_PRODUCT (nth 2 symbols EmptyString)
  = Ok (mkProductConfig "ORCHIDS" "ORCHIDS" 100 (Some (1 # 10)%Q) None).
Proof. reflexivity. Qed.

Lemma config_lookup_GIFT_BASKET :
  getitem String.eqb config_PRODUCT (nth 3 symbols EmptyString)
  = Ok (mkProductConfig "GIFT_BASKET" "GIFT_BASKET" 60 None None).
Proof. reflexivity. Qed.

Lemma config_lookup_constituents :
  mapM (fun s => pc <- getitem String.eqb config_PRODUCT s ;; Ok (s, pc))
       (map (fun i => nth (Z.to_nat i) symbols EmptyString) (py_range 4 7))
  = Ok [ ("CHOCOLATE"%string,
           mkProductConfig "CHOCOLATE" "CHOCOLATE" 250 None (Some 4));
         ("STRAWBERRIES"%string,
           mkProductConfig "STRAWBERRIES" "STRAWBERRIES" 350 None (Some 6));
         ("ROSES"%string, mkProductConfig "ROSES" "ROSES" 60 None (Some 1)) ].
Proof. reflexivity. Qed.

Lemma BasketTrading_init_configured (state : TradingState) :
  books_two_sided state ->
  exists b,
    BasketTrading_init state
      (mkProductConfig "GIFT_BASKET" "GIFT_BASKET" 60 None None)
      [ ("CHOCOLATE"%string,
          mkProductConfig "CHOCOLATE" "CHOCOLATE" 250 None (Some 4));
        ("STRAWBERRIES"%string,
          mkProductConfig "STRAWBERRIES" "STRAWBERRIES" 350 None (Some 6));
        ("ROSES"%string, mkProductConfig "ROSES" "ROSES" 60 None (Some 1)) ]
      config_GIFT_BASKET = Ok b
    /\ keyed (base (basket b)).
Proof.
  intros Hbooks.
  destruct (book_of_symbol state
              (mkProductConfig "GIFT_BASKET" "GIFT_BASKET" 60 None None)
              Hbooks) as (sb & Hsb & Hfb & _);
    [cbn; tauto |].
  destruct (book_of_symbol state
              (mkProductConfig "CHOCOLATE" "CHOCOLATE" 250 None (Some 4))
              Hbooks) as (s1 & Hs1 & _);
    [cbn; tauto |].
  destruct (book_of_symbol state
              (mkProductConfig "STRAWBERRIES" "STRAWBERRIES" 350 None (Some 6))
              Hbooks) as (s2 & Hs2 & _);
    [cbn; tauto |].
  destruct (book_of_symbol state
              (mkProductConfig "ROSES" "ROSES" 60 None (Some 1))
              Hbooks) as (s3 & Hs3 & _);
    [cbn; tauto |].
  destruct (MarketMaking_init_Ok state _ (basket_mm_config config_GIFT_BASKET)
              sb Hsb) as (m & Hm & Hbase).
  unfold BasketTrading_init. rewrite Hm. cbn [bind mapM snd fst].
  rewrite Hs1, Hs2, Hs3. cbn [bind].
  eexists. split; [reflexivity |].
  cbn [basket base with_base set_fair_value set_position_limit].
  rewrite Hbase. apply fresh_keyed in Hfb. exact Hfb.
Qed.


Lemma run_restore_Raise (tr : Trader) (state : TradingState) (e : PyError) :
  restore_data tr (st_timestamp state) (traderData state) = Raise e ->
  run tr state = Raise e.
Proof. intros H. unfold run. now rewrite H. Qed.

(** After restoring, the tick runs to its end whenever every book is
    two-sided, ORCHIDS has a conversion observation and the history has a
    STARFRUIT entry. *)
Lemma run_total (tr tr1 : Trader) (state : TradingState)
    (obs : ConversionObservation) (dq : list Q) :
  books_two_sided state ->
  getitem String.eqb (conversionObservations state) "ORCHIDS" = Ok obs ->
  restore_data tr (st_timestamp state) (traderData state) = Ok tr1 ->
  getitem String.eqb (data tr1) "STARFRUIT" = Ok dq ->
  exists out tr',
    run tr state = Ok (out, tr')
    /\ keys (result out) = ["AMETHYSTS"; "STARFRUIT"; "ORCHIDS"; "GIFT_BASKET"]
    /\ out_traderData out = jsonpickle_encode (data tr')
    /\ data_loss tr' = true.
Proof.
  intros Hbooks Hobs Hrestore Hhistory.
  (* AMETHYSTS *)
  destruct (book_of_symbol state
              (mkProductConfig "AMETHYSTS" "AMETHYSTS" 20 None None) Hbooks)
    as (sA & HsA & HfA & _); [cbn; tauto |].
  destruct (MarketMaking_init_Ok state _ config_AMETHYSTS sA HsA)
    as (mA & HmA & HbaseA).
  destruct (aggregate_orders_total mA true) as [mA' HmA'].
  { rewrite HbaseA. now apply fresh_keyed. }
  (* STARFRUIT *)
  destruct (book_of_symbol state
              (mkProductConfig "STARFRUIT" "STARFRUIT" 20 None None) Hbooks)
    as (sS & HsS & HfS & HsymS); [cbn; tauto |].
  destruct (MarketMaking_init_Ok state _ (lr_mm_config config_STARFRUIT) sS HsS)
    as (mS & HmS & HbaseS).
  cbn [SYMBOL] in HsymS.
  destruct (store_data_total tr1 "STARFRUIT" (mid_vwap sS) 10 dq Hhistory)
    as [tr2 Hstore]; [lia |].
  destruct (store_data_Ok _ _ _ _ _ Hstore) as (Hloss & dq' & Hdq').
  set (lr := {| mm := mS; min_window_size := 5; max_window_size := 10;
                predict_shift := 1 |}).
  destruct (predict_price_total lr (dq' ++ [mid_vwap sS])) as (lr' & Hlr' & Hbase');
    [cbn; lia |].
  destruct (aggregate_orders_total (mm lr') true) as [mS' HmS'].
  { rewrite Hbase'. cbn [lr mm]. rewrite HbaseS. now apply fresh_keyed. }
  (* ORCHIDS *)
  destruct (book_of_symbol state
              (mkProductConfig "ORCHIDS" "ORCHIDS" 100 (Some (1 # 10)%Q) None)
              Hbooks)
    as (sO & HsO & HfO & HsymO); [cbn; tauto |].
  cbn [SYMBOL] in HsymO.
  assert (HinitO : exists o,
             OTCArbitrage_init state
               (mkProductConfig "ORCHIDS" "ORCHIDS" 100 (Some (1 # 10)%Q) None)
               config_ORCHIDS = Ok o
             /\ arb_base o = sO).
  { unfold OTCArbitrage_init. rewrite HsO. cbn [bind COST_STORING config_key].
    rewrite HsymO, Hobs. cbn [bind]. eexists. split; reflexivity. }
  destruct HinitO as (o & Ho & HbaseO).
  destruct (aggregate_orders_conversions_total o) as [o' Ho'].
  { rewrite HbaseO. now apply fresh_keyed. }
  (* GIFT_BASKET *)
  destruct (BasketTrading_init_configured state Hbooks) as (b & Hb & Hkb).
  destruct (aggregate_basket_orders_total b Hkb) as [b' Hb'].
  (* the tick *)
  unfold run. cbv zeta.
  rewrite Hrestore. cbn [bind].
  rewrite config_lookup_AMETHYSTS. cbn [bind].
  rewrite HmA. cbn [bind]. rewrite HmA'. cbn [bind].
  rewrite config_lookup_STARFRUIT. cbn [bind].
  unfold LinearRegressionMM_init. rewrite HmS. cbn [bind].
  cbn [mm max_window_size MAX_WINDOW_SIZE MIN_WINDOW_SIZE PREDICT_SHIFT
       config_STARFRUIT].
  rewrite HbaseS, HsymS, Hstore. cbn [bind].
  change (nth 1 symbols EmptyString) with "STARFRUIT".
  rewrite Hdq'. cbn [bind].
  fold lr. rewrite Hlr'. cbn [bind]. rewrite HmS'. cbn [bind].
  rewrite config_lookup_ORCHIDS. cbn [bind].
  rewrite Ho. cbn [bind]. rewrite Ho'. cbn [bind].
  rewrite config_lookup_GIFT_BASKET. cbn [bind].
  rewrite config_lookup_constituents. cbn [bind].
  rewrite Hb. cbn [bind]. rewrite Hb'. cbn [bind].
  eexists _, _. split; [reflexivity |].
  cbn [result out_traderData]. split; [reflexivity |].
  split; [reflexivity | exact Hloss].
Qed.

(** ** [Trader.run] returns only on two-sided books *)

Lemma py_max_Ok_nonempty (xs : list Z) (k : Z) : py_max xs = Ok k -> xs <> [].
Proof. destruct xs; [discriminate | discriminate]. Qed.

Lemma py_min_Ok_nonempty (xs : list Z) (k : Z) : py_min xs = Ok k -> xs <> [].
Proof. destruct xs; [discriminate | discriminate]. Qed.

Lemma keys_nonempty_inv {K V : Type} (d : list (K * V)) :
  keys d <> [] -> d <> [].
Proof. destruct d; [intros H; now contradiction H | discriminate]. Qed.

Lemma truediv_Ok (a b : Z) (q : Q) : truediv a b = Ok q -> b <> 0.
Proof.
  unfold truediv. destruct (Z.eqb_spec b 0); [discriminate | auto].
Qed.

Lemma Strategy_init_two_sided (state : TradingState) (pc : ProductConfig)
    (s : Strategy) :
  Strategy_init state pc = Ok s ->
  exists od,
    getitem String.eqb (order_depths state) (SYMBOL pc) = Ok od
    /\ two_sided od.
Proof.
  unfold Strategy_init. intros H. do 7 inv_bind H.
  exists v. split; [assumption |]. unfold two_sided.
  repeat match goal with
         | Hm : py_max _ = Ok _ |- _ =>
             apply py_max_Ok_nonempty, keys_nonempty_inv in Hm
         | Hm : py_min _ = Ok _ |- _ =>
             apply py_min_Ok_nonempty, keys_nonempty_inv in Hm
         | Hd : truediv _ _ = Ok _ |- _ => apply truediv_Ok in Hd
         end.
  repeat split; assumption.
Qed.

Lemma MarketMaking_init_inv (state : TradingState) (pc : ProductConfig)
    (sc : MMConfig) (m : MarketMaking) :
  MarketMaking_init state pc sc = Ok m -> Strategy_init state pc = Ok (base m).
Proof.
  unfold MarketMaking_init. intros H. inv_bind H. inv_Ok H. assumption.
Qed.

(** The calls that a successful [run] has made. *)
Lemma run_Ok_inv (tr tr' : Trader) (state : TradingState) (out : Output) :
  run tr state = Ok (out, tr') ->
  exists tr1 mA lr o b,
    restore_data tr (st_timestamp state) (traderData state) = Ok tr1
    /\ MarketMaking_init state
         (mkProductConfig "AMETHYSTS" "AMETHYSTS" 20 None None)
         config_AMETHYSTS = Ok mA
    /\ LinearRegressionMM_init state
         (mkProductConfig "STARFRUIT" "STARFRUIT" 20 None None)
         config_STARFRUIT = Ok lr
    /\ store_data tr1 (symbol (base (mm lr))) (mid_vwap (base (mm lr)))
                  (Some (max_window_size lr)) = Ok tr'
    /\ OTCArbitrage_init state
         (mkProductConfig "ORCHIDS" "ORCHIDS" 100 (Some (1 # 10)%Q) None)
         config_ORCHIDS = Ok o
    /\ BasketTrading_init state
         (mkProductConfig "GIFT_BASKET" "GIFT_BASKET" 60 None None)
         [ ("CHOCOLATE",
             mkProductConfig "CHOCOLATE" "CHOCOLATE" 250 None (Some 4));
           ("STRAWBERRIES",
             mkProductConfig "STRAWBERRIES" "STRAWBERRIES" 350 None (Some 6));
           ("ROSES", mkProductConfig "ROSES" "ROSES" 60 None (Some 1)) ]
         config_GIFT_BASKET = Ok b
    /\ out_traderData out = jsonpickle_encode (data tr').
Proof.
  unfold run. cbv zeta. intros H.
  inv_bind H.
  rewrite config_lookup_AMETHYSTS in H. cbn [bind] in H.
  do 2 inv_bind H.
  rewrite config_lookup_STARFRUIT in H. cbn [bind] in H.
  do 5 inv_bind H.
  rewrite config_lookup_ORCHIDS in H. cbn [bind] in H.
  do 2 inv_bind H.
  rewrite config_lookup_GIFT_BASKET, config_lookup_constituents in H.
  cbn [bind] in H.
  do 2 inv_bind H. inv_Ok H.
  do 5 eexists. repeat split; eassumption.
Qed.

Lemma run_Ok_two_sided (tr tr' : Trader) (state : TradingState)
    (out : Output) :
  run tr state = Ok (out, tr') -> books_two_sided state.
Proof.
  intros H. apply run_Ok_inv in H.
  destruct H as (tr1 & mA & lr & o & b & _ & HA & HS & _ & HO & HB & _).
  apply MarketMaking_init_inv, Strategy_init_two_sided in HA.
  unfold LinearRegressionMM_init in HS. inv_bind HS.
  apply MarketMaking_init_inv, Strategy_init_two_sided in E.
  unfold OTCArbitrage_init in HO. inv_bind HO.
  apply Strategy_init_two_sided in E0.
  unfold BasketTrading_init in HB. do 2 inv_bind HB.
  apply MarketMaking_init_inv, Strategy_init_two_sided in E1.
  cbn [mapM snd fst] in E2. inv_binds.
  repeat match goal with
         | Hs : Strategy_init _ _ = Ok _ |- _ =>
             apply Strategy_init_two_sided in Hs
         end.
  cbn [SYMBOL] in *.
  intros sym Hin. cbn in Hin.
  repeat (destruct Hin as [<- | Hin]; [assumption |]).
  contradiction.
Qed.

(** ** Missing liquidity (C2) *)

(** C2, as the code behaves: once the history is restored (with a STARFRUIT
    entry) and ORCHIDS has a conversion observation, [Trader.run] returns an
    order map for the four traded symbols, a conversion number and the
    carried state exactly when every one of the seven books has two
    non-empty sides of non-zero total volume.  Nothing is skipped for an
    empty side: [Strategy.__init__] raises and the tick fails. *)
Theorem C2_run_returns_iff_books_two_sided (tr tr1 : Trader)
    (state : TradingState) (obs : ConversionObservation) (dq : list Q)
    (Hobs : getitem String.eqb (conversionObservations state) "ORCHIDS"
            = Ok obs)
    (Hrestore : restore_data tr (st_timestamp state) (traderData state)
                = Ok tr1)
    (Hhistory : getitem String.eqb (data tr1) "STARFRUIT" = Ok dq) :
  (books_two_sided state <->
   exists out tr',
     run tr state = Ok (out, tr')
     /\ keys (result out)
        = ["AMETHYSTS"; "STARFRUIT"; "ORCHIDS"; "GIFT_BASKET"]
     /\ out_traderData out = jsonpickle_encode (data tr'))
  /\ (forall sym od,
        In sym symbols ->
        getitem String.eqb (order_depths state) sym = Ok od ->
        buy_orders od = [] \/ sell_orders od = [] ->
        exists e, run tr state = Raise e).
Proof.
  split; [split |].
  - intros Hbooks.
    destruct (run_total tr tr1 state obs dq Hbooks Hobs Hrestore Hhistory)
      as (out & tr' & Hrun & Hkeys & Hblob & _).
    exists out, tr'. now repeat split.
  - intros (out & tr' & Hrun & _). exact (run_Ok_two_sided _ _ _ _ Hrun).
  - intros sym od Hin Hod Hempty.
    destruct (run tr state) as [[out tr'] | e] eqn:Hrun; [| now exists e].
    apply run_Ok_two_sided in Hrun.
    destruct (Hrun sym Hin) as (od' & Hod' & Hb & Ha & _).
    rewrite Hod in Hod'. inv_Ok Hod'.
    destruct Hempty; contradiction.
Qed.

(** C2 fails as stated: with every AMETHYSTS bid gone, the tick raises
    [ValueError] out of [max] in [Strategy.__init__]. *)
Lemma C2_empty_bids_raise :
  getitem String.eqb (order_depths empty_bids_state) "AMETHYSTS"
  = Ok (mkOrderDepth [] [(10004, -2); (10005, -29)])
  /\ run Trader_initial empty_bids_state = Raise ValueError.
Proof. split; reflexivity. Qed.

(** ** Arbitrage takes (C3) *)

(** C3 on the Short side of the example book: both bid levels clear the
    minimum edge (1100 - 1092 - 2 = 6 and 1099 - 1092 - 2 = 5, against 1),
    yet the second take is again priced at the best bid 1100 and sized by
    the quantity 5 resting there, not at 1099 for the 7 resting at that
    level. *)
Theorem C3_short_walk_reuses_best_bid :
  exists o o',
    OTCArbitrage_init (example_state 0 (Unparseable EmptyString))
      (mkProductConfig "ORCHIDS" "ORCHIDS" 100 (Some (1 # 10)%Q) None)
      config_ORCHIDS = Ok o
    /\ bids (arb_base o) = [(1100, 5); (1099, 7)]
    /\ (short_edge_at o 1100 == 6)%Q
    /\ (short_edge_at o 1099 == 5)%Q
    /\ (min_edge o == 1)%Q
    /\ arbitrage_exchange_enter o = Ok o'
    /\ orders (arb_base o')
       = [mkOrder "ORCHIDS" 1100 (-5); mkOrder "ORCHIDS" 1100 (-5)]
    /\ orders (arb_base o')
       <> [mkOrder "ORCHIDS" 1100 (-5); mkOrder "ORCHIDS" 1099 (-7)].
Proof.
  eexists _, _. split; [reflexivity |].
  split; [reflexivity |]. split; [reflexivity |]. split; [reflexivity |].
  split; [reflexivity |]. split; [reflexivity |].
  split; [reflexivity | discriminate].
Qed.

(** On the Long side the loop uses its own variables: every take is priced
    at the level it walks and sized by the quantity resting there, capped by
    the room left to the limit. *)
Lemma long_walk_take (o : OTCArbitrage) (price quantity : Z)
    (rest : list (Z * Z)) (s : Strategy) :
  Qle_bool (min_edge o) (long_edge_at o price) = true ->
  long_walk o ((price, quantity) :: rest) s
  = long_walk o rest
      (emit_buy s price
         (Z.max (Z.min (- quantity)
                       (position_limit s - Z.max (expected_position s) 0)) 0)).
Proof. intros H. cbn [long_walk]. now rewrite H. Qed.

Lemma long_walk_stop (o : OTCArbitrage) (price quantity : Z)
    (rest : list (Z * Z)) (s : Strategy) :
  Qle_bool (min_edge o) (long_edge_at o price) = false ->
  long_walk o ((price, quantity) :: rest) s = s.
Proof. intros H. cbn [long_walk]. now rewrite H. Qed.

(** ** Calling [run] twice (C5) *)


(** ** Carried state that does not decode (C6) *)

(** C6, as the code behaves: at [timestamp >= 100] with a [traderData] that
    jsonpickle cannot decode there is no fallback.  When [restore_data]
    consults the carried state (its local [data_loss] is true: some stored
    deque is non-empty) the decoding error leaves [run]; when it does not,
    the history is left as it is and the tick runs to its end. *)
Theorem C6_unparseable_state_no_fallback (tr : Trader)
    (state : TradingState) (raw : string) (obs : ConversionObservation)
    (dq : list Q)
    (Htick : 100 <= st_timestamp state)
    (Hblob : traderData state = Unparseable raw)
    (Hbooks : books_two_sided state)
    (Hobs : getitem String.eqb (conversionObservations state) "ORCHIDS"
            = Ok obs)
    (Hhistory : getitem String.eqb (data tr) "STARFRUIT" = Ok dq) :
  if data_loss tr
  then
    restore_data tr (st_timestamp state) (traderData state)
    = Raise DecodeError
    /\ run tr state = Raise DecodeError
  else
    restore_data tr (st_timestamp state) (traderData state) = Ok tr
    /\ exists out tr',
         run tr state = Ok (out, tr')
         /\ keys (result out)
            = ["AMETHYSTS"; "STARFRUIT"; "ORCHIDS"; "GIFT_BASKET"].
Proof.
  assert (Hguard : (100 <=? st_timestamp state)%Z = true)
    by (apply Z.leb_le; exact Htick).
  destruct (data_loss tr) eqn:Hheld.
  - assert (Hrestore :
      restore_data tr (st_timestamp state) (traderData state)
      = Raise DecodeError).
    { unfold restore_data. now rewrite Hguard, Hheld, Hblob. }
    split; [exact Hrestore | now apply run_restore_Raise].
  - assert (Hrestore :
      restore_data tr (st_timestamp state) (traderData state) = Ok tr).
    { unfold restore_data. now rewrite Hguard, Hheld. }
    split; [exact Hrestore |].
    destruct (run_total tr tr state obs dq Hbooks Hobs Hrestore Hhistory)
      as (out & tr' & Hrun & Hkeys & _).
    now exists out, tr'.
Qed.

(** C6 fails as stated: at timestamp 100, with one price in memory and an
    empty [traderData], the tick dies with jsonpickle's error. *)
Lemma C6_unparseable_state_is_fatal :
  run Trader_one_price (example_state 100 (Unparseable EmptyString)) = Raise DecodeError.
Proof. reflexivity. Qed.

(** ** The theorems at the example tick *)

(** C1 at the AMETHYSTS engine of the example tick (position 5, limit 20). *)
Lemma C1_witness :
  exists m,
    MarketMaking_init (example_state 0 (Unparseable EmptyString))
      (mkProductConfig "AMETHYSTS" "AMETHYSTS" 20 None None)
      config_AMETHYSTS = Ok m
    /\ exists steps final,
         sizing_steps (MM_engine m true) = Ok steps
         /\ tick (MM_engine m true) = Ok final
         /\ last steps (ledger (MM_engine m true)) = final
         /\ Forall (fun s => within_limit s
                             /\ position_limit s
                                = position_limit (ledger (MM_engine m true))
                             /\ position s
                                = position (ledger (MM_engine m true))) steps
         /\ Forall (in_range (position_limit (ledger (MM_engine m true))))
                   (fills (position (ledger (MM_engine m true)))
                          (orders final))
         /\ Z.abs (position (ledger (MM_engine m true))
                   + total_quantity (orders final))
            <= position_limit (ledger (MM_engine m true)).
Proof.
  eexists. split; [reflexivity |].
  apply C1_orders_respect_position_limit.
  - unfold fresh. cbn. repeat split; reflexivity.
  - unfold book_signed. cbn. split; repeat (constructor; [cbn; lia |]);
      constructor.
  - cbn. lia.
  - cbn. lia.
Defined.

(** C2 at the example tick of a new trader. *)
Lemma C2_witness :
  (books_two_sided (example_state 0 (Unparseable EmptyString)) <->
   exists out tr',
     run Trader_initial (example_state 0 (Unparseable EmptyString)) = Ok (out, tr')
     /\ keys (result out)
        = ["AMETHYSTS"; "STARFRUIT"; "ORCHIDS"; "GIFT_BASKET"]
     /\ out_traderData out = jsonpickle_encode (data tr'))
  /\ (forall sym od,
        In sym symbols ->
        getitem String.eqb (order_depths (example_state 0 (Unparseable EmptyString)))
                sym = Ok od ->
        buy_orders od = [] \/ sell_orders od = [] ->
        exists e,
          run Trader_initial (example_state 0 (Unparseable EmptyString)) = Raise e).
Proof.
  apply (C2_run_returns_iff_books_two_sided Trader_initial Trader_initial
           (example_state 0 (Unparseable EmptyString))
           (mkConversionObservation 1090 1092 1 1 1 2500 80) []);
    reflexivity.
Defined.

(** C4 at the AMETHYSTS engine of the example tick (spread 2). *)
Lemma C4_witness :
  exists m,
    MarketMaking_init (example_state 0 (Unparseable EmptyString))
      (mkProductConfig "AMETHYSTS" "AMETHYSTS" 20 None None)
      config_AMETHYSTS = Ok m
    /\ exists bid ask : Order,
         orders (base (market_make m)) = (orders (base m) ++ [bid; ask])%list
         /\ o_price bid = Qceiling (fair_value m - mm_spread m)
         /\ o_price ask = Qfloor (fair_value m + mm_spread m)
         /\ (inject_Z (o_price bid) <= fair_value m)%Q
         /\ (fair_value m <= inject_Z (o_price ask))%Q.
Proof.
  eexists. split; [reflexivity |].
  apply C4_market_make_never_crosses_fair_value.
  cbn. unfold Qle. cbn. lia.
Defined.

(** C6 at timestamp 100 for a trader without history. *)
Lemma C6_witness :
  restore_data Trader_initial 100 (Unparseable EmptyString) = Ok Trader_initial
  /\ exists out tr',
       run Trader_initial (example_state 100 (Unparseable EmptyString)) = Ok (out, tr')
       /\ keys (result out)
          = ["AMETHYSTS"; "STARFRUIT"; "ORCHIDS"; "GIFT_BASKET"].
Proof.
  apply (C6_unparseable_state_no_fallback Trader_initial
           (example_state 100 (Unparseable EmptyString)) EmptyString
           (mkConversionObservation 1090 1092 1 1 1 2500 80) []).
  - cbn. lia.
  - reflexivity.
  - intros sym Hin. cbn in Hin.
    repeat (destruct Hin as [<- | Hin];
            [eexists; split; [reflexivity |];
             unfold two_sided; cbn; repeat split; discriminate |]).
    contradiction.
  - reflexivity.
  - reflexivity.
Defined.

(** C7 at the STARFRUIT engine of the example tick with a one-price
    history (minimum window 5). *)
Lemma C7_witness :
  exists l,
    LinearRegressionMM_init (example_state 0 (Unparseable EmptyString))
      (mkProductConfig "STARFRUIT" "STARFRUIT" 20 None None)
      config_STARFRUIT = Ok l
    /\ exists l' : LinearRegressionMM,
         predict_price l [5039 # 1] = Ok l'
         /\ fair_value (mm l') = mid_vwap (base (mm l))
         /\ base (mm l') = base (mm l).
Proof.
  eexists. split; [reflexivity |].
  apply C7_predict_price_fallback. cbn. lia.
Defined.

(** C8 at timestamp 400 on the prices 100, 200, 300, 400, 500, which lie on
    the line [price = 1 * x + 100] over the abscissas 0, 100, ..., 400. *)
Lemma C8_witness :
  exists l,
    LinearRegressionMM_init (example_state 400 (Unparseable EmptyString))
      (mkProductConfig "STARFRUIT" "STARFRUIT" 20 None None)
      config_STARFRUIT = Ok l
    /\ (exists l' : LinearRegressionMM,
          predict_price l linear_prices = Ok l'
          /\ (fair_value (mm l') == 1 * inject_Z (100 * (4 + 1)) + 100)%Q
          /\ base (mm l') = base (mm l))
    /\ (forall mid_vwap : float,
          predict_price_float l mid_vwap [100; 200; 300; 400; 500]%float
          = Ok 600%float).
Proof.
  eexists. split; [reflexivity |].
  match goal with
  | |- (exists l', predict_price ?l0 _ = _ /\ _) /\ _ =>
      destruct (C8_predict_price_on_line l0 linear_prices 1 100 4)
        as [Hexact Hdouble]
  end.
  - reflexivity.
  - reflexivity.
  - cbn. lia.
  - cbn. lia.
  - cbn. repeat constructor.
  - split; [exact Hexact |].
    apply Hdouble; [reflexivity | cbn; lia].
Defined.

(** C9 at the basket of the example tick, whose premium is 385. *)
Lemma C9_witness :
  exists b,
    BasketTrading_init (example_state 0 (Unparseable EmptyString))
      (mkProductConfig "GIFT_BASKET" "GIFT_BASKET" 60 None None)
      [ ("CHOCOLATE",
          mkProductConfig "CHOCOLATE" "CHOCOLATE" 250 None (Some 4));
        ("STRAWBERRIES",
          mkProductConfig "STRAWBERRIES" "STRAWBERRIES" 350 None (Some 6));
        ("ROSES", mkProductConfig "ROSES" "ROSES" 60 None (Some 1)) ]
      config_GIFT_BASKET = Ok b
    /\ (z_score b == 0)%Q
    /\ (pricing_shift b == 0)%Q
    /\ (fair_value (basket (calculate_fair_value b))
        == mid_vwap (base (basket b)))%Q
    /\ mid_vwap (base (basket (calculate_fair_value b)))
       = mid_vwap (base (basket b)).
Proof.
  eexists. split; [reflexivity |].
  apply (C9_zero_correction_at_mean
           (example_state 0 (Unparseable EmptyString))
           (mkProductConfig "GIFT_BASKET" "GIFT_BASKET" 60 None None)
           [ ("CHOCOLATE",
               mkProductConfig "CHOCOLATE" "CHOCOLATE" 250 None (Some 4));
             ("STRAWBERRIES",
               mkProductConfig "STRAWBERRIES" "STRAWBERRIES" 350 None
                               (Some 6));
             ("ROSES", mkProductConfig "ROSES" "ROSES" 60 None (Some 1)) ]
           config_GIFT_BASKET).
  - reflexivity.
  - vm_compute. reflexivity.
Defined.

(** C10 at the AMETHYSTS engine of the example tick: the scratch sells one
    unit and the stop loss stays silent. *)
Lemma C10_witness :
  exists m m1 m2,
    MarketMaking_init (example_state 0 (Unparseable EmptyString))
      (mkProductConfig "AMETHYSTS" "AMETHYSTS" 20 None None)
      config_AMETHYSTS = Ok m
    /\ scratch_under_valued m false = Ok m1
    /\ stop_loss m1 true = Ok m2
    /\ (orders (base m1) = orders (base m)
        \/ orders (base m2) = orders (base m1))
    /\ (orders (base m1) <> orders (base m) ->
        - sl_inventory m <= position (base m) <= sl_inventory m)
    /\ (orders (base m2) <> orders (base m1) ->
        Z.abs (position (base m)) > sl_inventory m)
    /\ ~ (- sl_inventory m <= position (base m) <= sl_inventory m
          /\ Z.abs (position (base m)) > sl_inventory m).
Proof.
  eexists _, _, _. split; [reflexivity |].
  split; [reflexivity |]. split; [reflexivity |].
  apply (C10_scratch_stop_loss_exclusive _ _ _ false true); reflexivity.
Defined.

(** ** The engines that [run] builds meet the premises of C1 *)

Lemma MarketMaking_init_fresh (state : TradingState) (pc : ProductConfig)
    (sc : MMConfig) (m : MarketMaking) :
  MarketMaking_init state pc sc = Ok m ->
  fresh (base m)
  /\ position_limit (base m) = POSITION_LIMIT pc
  /\ sl_inventory m = SL_INVENTORY sc.
Proof.
  intros H. pose proof (MarketMaking_init_inv _ _ _ _ H) as Hs.
  apply Strategy_init_fresh in Hs. destruct Hs as (Hf & _ & HL & _).
  unfold MarketMaking_init in H. inv_bind H. inv_Ok H.
  split; [exact Hf |]. split; [exact HL | reflexivity].
Qed.

Lemma predict_price_base (l l' : LinearRegressionMM)
    (price_history : list Q) :
  predict_price l price_history = Ok l' ->
  base (mm l') = base (mm l) /\ sl_inventory (mm l') = sl_inventory (mm l).
Proof.
  unfold predict_price. intros H.
  destruct (_ <=? _)%Z; [inv_bind H |]; inv_Ok H; split; reflexivity.
Qed.

Lemma OTCArbitrage_init_fresh (state : TradingState) (pc : ProductConfig)
    (sc : OTCConfig) (o : OTCArbitrage) :
  OTCArbitrage_init state pc sc = Ok o ->
  fresh (arb_base o) /\ position_limit (arb_base o) = POSITION_LIMIT pc.
Proof.
  unfold OTCArbitrage_init. intros H. do 3 inv_bind H. inv_Ok H.
  cbn [arb_base].
  match goal with
  | Hs : Strategy_init _ _ = Ok _ |- _ =>
      apply Strategy_init_fresh in Hs; destruct Hs as (Hf & _ & HL & _)
  end.
  split; assumption.
Qed.

(** With the configured limits 250, 350 and 60 and ratios 4, 6 and 1 the
    basket trades within floor(min(62.5, 58.33.., 60)) = 58, inside which
    lie the stop-loss target 0 and the band 57. *)
Lemma BasketTrading_init_configured_limit (state : TradingState)
    (b : BasketTrading) :
  BasketTrading_init state
    (mkProductConfig "GIFT_BASKET" "GIFT_BASKET" 60 None None)
    [ ("CHOCOLATE",
        mkProductConfig "CHOCOLATE" "CHOCOLATE" 250 None (Some 4));
      ("STRAWBERRIES",
        mkProductConfig "STRAWBERRIES" "STRAWBERRIES" 350 None (Some 6));
      ("ROSES", mkProductConfig "ROSES" "ROSES" 60 None (Some 1)) ]
    config_GIFT_BASKET = Ok b ->
  fresh (base (basket b))
  /\ position_limit (base (basket b)) = 58%Z
  /\ engine_config_ok (Basket_engine b).
Proof.
  unfold BasketTrading_init. intros H. do 2 inv_bind H.
  cbn [mapM fst snd] in E0. revert H. inv_binds. intros H.
  repeat match goal with
         | Hs : Strategy_init _ _ = Ok ?s |- _ =>
             let HL := fresh "HL" in
             pose proof (Strategy_init_fresh _ _ _ Hs) as (_ & _ & HL & _);
             cbn [POSITION_LIMIT] in HL; clear Hs
         end.
  match goal with
  | Hm : MarketMaking_init _ _ _ = Ok _ |- _ =>
      apply MarketMaking_init_fresh in Hm; destruct Hm as (Hf & HLb & Hsl)
  end.
  cbn [POSITION_LIMIT] in HLb. cbn in Hsl.
  cbn [mapM fst snd PER_BASKET config_key bind keys map map_values getitem
       String.eqb Ascii.eqb Bool.eqb] in H.
  rewrite HL, HL0, HL1 in H. cbn [truediv Z.eqb Pos.eqb bind] in H.
  cbn [py_minQ fold_left] in H.
  inv_binds.
  cbn [basket base with_base set_fair_value set_position_limit
       position_limit engine_config_ok sl_target sl_inventory SL_TARGET
       config_GIFT_BASKET].
  rewrite HLb, Hsl.
  change (Z.min (Qfloor (inject_Z 350 / inject_Z 6)) 60) with 58%Z.
  split; [exact Hf |]. split; [reflexivity | lia].
Qed.

(** ** The examples of the specification *)

(** On a tick [100 * t] the abscissas of the regression are
    [100 * (t - n + 1), ..., 100 * t]: the window ends at the current
    timestamp. *)
Lemma regression_xs_at_tick (t n : Z) :
  regression_xs (100 * t) n
  = map (fun i => (100 * i)%Z) (py_range (t - n + 1) (t + 1)).
Proof.
  unfold regression_xs. rewrite (Z.mul_comm 100 t), Z.quot_mul by lia.
  reflexivity.
Qed.

(** Prices 100, 200, 300, 400, 500 at the ticks 0, ..., 400: the fair value
    for the next tick is 600. *)
Lemma predict_price_600 :
  exists l l',
    LinearRegressionMM_init (example_state 400 (Unparseable EmptyString))
      (mkProductConfig "STARFRUIT" "STARFRUIT" 20 None None)
      config_STARFRUIT = Ok l
    /\ predict_price l linear_prices = Ok l'
    /\ (fair_value (mm l') == 600)%Q.
Proof.
  eexists _, _. split; [reflexivity |]. split; [reflexivity |].
  vm_compute. reflexivity.
Qed.

(** Best ask 95, external bid 100, no costs, minimum edge 1: the engine
    buys the 10 resting at 95 and goes on to the next level, 96, whose edge
    4 still clears the threshold. *)
Lemma long_arbitrage_takes_the_ask :
  exists o o',
    OTCArbitrage_init (arbitrage_example_state 100) costless_ORCHIDS
                      config_ORCHIDS = Ok o
    /\ arbitrage_exchange_enter o = Ok o'
    /\ orders (arb_base o')
       = [mkOrder "ORCHIDS" 95 10; mkOrder "ORCHIDS" 96 20].
Proof.
  eexists _, _. split; [reflexivity |]. split; reflexivity.
Qed.

(** With an external bid of 95.5 the edge 0.5 is below the threshold and
    nothing is taken. *)
Lemma no_take_below_min_edge :
  exists o o',
    OTCArbitrage_init (arbitrage_example_state (191 # 2)) costless_ORCHIDS
                      config_ORCHIDS = Ok o
    /\ arbitrage_exchange_enter o = Ok o'
    /\ orders (arb_base o') = [].
Proof.
  eexists _, _. split; [reflexivity |]. split; reflexivity.
Qed.

End Configured.

(** * Further properties of the code *)

(** ** The rolling window of [store_data] *)

Lemma popleft_while_keeps_last (dq : list Q) (max_size : Z) :
  0 < max_size ->
  popleft_while dq max_size = Ok (keep_last (Z.to_nat (max_size - 1)) dq).
Proof.
  intros Hpos. unfold keep_last. induction dq as [| x dq IH].
  - cbn [popleft_while].
    replace (max_size <=? 0) with false by (symmetry; apply Z.leb_gt; lia).
    reflexivity.
  - cbn [popleft_while]. unfold len. cbn [List.length].
    destruct (max_size <=? Z.of_nat (S (List.length dq))) eqn:E.
    + apply Z.leb_le in E. rewrite IH.
      replace (S (List.length dq) - Z.to_nat (max_size - 1))%nat
        with (S (List.length dq - Z.to_nat (max_size - 1)))%nat by lia.
      reflexivity.
    + apply Z.leb_gt in E.
      replace (S (List.length dq) - Z.to_nat (max_size - 1))%nat
        with 0%nat by lia.
      reflexivity.
Qed.

Lemma popleft_while_negative (dq : list Q) (max_size : Z) :
  max_size < 0 -> popleft_while dq max_size = Raise IndexError.
Proof.
  intros Hneg. induction dq as [| x dq IH]; cbn [popleft_while].
  - replace (max_size <=? 0) with true by (symmetry; apply Z.leb_le; lia).
    reflexivity.
  - replace (max_size <=? len (x :: dq)) with true
      by (symmetry; apply Z.leb_le; unfold len; lia).
    exact IH.
Qed.

Lemma keep_last_snoc {A : Type} (k : nat) (l : list A) (x : A) :
  keep_last (S k) (l ++ [x]) = keep_last k l ++ [x].
Proof.
  unfold keep_last. rewrite length_app. cbn [List.length].
  replace (List.length l + 1 - S k)%nat with (List.length l - k)%nat by lia.
  rewrite skipn_app.
  replace (List.length l - k - List.length l)%nat with 0%nat by lia.
  reflexivity.
Qed.

Lemma keep_last_length {A : Type} (k : nat) (l : list A) :
  List.length (keep_last k l) = Nat.min k (List.length l).
Proof. unfold keep_last. rewrite length_skipn. lia. Qed.

Lemma getitem_setitem_other {V : Type} (d : list (Symbol * V))
    (k k' : Symbol) (v : V) :
  k' <> k ->
  getitem String.eqb (setitem String.eqb d k v) k'
  = getitem String.eqb d k'.
Proof.
  intros Hne. induction d as [| [k0 v0] d IH]; cbn [setitem getitem].
  - destruct (String.eqb_spec k' k); [contradiction | reflexivity].
  - destruct (String.eqb_spec k k0) as [-> | Hk]; cbn [getitem].
    + destruct (String.eqb_spec k' k0); [contradiction | reflexivity].
    + destruct (String.eqb k' k0); [reflexivity | exact IH].
Qed.

Lemma store_data_positive (tr : Trader) (sym : Symbol) (value : Q)
    (max_size : Z) (dq : list Q) :
  getitem String.eqb (data tr) sym = Ok dq ->
  0 < max_size ->
  store_data tr sym value (Some max_size)
  = Ok {| data := setitem String.eqb (data tr) sym
                    (keep_last (Z.to_nat max_size) (dq ++ [value])) |}
  /\ len (keep_last (Z.to_nat max_size) (dq ++ [value])) <= max_size
  /\ 1 <= len (keep_last (Z.to_nat max_size) (dq ++ [value])).
Proof.
  intros Hkey Hsize. unfold store_data. rewrite Hkey. cbn [bind].
  replace (max_size =? 0) with false by (symmetry; apply Z.eqb_neq; lia).
  rewrite (popleft_while_keeps_last dq max_size Hsize). cbn [bind].
  replace (Z.to_nat max_size) with (S (Z.to_nat (max_size - 1))) by lia.
  rewrite keep_last_snoc.
  split; [reflexivity |].
  unfold len. rewrite length_app, keep_last_length. cbn [List.length]. lia.
Qed.

(** X1: with a positive [max_size], [store_data] replaces the deque of the
    symbol by the last [max_size] elements of the old deque followed by the
    new value: the oldest prices are evicted first, the window never holds
    more than [max_size] prices, and the deques of the other symbols are
    untouched. *)
Theorem store_data_keeps_last (tr : Trader) (sym : Symbol) (value : Q)
    (max_size : Z) (dq : list Q)
    (Hkey : getitem String.eqb (data tr) sym = Ok dq)
    (Hsize : 0 < max_size) :
  exists tr',
    store_data tr sym value (Some max_size) = Ok tr'
    /\ getitem String.eqb (data tr') sym
       = Ok (keep_last (Z.to_nat max_size) (dq ++ [value]))
    /\ len (keep_last (Z.to_nat max_size) (dq ++ [value])) <= max_size
    /\ (forall sym', sym' <> sym ->
        getitem String.eqb (data tr') sym'
        = getitem String.eqb (data tr) sym').
Proof.
  destruct (store_data_positive tr sym value max_size dq Hkey Hsize)
    as (Hstore & Hlen & _).
  eexists. split; [exact Hstore |]. cbn [data].
  split; [apply getitem_setitem |]. split; [exact Hlen |].
  intros sym' Hne. now apply getitem_setitem_other.
Qed.

Lemma store_data_keeps_last_witness :
  exists tr',
    store_data {| data := [("STARFRUIT"%string, [1; 2; 3]%Q)] |}
               "STARFRUIT"%string 4%Q (Some 3) = Ok tr'
    /\ getitem String.eqb (data tr') "STARFRUIT"%string
       = Ok (keep_last (Z.to_nat 3) ([1; 2; 3]%Q ++ [4%Q]))
    /\ len (keep_last (Z.to_nat 3) ([1; 2; 3]%Q ++ [4%Q])) <= 3
    /\ (forall sym', sym' <> "STARFRUIT"%string ->
        getitem String.eqb (data tr') sym'
        = getitem String.eqb
            (data {| data := [("STARFRUIT"%string, [1; 2; 3]%Q)] |}) sym').
Proof.
  apply store_data_keeps_last; [reflexivity | lia].
Defined.

(** X2: the other values of [max_size].  With [None] or [0] nothing is
    evicted and the deque grows by the new value; with a negative
    [max_size] the loop empties the deque and then pops once more, so
    [store_data] raises [IndexError] whatever the deque holds. *)
Theorem store_data_unbounded_or_IndexError (tr : Trader) (sym : Symbol)
    (value : Q) (dq : list Q)
    (Hkey : getitem String.eqb (data tr) sym = Ok dq) :
  store_data tr sym value None
  = Ok {| data := setitem String.eqb (data tr) sym (dq ++ [value]) |}
  /\ store_data tr sym value (Some 0)
     = Ok {| data := setitem String.eqb (data tr) sym (dq ++ [value]) |}
  /\ (forall max_size, max_size < 0 ->
      store_data tr sym value (Some max_size) = Raise IndexError).
Proof.
  unfold store_data. rewrite Hkey. cbn [bind].
  split; [reflexivity |]. split; [reflexivity |].
  intros max_size Hneg.
  replace (max_size =? 0) with false by (symmetry; apply Z.eqb_neq; lia).
  now rewrite (popleft_while_negative dq max_size Hneg).
Qed.

Lemma store_data_unbounded_or_IndexError_witness :
  store_data Trader_one_price "STARFRUIT"%string 7%Q None
  = Ok {| data := setitem String.eqb (data Trader_one_price)
                          "STARFRUIT"%string ([5039 # 1] ++ [7%Q]) |}
  /\ store_data Trader_one_price "STARFRUIT"%string 7%Q (Some 0)
     = Ok {| data := setitem String.eqb (data Trader_one_price)
                             "STARFRUIT"%string ([5039 # 1] ++ [7%Q]) |}
  /\ (forall max_size, max_size < 0 ->
      store_data Trader_one_price "STARFRUIT"%string 7%Q (Some max_size)
      = Raise IndexError).
Proof.
  apply store_data_unbounded_or_IndexError. reflexivity.
Defined.

(** ** What a successful [run] has done *)

Section RunResults.
Local Open Scope string_scope.

Lemma long_walk_static (o : OTCArbitrage) (levels : list (Z * Z))
    (s : Strategy) :
  static (long_walk o levels s) = static s.
Proof.
  revert s. induction levels as [| [price quantity] rest IH]; intros s.
  - reflexivity.
  - cbn [long_walk]. destruct (Qle_bool _ _); [| reflexivity].
    rewrite IH. apply emit_buy_static.
Qed.

Lemma short_walk_static (o : OTCArbitrage) (levels : list (Z * Z))
    (s s' : Strategy) :
  short_walk o levels s = Ok s' -> static s' = static s.
Proof.
  revert s. induction levels as [| [price quantity] rest IH]; intros s H.
  - inv_Ok H. reflexivity.
  - cbn [short_walk] in H. destruct (Qle_bool _ _).
    + inv_bind H. apply IH in H. rewrite H. apply emit_sell_static.
    + inv_Ok H. reflexivity.
Qed.

Lemma arbitrage_exchange_enter_static (o o1 : OTCArbitrage) :
  arbitrage_exchange_enter o = Ok o1 ->
  static (arb_base o1) = static (arb_base o).
Proof.
  unfold arbitrage_exchange_enter. intros H.
  destruct (max_key _ _); destruct (Qle_bool _ _).
  - inv_Ok H. apply long_walk_static.
  - inv_Ok H. reflexivity.
  - inv_bind H. inv_Ok H. cbn [arb_base with_arb_base].
    eapply short_walk_static. eassumption.
  - inv_Ok H. reflexivity.
Qed.

Lemma aggregate_orders_conversions_exit (o o' : OTCArbitrage) :
  aggregate_orders_conversions o = Ok o' ->
  conversions o' = - position (arb_base o).
Proof.
  unfold aggregate_orders_conversions. intros H. inv_bind H. inv_Ok H.
  apply arbitrage_exchange_enter_static, static_limit_position in E.
  destruct E as [_ HP].
  cbn [arbitrage_otc_exit set_conversions conversions arb_market_make
       with_arb_base arb_base append_order position].
  now rewrite HP.
Qed.

(** Every call that a successful [run] has made, and what it returns. *)
Lemma run_Ok_full (tr tr' : Trader) (state : TradingState) (out : Output) :
  run tr state = Ok (out, tr') ->
  exists tr1 mA mA' lr history lr' mS' o o' b b',
    restore_data tr (st_timestamp state) (traderData state) = Ok tr1
    /\ MarketMaking_init state
         (mkProductConfig "AMETHYSTS" "AMETHYSTS" 20 None None)
         config_AMETHYSTS = Ok mA
    /\ aggregate_orders mA true = Ok mA'
    /\ LinearRegressionMM_init state
         (mkProductConfig "STARFRUIT" "STARFRUIT" 20 None None)
         config_STARFRUIT = Ok lr
    /\ store_data tr1 (symbol (base (mm lr))) (mid_vwap (base (mm lr)))
                  (Some (max_window_size lr)) = Ok tr'
    /\ getitem String.eqb (data tr') "STARFRUIT" = Ok history
    /\ predict_price lr history = Ok lr'
    /\ aggregate_orders (mm lr') true = Ok mS'
    /\ OTCArbitrage_init state
         (mkProductConfig "ORCHIDS" "ORCHIDS" 100 (Some (1 # 10)%Q) None)
         config_ORCHIDS = Ok o
    /\ aggregate_orders_conversions o = Ok o'
    /\ BasketTrading_init state
         (mkProductConfig "GIFT_BASKET" "GIFT_BASKET" 60 None None)
         [ ("CHOCOLATE",
             mkProductConfig "CHOCOLATE" "CHOCOLATE" 250 None (Some 4));
           ("STRAWBERRIES",
             mkProductConfig "STRAWBERRIES" "STRAWBERRIES" 350 None (Some 6));
           ("ROSES", mkProductConfig "ROSES" "ROSES" 60 None (Some 1)) ]
         config_GIFT_BASKET = Ok b
    /\ aggregate_basket_orders b = Ok b'
    /\ out = {| result :=
                  [ ("AMETHYSTS", orders (base mA'));
                    ("STARFRUIT", orders (base mS'));
                    ("ORCHIDS", orders (arb_base o'));
                    ("GIFT_BASKET", orders (base (basket b'))) ];
                out_conversions := conversions o';
                out_traderData := jsonpickle_encode (data tr') |}.
Proof.
  unfold run. cbv zeta. intros H.
  inv_bind H.
  rewrite config_lookup_AMETHYSTS in H. cbn [bind] in H.
  do 2 inv_bind H.
  rewrite config_lookup_STARFRUIT in H. cbn [bind] in H.
  do 5 inv_bind H.
  rewrite config_lookup_ORCHIDS in H. cbn [bind] in H.
  do 2 inv_bind H.
  rewrite config_lookup_GIFT_BASKET, config_lookup_constituents in H.
  cbn [bind] in H.
  do 2 inv_bind H. inv_Ok H.
  do 11 eexists.
  repeat (split; [eassumption |]).
  reflexivity.
Qed.

Lemma LinearRegressionMM_init_inv (state : TradingState)
    (pc : ProductConfig) (sc : LRConfig) (l : LinearRegressionMM) :
  LinearRegressionMM_init state pc sc = Ok l ->
  Strategy_init state pc = Ok (base (mm l))
  /\ min_window_size l = MIN_WINDOW_SIZE sc
  /\ max_window_size l = MAX_WINDOW_SIZE sc
  /\ predict_shift l = PREDICT_SHIFT sc.
Proof.
  unfold LinearRegressionMM_init. intros H. inv_bind H. inv_Ok H.
  apply MarketMaking_init_inv in E. cbn. now repeat split.
Qed.

(** X3: a successful [run] appends the STARFRUIT mid-VWAP of the tick to
    the restored STARFRUIT history and keeps its last 10 prices
    (MAX_WINDOW_SIZE): the stored window is never empty, never longer than
    10, and the histories of other symbols are as restored. *)
Theorem run_history_window (tr tr' : Trader) (state : TradingState)
    (out : Output)
    (Hrun : run tr state = Ok (out, tr')) :
  exists tr1 s dq0,
    restore_data tr (st_timestamp state) (traderData state) = Ok tr1
    /\ Strategy_init state
         (mkProductConfig "STARFRUIT" "STARFRUIT" 20 None None) = Ok s
    /\ getitem String.eqb (data tr1) "STARFRUIT" = Ok dq0
    /\ getitem String.eqb (data tr') "STARFRUIT"
       = Ok (keep_last 10 (dq0 ++ [mid_vwap s])%list)
    /\ 1 <= len (keep_last 10 (dq0 ++ [mid_vwap s])%list) <= 10
    /\ (forall sym', sym' <> "STARFRUIT" ->
        getitem String.eqb (data tr') sym'
        = getitem String.eqb (data tr1) sym').
Proof.
  apply run_Ok_full in Hrun.
  destruct Hrun as (tr1 & mA & mA' & lr & history & lr' & mS' & o & o' & b
                    & b' & Hrestore & _ & _ & Hlr & Hstore & _).
  apply LinearRegressionMM_init_inv in Hlr.
  destruct Hlr as (Hs & _ & Hmax & _). cbn in Hmax.
  destruct (Strategy_init_fresh _ _ _ Hs) as (_ & Hsym & _).
  cbn [SYMBOL] in Hsym. rewrite Hsym, Hmax in Hstore.
  pose proof Hstore as Hkey. unfold store_data in Hkey. inv_bind Hkey.
  destruct (store_data_positive tr1 "STARFRUIT" (mid_vwap (base (mm lr)))
              10 v E ltac:(lia)) as (Hstore' & Hmaxlen & Hminlen).
  rewrite Hstore' in Hstore. inv_Ok Hstore.
  exists tr1, (base (mm lr)), v.
  split; [exact Hrestore |]. split; [exact Hs |]. split; [exact E |].
  cbn [data]. split; [apply getitem_setitem |].
  split; [split; [exact Hminlen | exact Hmaxlen] |].
  intros sym' Hne. now apply getitem_setitem_other.
Qed.

Lemma run_history_window_witness :
  exists out tr',
    run Trader_one_price (example_state 100 (Encoded carried_history))
    = Ok (out, tr')
    /\ exists tr1 s dq0,
         restore_data Trader_one_price 100 (Encoded carried_history) = Ok tr1
         /\ Strategy_init (example_state 100 (Encoded carried_history))
              (mkProductConfig "STARFRUIT" "STARFRUIT" 20 None None) = Ok s
         /\ getitem String.eqb (data tr1) "STARFRUIT" = Ok dq0
         /\ getitem String.eqb (data tr') "STARFRUIT"
            = Ok (keep_last 10 (dq0 ++ [mid_vwap s])%list)
         /\ 1 <= len (keep_last 10 (dq0 ++ [mid_vwap s])%list) <= 10
         /\ (forall sym', sym' <> "STARFRUIT" ->
             getitem String.eqb (data tr') sym'
             = getitem String.eqb (data tr1) sym').
Proof.
  eexists _, _. split; [vm_compute; reflexivity |].
  eapply (run_history_window Trader_one_price _
           (example_state 100 (Encoded carried_history))).
  vm_compute. reflexivity.
Defined.

(** X5: the conversion request that [run] returns is the opposite of the
    ORCHIDS position the host supplied (zero when the state has no ORCHIDS
    position), whatever the books and the quotes. *)
Theorem run_converts_whole_position (tr tr' : Trader)
    (state : TradingState) (out : Output)
    (Hrun : run tr state = Ok (out, tr')) :
  out_conversions out
  = - get_default String.eqb (st_position state) "ORCHIDS" 0.
Proof.
  apply run_Ok_full in Hrun.
  destruct Hrun as (tr1 & mA & mA' & lr & history & lr' & mS' & o & o' & b
                    & b' & _ & _ & _ & _ & _ & _ & _ & _ & Ho & Ho' & _ & _
                    & Hout).
  subst out. cbn [out_conversions].
  rewrite (aggregate_orders_conversions_exit _ _ Ho').
  unfold OTCArbitrage_init in Ho. do 3 inv_bind Ho. inv_Ok Ho.
  cbn [arb_base].
  match goal with
  | Hs : Strategy_init _ _ = Ok _ |- _ =>
      apply Strategy_init_fresh in Hs;
      destruct Hs as (_ & _ & _ & Hpos & _)
  end.
  rewrite Hpos. reflexivity.
Qed.

Lemma run_converts_whole_position_witness :
  exists out tr',
    run Trader_initial (example_state 0 (Unparseable EmptyString))
    = Ok (out, tr')
    /\ out_conversions out
       = - get_default String.eqb
             (st_position (example_state 0 (Unparseable EmptyString)))
             "ORCHIDS" 0.
Proof.
  eexists _, _. split; [vm_compute; reflexivity |].
  eapply (run_converts_whole_position Trader_initial _
           (example_state 0 (Unparseable EmptyString))).
  vm_compute. reflexivity.
Defined.

(** ** Calling [run] twice on one trader (C5) *)



End RunResults.

(** ** The arbitrage engine *)

Lemma long_walk_symbol (o : OTCArbitrage) (levels : list (Z * Z))
    (s : Strategy) :
  symbol (long_walk o levels s) = symbol s.
Proof.
  pose proof (long_walk_static o levels s) as H.
  unfold static in H. congruence.
Qed.

Lemma long_walk_leading (o : OTCArbitrage) (levels : list (Z * Z))
    (s : Strategy) :
  exists taken,
    orders (long_walk o levels s) = orders s ++ taken
    /\ Forall2 (takes_ask (symbol s)) taken (leading (long_clears o) levels).
Proof.
  revert s. induction levels as [| [price quantity] rest IH]; intros s.
  - exists []. split; [now rewrite app_nil_r | constructor].
  - cbn [long_walk leading]. unfold long_clears at 1. cbn [fst].
    destruct (Qle_bool _ _).
    + match goal with
      | |- context [long_walk o rest ?s1] =>
          destruct (IH s1) as (taken & Horders & Htaken)
      end.
      cbn [emit_buy orders symbol] in Horders, Htaken.
      eexists. split.
      * rewrite Horders, <- app_assoc. reflexivity.
      * constructor; [| exact Htaken].
        unfold takes_ask. cbn [o_symbol o_price o_quantity fst snd].
        split; [reflexivity |]. split; [reflexivity | lia].
    + exists []. split; [now rewrite app_nil_r | constructor].
Qed.

(** X7: on the Long side [arbitrage_exchange_enter] takes exactly the
    leading ask levels whose own edge reaches [min_edge], in book order and
    up to the first level that falls short: one buy order per such level,
    priced at the level and sized between zero and the quantity resting
    there. *)
Theorem long_arbitrage_takes_leading_levels (o : OTCArbitrage)
    (Hside : max_key (long_edge_at o (best_ask (arb_base o)))
                     (short_edge_at o (best_bid (arb_base o))) = Long)
    (Hedge : Qle_bool (min_edge o) (long_edge_at o (best_ask (arb_base o)))
             = true) :
  exists o1 taken,
    arbitrage_exchange_enter o = Ok o1
    /\ orders (arb_base o1) = orders (arb_base o) ++ taken
    /\ Forall2 (takes_ask (symbol (arb_base o))) taken
               (leading (long_clears o) (asks (arb_base o))).
Proof.
  unfold arbitrage_exchange_enter. rewrite Hside, Hedge.
  destruct (long_walk_leading o (asks (arb_base o)) (arb_base o))
    as (taken & Horders & Htaken).
  eexists _, taken. split; [reflexivity |]. split; assumption.
Qed.

Lemma long_arbitrage_takes_leading_levels_witness :
  exists o,
    OTCArbitrage_init (arbitrage_example_state 100) costless_ORCHIDS
                      config_ORCHIDS = Ok o
    /\ exists o1 taken,
         arbitrage_exchange_enter o = Ok o1
         /\ orders (arb_base o1) = orders (arb_base o) ++ taken
         /\ Forall2 (takes_ask (symbol (arb_base o))) taken
                    (leading (long_clears o) (asks (arb_base o))).
Proof.
  eexists. split; [reflexivity |].
  apply long_arbitrage_takes_leading_levels; reflexivity.
Defined.

Lemma long_clears_monotone (o : OTCArbitrage) (a b : Z * Z) :
  fst a <= fst b -> long_clears o b = true -> long_clears o a = true.
Proof.
  unfold long_clears, long_edge_at. rewrite !Qle_bool_iff.
  intros Hab Hb. rewrite Zle_Qle in Hab. lra.
Qed.

Lemma filter_none {A : Type} (test : A -> bool) (l : list A) :
  (forall x, In x l -> test x = false) -> filter test l = [].
Proof.
  induction l as [| a l IH]; intros H; cbn [filter]; [reflexivity |].
  rewrite (H a (or_introl eq_refl)). apply IH.
  intros x Hx. apply H. now right.
Qed.

Lemma leading_sorted_filter (o : OTCArbitrage) (levels : list (Z * Z)) :
  StronglySorted (fun a b => fst a <= fst b) levels ->
  leading (long_clears o) levels = filter (long_clears o) levels.
Proof.
  induction 1 as [| a levels Hsorted IH Hall]; cbn [leading filter];
    [reflexivity |].
  destruct (long_clears o a) eqn:Ha; [now rewrite IH |].
  symmetry. apply filter_none. intros b Hb.
  rewrite Forall_forall in Hall. specialize (Hall b Hb).
  destruct (long_clears o b) eqn:Hbc; [| reflexivity].
  rewrite (long_clears_monotone o a b Hall Hbc) in Ha. discriminate.
Qed.

(** X8: when the asks come sorted from the best (lowest) price outward,
    stopping at the first level below the threshold loses nothing: the Long
    side takes every ask level of the book whose edge reaches [min_edge]. *)
Theorem long_arbitrage_sorted_takes_all (o : OTCArbitrage)
    (Hsorted : StronglySorted (fun a b => fst a <= fst b)
                              (asks (arb_base o)))
    (Hside : max_key (long_edge_at o (best_ask (arb_base o)))
                     (short_edge_at o (best_bid (arb_base o))) = Long)
    (Hedge : Qle_bool (min_edge o) (long_edge_at o (best_ask (arb_base o)))
             = true) :
  exists o1 taken,
    arbitrage_exchange_enter o = Ok o1
    /\ orders (arb_base o1) = orders (arb_base o) ++ taken
    /\ Forall2 (takes_ask (symbol (arb_base o))) taken
               (filter (long_clears o) (asks (arb_base o))).
Proof.
  unfold arbitrage_exchange_enter. rewrite Hside, Hedge.
  destruct (long_walk_leading o (asks (arb_base o)) (arb_base o))
    as (taken & Horders & Htaken).
  rewrite (leading_sorted_filter o _ Hsorted) in Htaken.
  eexists _, taken. split; [reflexivity |]. split; assumption.
Qed.

Lemma long_arbitrage_sorted_takes_all_witness :
  exists o,
    OTCArbitrage_init (arbitrage_example_state 100) costless_ORCHIDS
                      config_ORCHIDS = Ok o
    /\ exists o1 taken,
         arbitrage_exchange_enter o = Ok o1
         /\ orders (arb_base o1) = orders (arb_base o) ++ taken
         /\ Forall2 (takes_ask (symbol (arb_base o))) taken
                    (filter (long_clears o) (asks (arb_base o))).
Proof.
  eexists. split; [reflexivity |].
  apply long_arbitrage_sorted_takes_all; [| reflexivity | reflexivity].
  cbn. repeat constructor; cbn; lia.
Defined.

(** ** Book features of [Strategy.__init__] *)

Lemma fold_left_max_acc (l : list Z) (x : Z) : x <= fold_left Z.max l x.
Proof.
  revert x. induction l as [| z l IH]; intros x; cbn [fold_left]; [lia |].
  specialize (IH (Z.max x z)). lia.
Qed.

Lemma fold_left_min_acc (l : list Z) (x : Z) : fold_left Z.min l x <= x.
Proof.
  revert x. induction l as [| z l IH]; intros x; cbn [fold_left]; [lia |].
  specialize (IH (Z.min x z)). lia.
Qed.

Lemma fold_left_max_ge (l : list Z) (x y : Z) :
  In y (x :: l) -> y <= fold_left Z.max l x.
Proof.
  revert x. induction l as [| z l IH]; intros x Hy.
  - destruct Hy as [-> | []]. cbn. lia.
  - cbn [fold_left]. destruct Hy as [-> | [-> | Hy]].
    + pose proof (fold_left_max_acc l (Z.max y z)). lia.
    + pose proof (fold_left_max_acc l (Z.max x y)). lia.
    + apply IH. now right.
Qed.

Lemma fold_left_min_le (l : list Z) (x y : Z) :
  In y (x :: l) -> fold_left Z.min l x <= y.
Proof.
  revert x. induction l as [| z l IH]; intros x Hy.
  - destruct Hy as [-> | []]. cbn. lia.
  - cbn [fold_left]. destruct Hy as [-> | [-> | Hy]].
    + pose proof (fold_left_min_acc l (Z.min y z)). lia.
    + pose proof (fold_left_min_acc l (Z.min x y)). lia.
    + apply IH. now right.
Qed.

Lemma py_max_upper (xs : list Z) (k y : Z) :
  py_max xs = Ok k -> In y xs -> y <= k.
Proof.
  destruct xs as [| x xs]; cbn [py_max]; intros H Hy; [discriminate |].
  inv_Ok H. now apply fold_left_max_ge.
Qed.

Lemma py_min_lower (xs : list Z) (k y : Z) :
  py_min xs = Ok k -> In y xs -> k <= y.
Proof.
  destruct xs as [| x xs]; cbn [py_min]; intros H Hy; [discriminate |].
  inv_Ok H. now apply fold_left_min_le.
Qed.

(** The equations that [Strategy.__init__] establishes between the book and
    its features. *)
Lemma Strategy_init_features (state : TradingState) (pc : ProductConfig)
    (s : Strategy) :
  Strategy_init state pc = Ok s ->
  py_max (keys (bids s)) = Ok (best_bid s)
  /\ py_min (keys (bids s)) = Ok (worst_bid s)
  /\ py_min (keys (asks s)) = Ok (best_ask s)
  /\ py_max (keys (asks s)) = Ok (worst_ask s)
  /\ bid_volume s = py_sum (values (bids s))
  /\ ask_volume s = py_sum (values (asks s))
  /\ bid_volume s <> 0
  /\ ask_volume s <> 0
  /\ bid_sweep s = py_sum (map (fun pq => fst pq * snd pq) (bids s))
  /\ ask_sweep s = py_sum (map (fun pq => fst pq * snd pq) (asks s))
  /\ bid_vwap s = (inject_Z (bid_sweep s) / inject_Z (bid_volume s))%Q
  /\ ask_vwap s = (inject_Z (ask_sweep s) / inject_Z (ask_volume s))%Q
  /\ mid_vwap s = ((bid_vwap s + ask_vwap s) / 2)%Q.
Proof.
  unfold Strategy_init. intros H. do 7 inv_bind H. inv_Ok H. cbn.
  repeat match goal with
         | Hd : truediv _ ?b = Ok _ |- _ =>
             let Hnz := fresh "Hnz" in
             pose proof (truediv_Ok _ _ _ Hd) as Hnz;
             rewrite (truediv_total _ _ Hnz) in Hd; inv_Ok Hd
         end.
  repeat split; assumption || reflexivity.
Qed.

(** X9: on the object that [Strategy.__init__] builds, the best and worst
    prices of each side are prices of the book and bracket every price of
    that side: no bid is above the best bid or below the worst bid, no ask
    is below the best ask or above the worst ask. *)
Theorem Strategy_init_best_and_worst (state : TradingState)
    (pc : ProductConfig) (s : Strategy)
    (Hinit : Strategy_init state pc = Ok s) :
  In (best_bid s) (keys (bids s))
  /\ In (worst_bid s) (keys (bids s))
  /\ In (best_ask s) (keys (asks s))
  /\ In (worst_ask s) (keys (asks s))
  /\ (forall p, In p (keys (bids s)) -> worst_bid s <= p <= best_bid s)
  /\ (forall p, In p (keys (asks s)) -> best_ask s <= p <= worst_ask s).
Proof.
  destruct (Strategy_init_features _ _ _ Hinit)
    as (Hbb & Hwb & Hba & Hwa & _).
  split; [exact (py_max_In _ _ Hbb) |].
  split; [exact (py_min_In _ _ Hwb) |].
  split; [exact (py_min_In _ _ Hba) |].
  split; [exact (py_max_In _ _ Hwa) |].
  split; intros p Hp; split.
  - exact (py_min_lower _ _ _ Hwb Hp).
  - exact (py_max_upper _ _ _ Hbb Hp).
  - exact (py_min_lower _ _ _ Hba Hp).
  - exact (py_max_upper _ _ _ Hwa Hp).
Qed.

Lemma Strategy_init_best_and_worst_witness :
  exists s,
    Strategy_init (example_state 0 (Unparseable EmptyString))
      (mkProductConfig "AMETHYSTS"%string "AMETHYSTS"%string 20 None None)
    = Ok s
    /\ In (best_bid s) (keys (bids s))
    /\ In (worst_bid s) (keys (bids s))
    /\ In (best_ask s) (keys (asks s))
    /\ In (worst_ask s) (keys (asks s))
    /\ (forall p, In p (keys (bids s)) -> worst_bid s <= p <= best_bid s)
    /\ (forall p, In p (keys (asks s)) -> best_ask s <= p <= worst_ask s).
Proof.
  eexists. split; [reflexivity |].
  apply (Strategy_init_best_and_worst
           (example_state 0 (Unparseable EmptyString))
           (mkProductConfig "AMETHYSTS"%string "AMETHYSTS"%string 20
                            None None)).
  reflexivity.
Defined.

Lemma sweep_between_nonneg (d : list (Z * Z)) (lo hi : Z) :
  (forall pq, In pq d -> lo <= fst pq <= hi /\ 0 <= snd pq) ->
  lo * py_sum (values d)
  <= py_sum (map (fun pq => fst pq * snd pq) d)
  <= hi * py_sum (values d).
Proof.
  induction d as [| [p q] d IH]; intros H.
  - cbn. lia.
  - unfold values in *. cbn [map fst snd]. rewrite !py_sum_cons.
    destruct (H (p, q) (or_introl eq_refl)) as [Hp Hq]. cbn [fst snd] in Hp, Hq.
    assert (IH' := IH (fun pq Hin => H pq (or_intror Hin))).
    nia.
Qed.

Lemma sweep_between_nonpos (d : list (Z * Z)) (lo hi : Z) :
  (forall pq, In pq d -> lo <= fst pq <= hi /\ snd pq <= 0) ->
  hi * py_sum (values d)
  <= py_sum (map (fun pq => fst pq * snd pq) d)
  <= lo * py_sum (values d).
Proof.
  induction d as [| [p q] d IH]; intros H.
  - cbn. lia.
  - unfold values in *. cbn [map fst snd]. rewrite !py_sum_cons.
    destruct (H (p, q) (or_introl eq_refl)) as [Hp Hq]. cbn [fst snd] in Hp, Hq.
    assert (IH' := IH (fun pq Hin => H pq (or_intror Hin))).
    nia.
Qed.

Lemma Qdiv_between_pos (a v lo hi : Z) :
  0 < v -> lo * v <= a <= hi * v ->
  (inject_Z lo <= inject_Z a / inject_Z v <= inject_Z hi)%Q.
Proof.
  intros Hv [Hlo Hhi].
  assert (Hv' : (0 < inject_Z v)%Q)
    by (change 0%Q with (inject_Z 0); now rewrite <- Zlt_Qlt).
  split.
  - apply Qle_shift_div_l; [exact Hv' |].
    rewrite <- inject_Z_mult. now rewrite <- Zle_Qle.
  - apply Qle_shift_div_r; [exact Hv' |].
    rewrite <- inject_Z_mult. now rewrite <- Zle_Qle.
Qed.

Lemma Qdiv_between_neg (a v lo hi : Z) :
  v < 0 -> hi * v <= a <= lo * v ->
  (inject_Z lo <= inject_Z a / inject_Z v <= inject_Z hi)%Q.
Proof.
  intros Hv [Hhi Hlo].
  assert (Hnz : ~ (inject_Z v == 0)%Q).
  { change 0%Q with (inject_Z 0). rewrite inject_Z_injective. lia. }
  assert (E : (inject_Z a / inject_Z v == inject_Z (- a) / inject_Z (- v))%Q).
  { rewrite !inject_Z_opp. now field. }
  rewrite E. apply Qdiv_between_pos; lia.
Qed.

(** X10: when the bid quantities are not negative and the ask quantities
    not positive, each side's VWAP lies within the prices of that side, and
    the mid-VWAP between the two midpoints of worst and best prices. *)
Theorem vwap_within_book (state : TradingState) (pc : ProductConfig)
    (s : Strategy)
    (Hinit : Strategy_init state pc = Ok s)
    (Hbids : Forall (fun pq => 0 <= snd pq) (bids s))
    (Hasks : Forall (fun pq => snd pq <= 0) (asks s)) :
  (inject_Z (worst_bid s) <= bid_vwap s <= inject_Z (best_bid s))%Q
  /\ (inject_Z (best_ask s) <= ask_vwap s <= inject_Z (worst_ask s))%Q
  /\ (inject_Z (worst_bid s + best_ask s) / 2 <= mid_vwap s
      <= inject_Z (best_bid s + worst_ask s) / 2)%Q.
Proof.
  destruct (Strategy_init_features _ _ _ Hinit)
    as (Hbb & Hwb & Hba & Hwa & Hbv & Hav & Hbnz & Hanz
        & Hbs & Has & Hbvw & Havw & Hmid).
  rewrite Forall_forall in Hbids, Hasks.
  assert (Hbid : (inject_Z (worst_bid s) <= bid_vwap s
                  <= inject_Z (best_bid s))%Q).
  { rewrite Hbvw. apply Qdiv_between_pos.
    - pose proof (py_sum_values_nonneg (bids s)
                    (proj2 (Forall_forall _ _) Hbids)). lia.
    - rewrite Hbs, Hbv. apply sweep_between_nonneg. intros pq Hin.
      assert (Hk : In (fst pq) (keys (bids s))) by (now apply in_map).
      split; [| now apply Hbids]. split.
      + exact (py_min_lower _ _ _ Hwb Hk).
      + exact (py_max_upper _ _ _ Hbb Hk). }
  assert (Hask : (inject_Z (best_ask s) <= ask_vwap s
                  <= inject_Z (worst_ask s))%Q).
  { rewrite Havw. apply Qdiv_between_neg.
    - pose proof (py_sum_values_nonpos (asks s)
                    (proj2 (Forall_forall _ _) Hasks)). lia.
    - rewrite Has, Hav. apply sweep_between_nonpos. intros pq Hin.
      assert (Hk : In (fst pq) (keys (asks s))) by (now apply in_map).
      split; [| now apply Hasks]. split.
      + exact (py_min_lower _ _ _ Hba Hk).
      + exact (py_max_upper _ _ _ Hwa Hk). }
  split; [exact Hbid |]. split; [exact Hask |].
  rewrite Hmid, !inject_Z_plus. unfold Qdiv.
  destruct Hbid, Hask.
  split; (apply Qmult_le_compat_r; [lra | discriminate]).
Qed.

Lemma vwap_within_book_witness :
  exists s,
    Strategy_init (example_state 0 (Unparseable EmptyString))
      (mkProductConfig "AMETHYSTS"%string "AMETHYSTS"%string 20 None None)
    = Ok s
    /\ (inject_Z (worst_bid s) <= bid_vwap s <= inject_Z (best_bid s))%Q
    /\ (inject_Z (best_ask s) <= ask_vwap s <= inject_Z (worst_ask s))%Q
    /\ (inject_Z (worst_bid s + best_ask s) / 2 <= mid_vwap s
        <= inject_Z (best_bid s + worst_ask s) / 2)%Q.
Proof.
  eexists. split; [reflexivity |].
  apply (vwap_within_book
           (example_state 0 (Unparseable EmptyString))
           (mkProductConfig "AMETHYSTS"%string "AMETHYSTS"%string 20
                            None None)).
  - reflexivity.
  - cbn. repeat (constructor; [cbn; lia |]). constructor.
  - cbn. repeat (constructor; [cbn; lia |]). constructor.
Defined.

Lemma getitem_Raise {K V : Type} (eqb : K -> K -> bool) (d : list (K * V))
    (k : K) (e : PyError) :
  getitem eqb d k = Raise e -> e = KeyError.
Proof.
  induction d as [| [k' v] d IH]; cbn [getitem]; intros H.
  - now inv_Ok H.
  - destruct (eqb k k'); [discriminate | auto].
Qed.

(** X11: [Strategy.__init__] returns exactly when the state has an order
    depth for the symbol with two non-empty sides of non-zero total volume.
    Otherwise it raises: [KeyError] when the symbol has no order depth,
    [ValueError] when a side is empty, [ZeroDivisionError] when the
    quantities of a side sum to zero. *)
Theorem Strategy_init_outcome (state : TradingState) (pc : ProductConfig) :
  ((exists s, Strategy_init state pc = Ok s) <->
   (exists od,
      getitem String.eqb (order_depths state) (SYMBOL pc) = Ok od
      /\ two_sided od))
  /\ ((forall od,
         getitem String.eqb (order_depths state) (SYMBOL pc) <> Ok od) ->
      Strategy_init state pc = Raise KeyError)
  /\ (forall od,
        getitem String.eqb (order_depths state) (SYMBOL pc) = Ok od ->
        buy_orders od = [] \/ sell_orders od = [] ->
        Strategy_init state pc = Raise ValueError)
  /\ (forall od,
        getitem String.eqb (order_depths state) (SYMBOL pc) = Ok od ->
        buy_orders od <> [] -> sell_orders od <> [] ->
        py_sum (values (buy_orders od)) = 0
        \/ py_sum (values (sell_orders od)) = 0 ->
        Strategy_init state pc = Raise ZeroDivisionError).
Proof.
  split; [split |].
  - intros [s Hs]. exact (Strategy_init_two_sided _ _ _ Hs).
  - intros (od & Hod & Htwo). exact (Strategy_init_total _ _ _ Hod Htwo).
  - split; [| split].
    + intros Hmissing. unfold Strategy_init.
      destruct (getitem String.eqb (order_depths state) (SYMBOL pc))
        as [od | e] eqn:E.
      * now contradiction (Hmissing od).
      * apply getitem_Raise in E. now subst e.
    + intros od Hod Hempty. unfold Strategy_init. rewrite Hod. cbn [bind].
      destruct (buy_orders od) as [| b bs] eqn:Eb; [reflexivity |].
      destruct Hempty as [Hb | Ha]; [discriminate |].
      rewrite Ha. reflexivity.
    + intros od Hod Hb Ha Hzero. unfold Strategy_init. rewrite Hod.
      cbn [bind].
      destruct (py_max_total _ (keys_nonempty _ Hb)) as [bb Ebb].
      destruct (py_min_total _ (keys_nonempty _ Ha)) as [ba Eba].
      destruct (py_min_total _ (keys_nonempty _ Hb)) as [wb Ewb].
      destruct (py_max_total _ (keys_nonempty _ Ha)) as [wa Ewa].
      rewrite Ebb, Eba, Ewb, Ewa. cbn [bind]. unfold truediv.
      destruct (Z.eqb_spec (py_sum (values (buy_orders od))) 0) as [| Hnz];
        [reflexivity |].
      cbn [bind].
      destruct Hzero as [Hz | Hz]; [contradiction |].
      rewrite Hz. reflexivity.
Qed.

(** ** Sizes of the market-making quotes *)






(** ** Stop loss *)

(** X13: with a non-negative band on a fresh ledger, [stop_loss] sells only
    from a position above the band and then leaves ExpectedPosition between
    the band edge and the position; it buys only from a position below the
    band and then leaves ExpectedPosition between the position and the
    lower band edge.  It moves inventory toward the band and never across
    it, and inside the band it does nothing. *)
Theorem stop_loss_moves_toward_band (m : MarketMaking) (ignore_worst : bool)
    (Hfresh : fresh (base m))
    (Hsigned : book_signed (base m))
    (Hband : 0 <= sl_inventory m) :
  exists m2,
    stop_loss m ignore_worst = Ok m2
    /\ position (base m2) = position (base m)
    /\ (sl_inventory m < position (base m) ->
        sl_inventory m <= expected_position (base m2) <= position (base m))
    /\ (position (base m) < - sl_inventory m ->
        position (base m) <= expected_position (base m2) <= - sl_inventory m)
    /\ (Z.abs (position (base m)) <= sl_inventory m -> m2 = m).
Proof.
  pose proof (fresh_book_ready _ Hfresh Hsigned)
    as ((vb & Hvb & Hvb0) & (va & Hva & Hva0) & _).
  assert (Hexp : expected_position (base m) = position (base m))
    by (destruct Hfresh as (_ & _ & _ & _ & _ & He & _); exact He).
  unfold stop_loss.
  destruct (_ && _) eqn:Csell.
  - apply andb_true_iff in Csell. destruct Csell as [Hlong _].
    apply Z.ltb_lt in Hlong.
    destruct (_ <=? _).
    + rewrite Hvb. cbn [bind]. eexists. split; [reflexivity |].
      cbn [base with_base emit_sell position expected_position].
      split; [reflexivity |]. repeat split; intros; try lia.
    + exists m. split; [reflexivity |]. split; [reflexivity |].
      repeat split; intros; try lia.
  - clear Csell. destruct (_ && _) eqn:Cbuy.
    + apply andb_true_iff in Cbuy. destruct Cbuy as [Hshort _].
      apply Z.ltb_lt in Hshort.
      destruct (_ <=? _).
      * rewrite Hva. cbn [bind]. eexists. split; [reflexivity |].
        cbn [base with_base emit_buy position expected_position].
        split; [reflexivity |]. repeat split; intros; try lia.
      * exists m. split; [reflexivity |]. split; [reflexivity |].
        repeat split; intros; try lia.
    + exists m. split; [reflexivity |]. split; [reflexivity |].
      repeat split; intros; try lia.
Qed.

Lemma stop_loss_moves_toward_band_witness :
  exists m,
    MarketMaking_init long_inventory_state
      (mkProductConfig "STARFRUIT"%string "STARFRUIT"%string 20 None None)
      (lr_mm_config config_STARFRUIT) = Ok m
    /\ exists m2,
         stop_loss m true = Ok m2
         /\ position (base m2) = position (base m)
         /\ (sl_inventory m < position (base m) ->
             sl_inventory m <= expected_position (base m2)
             <= position (base m))
         /\ (position (base m) < - sl_inventory m ->
             position (base m) <= expected_position (base m2)
             <= - sl_inventory m)
         /\ (Z.abs (position (base m)) <= sl_inventory m -> m2 = m).
Proof.
  eexists. split; [reflexivity |].
  apply stop_loss_moves_toward_band.
  - unfold fresh. cbn. repeat split; reflexivity.
  - unfold book_signed. cbn. split; repeat (constructor; [cbn; lia |]);
      constructor.
  - cbn. lia.
Defined.

(** X14: with a non-negative band and a target inside it, on a fresh
    ledger, [aggressive_stop_loss] sells only from a position above the
    band: one order at the worst bid, for at most the whole bid volume,
    that leaves ExpectedPosition between the target and the position.  It
    buys only from a position below the band: one order at the worst ask,
    for at most the whole ask volume, that leaves ExpectedPosition between
    the position and the opposite of the target.  Inside the band it does
    nothing. *)
Theorem aggressive_stop_loss_moves_toward_target (b : BasketTrading)
    (Hfresh : fresh (base (basket b)))
    (Hsigned : book_signed (base (basket b)))
    (Hband : 0 <= sl_inventory (basket b))
    (Htarget : sl_target b <= sl_inventory (basket b)) :
  let s := base (basket b) in
  let s' := base (basket (aggressive_stop_loss b)) in
  (sl_inventory (basket b) < position s ->
   exists q,
     orders s' = orders s ++ [mkOrder (symbol s) (worst_bid s) q]
     /\ - bid_volume s <= q <= 0
     /\ expected_position s' = position s + q
     /\ sl_target b <= expected_position s' <= position s)
  /\ (position s < - sl_inventory (basket b) ->
      exists q,
        orders s' = orders s ++ [mkOrder (symbol s) (worst_ask s) q]
        /\ 0 <= q <= - ask_volume s
        /\ expected_position s' = position s + q
        /\ position s <= expected_position s' <= - sl_target b)
  /\ (Z.abs (position s) <= sl_inventory (basket b) ->
      aggressive_stop_loss b = b).
Proof.
  pose proof (fresh_book_ready _ Hfresh Hsigned) as (_ & _ & Hbv & Hav).
  assert (Hexp : expected_position (base (basket b))
                 = position (base (basket b)))
    by (destruct Hfresh as (_ & _ & _ & _ & _ & He & _); exact He).
  cbv zeta. unfold aggressive_stop_loss.
  destruct (sl_inventory (basket b) <? position (base (basket b))) eqn:Hlong.
  - apply Z.ltb_lt in Hlong.
    cbn [basket with_basket base with_base emit_sell orders
         expected_position].
    split; [| split]; intros H; try lia.
    eexists. split; [reflexivity |]. split; [lia |]. split; lia.
  - apply Z.ltb_ge in Hlong.
    destruct (position (base (basket b)) <? - sl_inventory (basket b))
      eqn:Hshort.
    + apply Z.ltb_lt in Hshort.
      cbn [basket with_basket base with_base emit_buy orders
           expected_position].
      split; [| split]; intros H; try lia.
      eexists. split; [reflexivity |]. split; [lia |]. split; lia.
    + apply Z.ltb_ge in Hshort.
      split; [| split]; intros H; try lia. reflexivity.
Qed.

Lemma aggressive_stop_loss_moves_toward_target_witness :
  exists b,
    BasketTrading_init long_inventory_state
      (mkProductConfig "GIFT_BASKET"%string "GIFT_BASKET"%string 60 None None)
      [ ("CHOCOLATE",
          mkProductConfig "CHOCOLATE" "CHOCOLATE" 250 None (Some 4));
        ("STRAWBERRIES",
          mkProductConfig "STRAWBERRIES" "STRAWBERRIES" 350 None (Some 6));
        ("ROSES", mkProductConfig "ROSES" "ROSES" 60 None (Some 1)) ]%string
      config_GIFT_BASKET = Ok b
    /\ let s := base (basket b) in
       let s' := base (basket (aggressive_stop_loss b)) in
       (sl_inventory (basket b) < position s ->
        exists q,
          orders s' = orders s ++ [mkOrder (symbol s) (worst_bid s) q]
          /\ - bid_volume s <= q <= 0
          /\ expected_position s' = position s + q
          /\ sl_target b <= expected_position s' <= position s)
       /\ (position s < - sl_inventory (basket b) ->
           exists q,
             orders s' = orders s ++ [mkOrder (symbol s) (worst_ask s) q]
             /\ 0 <= q <= - ask_volume s
             /\ expected_position s' = position s + q
             /\ position s <= expected_position s' <= - sl_target b)
       /\ (Z.abs (position s) <= sl_inventory (basket b) ->
           aggressive_stop_loss b = b).
Proof.
  eexists. split; [reflexivity |].
  apply aggressive_stop_loss_moves_toward_target.
  - unfold fresh. cbn. repeat split; reflexivity.
  - unfold book_signed. cbn. split; repeat (constructor; [cbn; lia |]);
      constructor.
  - cbn. lia.
  - cbn. lia.
Defined.

(** ** The basket limit *)

Lemma mapM_In {A B : Type} (f : A -> Exc B) (l : list A) (bs : list B)
    (a : A) :
  mapM f l = Ok bs -> In a l -> exists b, f a = Ok b /\ In b bs.
Proof.
  revert bs. induction l as [| x l IH]; intros bs H Hin; [contradiction |].
  cbn [mapM] in H. inv_bind H. inv_bind H. inv_Ok H.
  destruct Hin as [-> | Hin].
  - eexists. split; [eassumption | now left].
  - destruct (IH _ E0 Hin) as (b & Hb & Hbin).
    exists b. split; [exact Hb | now right].
Qed.

Lemma fold_minQ_acc (l : list Q) (x : Q) :
  (fold_left (fun m y => if Qlt_bool y m then y else m) l x <= x)%Q.
Proof.
  revert x. induction l as [| z l IH]; intros x; cbn [fold_left].
  - apply Qle_refl.
  - unfold Qlt_bool at 2. destruct (Qle_bool x z) eqn:E; cbn [negb].
    + apply IH.
    + apply Qle_trans with z; [apply IH |].
      destruct (Qlt_le_dec z x) as [Hlt | Hle]; [now apply Qlt_le_weak |].
      apply Qle_bool_iff in Hle. congruence.
Qed.

Lemma fold_minQ_le (l : list Q) (x y : Q) :
  In y (x :: l) ->
  (fold_left (fun m y => if Qlt_bool y m then y else m) l x <= y)%Q.
Proof.
  revert x. induction l as [| z l IH]; intros x Hy.
  - destruct Hy as [-> | []]. apply Qle_refl.
  - cbn [fold_left]. destruct Hy as [-> | [-> | Hy]].
    + eapply Qle_trans; [apply fold_minQ_acc |].
      unfold Qlt_bool. destruct (Qle_bool y z) eqn:E; cbn [negb].
      * apply Qle_refl.
      * destruct (Qlt_le_dec z y) as [Hlt | Hle]; [now apply Qlt_le_weak |].
        apply Qle_bool_iff in Hle. congruence.
    + eapply Qle_trans; [apply fold_minQ_acc |].
      unfold Qlt_bool. destruct (Qle_bool x y) eqn:E; cbn [negb].
      * now apply Qle_bool_iff.
      * apply Qle_refl.
    + apply IH. now right.
Qed.

Lemma py_minQ_le (qs : list Q) (m q : Q) :
  py_minQ qs = Ok m -> In q qs -> (m <= q)%Q.
Proof.
  destruct qs as [| x qs]; cbn [py_minQ]; intros H Hq; [discriminate |].
  inv_Ok H. now apply fold_minQ_le.
Qed.

(** X15: the position limit that [BasketTrading.__init__] gives the basket
    is [basket_limit]: it does not exceed the configured basket limit, and
    for every constituent with a positive ratio, [basket_limit] baskets
    need no more units of the constituent than its own position limit
    allows. *)
Theorem basket_limit_hedgeable (state : TradingState) (bc : ProductConfig)
    (cc : list (Symbol * ProductConfig)) (sc : BasketConfig)
    (b : BasketTrading)
    (Hinit : BasketTrading_init state bc cc sc = Ok b) :
  position_limit (base (basket b)) = basket_limit b
  /\ basket_limit b <= POSITION_LIMIT bc
  /\ (forall sym limit ratio,
        In sym (c_symbols b) ->
        getitem String.eqb (c_limits b) sym = Ok limit ->
        getitem String.eqb (c_ratios b) sym = Ok ratio ->
        0 < ratio ->
        basket_limit b * ratio <= limit).
Proof.
  unfold BasketTrading_init in Hinit.
  inv_bind Hinit. rename v into basket0, E into Hbasket.
  inv_bind Hinit. rename v into constituent0, E into Hconstituent.
  inv_bind Hinit. rename v into ratios, E into Hratios.
  inv_bind Hinit. rename v into quotients, E into Hquotients.
  inv_bind Hinit. rename v into smallest, E into Hsmallest.
  inv_bind Hinit. inv_bind Hinit. inv_Ok Hinit.
  cbn [basket base with_base set_fair_value set_position_limit
       position_limit basket_limit c_symbols c_limits c_ratios].
  apply MarketMaking_init_fresh in Hbasket.
  destruct Hbasket as (_ & HL & _).
  split; [reflexivity |]. split; [lia |].
  intros sym limit ratio Hin Hlimit Hratio Hpos.
  destruct (mapM_In _ _ _ sym Hquotients Hin) as (q & Hq & Hqin).
  cbv beta in Hq. rewrite Hlimit, Hratio in Hq. cbn [bind] in Hq.
  assert (Hnz : ratio <> 0) by lia.
  rewrite (truediv_total _ _ Hnz) in Hq. inv_Ok Hq.
  pose proof (py_minQ_le _ _ _ Hsmallest Hqin) as Hmin.
  pose proof (Qfloor_le smallest) as Hfloor.
  assert (Hq : (inject_Z (Z.min (Qfloor smallest)
                                (position_limit (base basket0)))
                <= inject_Z limit / inject_Z ratio)%Q).
  { apply Qle_trans with (inject_Z (Qfloor smallest)).
    - rewrite <- Zle_Qle. lia.
    - now apply Qle_trans with smallest. }
  assert (Hr : (0 < inject_Z ratio)%Q)
    by (change 0%Q with (inject_Z 0); now rewrite <- Zlt_Qlt).
  rewrite Zle_Qle, inject_Z_mult.
  apply Qle_trans
    with (inject_Z limit / inject_Z ratio * inject_Z ratio)%Q.
  - apply Qmult_le_compat_r; [exact Hq | now apply Qlt_le_weak].
  - apply Qle_lteq. right. field. intros Hzero. rewrite Hzero in Hr.
    now apply Qlt_irrefl in Hr.
Qed.

Lemma basket_limit_hedgeable_witness :
  exists b,
    BasketTrading_init (example_state 0 (Unparseable EmptyString))
      (mkProductConfig "GIFT_BASKET"%string "GIFT_BASKET"%string 60
                       None None)
      [ ("CHOCOLATE",
          mkProductConfig "CHOCOLATE" "CHOCOLATE" 250 None (Some 4));
        ("STRAWBERRIES",
          mkProductConfig "STRAWBERRIES" "STRAWBERRIES" 350 None (Some 6));
        ("ROSES", mkProductConfig "ROSES" "ROSES" 60 None (Some 1)) ]%string
      config_GIFT_BASKET = Ok b
    /\ position_limit (base (basket b)) = basket_limit b
    /\ basket_limit b
       <= POSITION_LIMIT
            (mkProductConfig "GIFT_BASKET"%string "GIFT_BASKET"%string 60
                             None None)
    /\ (forall sym limit ratio,
          In sym (c_symbols b) ->
          getitem String.eqb (c_limits b) sym = Ok limit ->
          getitem String.eqb (c_ratios b) sym = Ok ratio ->
          0 < ratio ->
          basket_limit b * ratio <= limit).
Proof.
  eexists. split; [reflexivity |].
  apply (basket_limit_hedgeable
           (example_state 0 (Unparseable EmptyString))
           (mkProductConfig "GIFT_BASKET"%string "GIFT_BASKET"%string 60
                            None None)
           [ ("CHOCOLATE",
               mkProductConfig "CHOCOLATE" "CHOCOLATE" 250 None (Some 4));
             ("STRAWBERRIES",
               mkProductConfig "STRAWBERRIES" "STRAWBERRIES" 350 None
                               (Some 6));
             ("ROSES", mkProductConfig "ROSES" "ROSES" 60 None (Some 1))
           ]%string
           config_GIFT_BASKET).
  reflexivity.
Defined.

(** ** Degenerate regression windows *)

(** X17: a window shorter than two prices that passes the minimum-window
    test (which needs [min_window_size <= 1]) makes [predict_price] raise
    the [StatisticsError] of [statistics.linear_regression]: the fallback
    to the mid-VWAP is the only protection of the regression. *)
Theorem predict_price_needs_two_points (l : LinearRegressionMM)
    (price_history : list Q)
    (Hwindow : min_window_size l <= len price_history)
    (Hshort : len price_history < 2) :
  predict_price l price_history = Raise StatisticsError.
Proof.
  unfold predict_price.
  replace (min_window_size l <=? len price_history) with true
    by (symmetry; apply Z.leb_le; exact Hwindow).
  assert (Hn : 0 <= len price_history) by (unfold len; lia).
  pose proof (regression_xs_length (timestamp (base (mm l)))
                (len price_history) Hn) as Hlen.
  unfold linear_regression.
  replace (len (map inject_Z
                    (regression_xs (timestamp (base (mm l)))
                                   (len price_history))))
    with (len price_history)
    by (unfold len in *; rewrite length_map; lia).
  rewrite Z.eqb_refl. cbn [negb].
  replace (len price_history <? 2) with true
    by (symmetry; apply Z.ltb_lt; exact Hshort).
  reflexivity.
Qed.

Lemma predict_price_needs_two_points_witness :
  exists l,
    LinearRegressionMM_init (example_state 400 (Unparseable EmptyString))
      (mkProductConfig "STARFRUIT"%string "STARFRUIT"%string 20 None None)
      (mkLRConfig (lr_mm_config config_STARFRUIT) 1 10 1) = Ok l
    /\ predict_price l [5039 # 1] = Raise StatisticsError.
Proof.
  eexists. split; [reflexivity |].
  apply predict_price_needs_two_points; cbn; lia.
Defined.

(** ** The basket fair value *)

Lemma scaling_coefficient_nonneg (b : BasketTrading) :
  (0 <= alpha b)%Q -> (0 <= beta b)%Q -> (0 <= scaling_coefficient b)%Q.
Proof.
  intros Ha Hb. unfold scaling_coefficient.
  pose proof (Qabs_nonneg (z_score b)) as Hz.
  assert (H1 : (0 <= alpha b * Qabs (z_score b))%Q)
    by (now apply Qmult_le_0_compat).
  assert (H2 : (0 <= beta b * z_score b ^ 2)%Q).
  { apply Qmult_le_0_compat; [exact Hb |].
    cbn. apply Qsquare_nonneg. }
  set (t1 := (alpha b * Qabs (z_score b))%Q) in *.
  set (t2 := (beta b * z_score b ^ 2)%Q) in *. lra.
Qed.

(** X18: with non-negative sensitivities, [calculate_fair_value] shifts the
    fair value against the demeaned premium: it never raises the fair value
    when the premium is at or above its long-run mean and never lowers it
    when the premium is at or below the mean. *)
Theorem calculate_fair_value_opposes_premium (b : BasketTrading)
    (Halpha : (0 <= alpha b)%Q)
    (Hbeta : (0 <= beta b)%Q) :
  ((premium_mean b <= premium b)%Q ->
   (fair_value (basket (calculate_fair_value b))
    <= fair_value (basket b))%Q)
  /\ ((premium b <= premium_mean b)%Q ->
      (fair_value (basket b)
       <= fair_value (basket (calculate_fair_value b)))%Q).
Proof.
  pose proof (scaling_coefficient_nonneg b Halpha Hbeta) as Hk.
  cbn [calculate_fair_value basket with_basket set_fair_value fair_value].
  unfold pricing_shift, demeaned_premium.
  set (k := scaling_coefficient b) in *.
  set (d := (premium b - premium_mean b)%Q).
  split; intros Hp.
  - assert (Hd : (0 <= d)%Q) by (unfold d; lra).
    pose proof (Qmult_le_0_compat _ _ Hd Hk) as Hdk.
    set (dk := (d * k)%Q) in *.
    setoid_replace (- d * k)%Q with (- dk)%Q by (unfold dk; ring). lra.
  - assert (Hd : (0 <= - d)%Q) by (unfold d; lra).
    pose proof (Qmult_le_0_compat _ _ Hd Hk) as Hdk.
    set (dk := (- d * k)%Q) in *. lra.
Qed.

Lemma calculate_fair_value_opposes_premium_witness :
  exists b,
    BasketTrading_init long_inventory_state
      (mkProductConfig "GIFT_BASKET"%string "GIFT_BASKET"%string 60
                       None None)
      [ ("CHOCOLATE",
          mkProductConfig "CHOCOLATE" "CHOCOLATE" 250 None (Some 4));
        ("STRAWBERRIES",
          mkProductConfig "STRAWBERRIES" "STRAWBERRIES" 350 None (Some 6));
        ("ROSES", mkProductConfig "ROSES" "ROSES" 60 None (Some 1)) ]%string
      config_GIFT_BASKET = Ok b
    /\ ((premium_mean b <= premium b)%Q ->
        (fair_value (basket (calculate_fair_value b))
         <= fair_value (basket b))%Q)
    /\ ((premium b <= premium_mean b)%Q ->
        (fair_value (basket b)
         <= fair_value (basket (calculate_fair_value b)))%Q).
Proof.
  eexists. split; [reflexivity |].
  apply calculate_fair_value_opposes_premium; cbn; discriminate.
Defined.

(** ** Orders carry the symbol of their engine *)

Lemma emit_sell_symbols (s : Strategy) (price q : Z) :
  symbols_ok s -> symbols_ok (emit_sell s price q).
Proof.
  unfold symbols_ok. cbn [emit_sell orders symbol]. intros H.
  apply Forall_app. split; [exact H | now repeat constructor].
Qed.

Lemma emit_buy_symbols (s : Strategy) (price q : Z) :
  symbols_ok s -> symbols_ok (emit_buy s price q).
Proof.
  unfold symbols_ok. cbn [emit_buy orders symbol]. intros H.
  apply Forall_app. split; [exact H | now repeat constructor].
Qed.

Lemma append_order_symbols (s : Strategy) (price q : Z) :
  symbols_ok s -> symbols_ok (append_order s price q).
Proof.
  unfold symbols_ok. cbn [append_order orders symbol]. intros H.
  apply Forall_app. split; [exact H | now repeat constructor].
Qed.

Lemma scratch_symbols (m m1 : MarketMaking) (use_mid : bool) :
  scratch_under_valued m use_mid = Ok m1 ->
  symbols_ok (base m) ->
  symbols_ok (base m1) /\ symbol (base m1) = symbol (base m).
Proof.
  unfold scratch_under_valued. intros H Hs.
  destruct (within_sl_inventory m).
  - destruct (_ && _).
    + inv_bind H. inv_Ok H. split; [now apply emit_sell_symbols | reflexivity].
    + destruct (_ && _).
      * inv_bind H. inv_Ok H.
        split; [now apply emit_buy_symbols | reflexivity].
      * inv_Ok H. now split.
  - inv_Ok H. now split.
Qed.

Lemma stop_loss_symbols (m m2 : MarketMaking) (ignore_worst : bool) :
  stop_loss m ignore_worst = Ok m2 ->
  symbols_ok (base m) ->
  symbols_ok (base m2) /\ symbol (base m2) = symbol (base m).
Proof.
  unfold stop_loss. intros H Hs.
  destruct (_ && _).
  - destruct (_ <=? _).
    + inv_bind H. inv_Ok H. split; [now apply emit_sell_symbols | reflexivity].
    + inv_Ok H. now split.
  - destruct (_ && _).
    + destruct (_ <=? _).
      * inv_bind H. inv_Ok H.
        split; [now apply emit_buy_symbols | reflexivity].
      * inv_Ok H. now split.
    + inv_Ok H. now split.
Qed.

Lemma market_make_symbols (m : MarketMaking) :
  symbols_ok (base m) ->
  symbols_ok (base (market_make m))
  /\ symbol (base (market_make m)) = symbol (base m).
Proof.
  intros Hs. unfold market_make. cbn [base with_base].
  split; [| reflexivity].
  now apply append_order_symbols, append_order_symbols.
Qed.

Lemma aggressive_stop_loss_symbols (b : BasketTrading) :
  symbols_ok (base (basket b)) ->
  symbols_ok (base (basket (aggressive_stop_loss b)))
  /\ symbol (base (basket (aggressive_stop_loss b)))
     = symbol (base (basket b)).
Proof.
  intros Hs. unfold aggressive_stop_loss.
  destruct (_ <? _).
  - split; [now apply emit_sell_symbols | reflexivity].
  - destruct (_ <? _).
    + split; [now apply emit_buy_symbols | reflexivity].
    + now split.
Qed.

Lemma long_walk_symbols (o : OTCArbitrage) (levels : list (Z * Z))
    (s : Strategy) :
  symbols_ok s -> symbols_ok (long_walk o levels s).
Proof.
  revert s. induction levels as [| [price quantity] rest IH]; intros s Hs.
  - exact Hs.
  - cbn [long_walk]. destruct (Qle_bool _ _); [| exact Hs].
    apply IH. now apply emit_buy_symbols.
Qed.

Lemma short_walk_symbols (o : OTCArbitrage) (levels : list (Z * Z))
    (s s' : Strategy) :
  short_walk o levels s = Ok s' -> symbols_ok s -> symbols_ok s'.
Proof.
  revert s. induction levels as [| [price quantity] rest IH]; intros s H Hs.
  - now inv_Ok H.
  - cbn [short_walk] in H. destruct (Qle_bool _ _).
    + inv_bind H. eapply IH; [exact H |]. now apply emit_sell_symbols.
    + now inv_Ok H.
Qed.

Lemma arbitrage_exchange_enter_symbols (o o1 : OTCArbitrage) :
  arbitrage_exchange_enter o = Ok o1 ->
  symbols_ok (arb_base o) -> symbols_ok (arb_base o1).
Proof.
  unfold arbitrage_exchange_enter. intros H Hs.
  destruct (max_key _ _); destruct (Qle_bool _ _).
  - inv_Ok H. now apply long_walk_symbols.
  - now inv_Ok H.
  - inv_bind H. inv_Ok H. cbn [arb_base with_arb_base].
    eapply short_walk_symbols; eassumption.
  - now inv_Ok H.
Qed.

Lemma tick_symbols (e : Engine) (final : Strategy) :
  symbols_ok (ledger e) ->
  tick e = Ok final ->
  symbols_ok final /\ symbol final = symbol (ledger e).
Proof.
  intros Hstart Htick.
  destruct e as [m ignore_worst | o | b]; cbn [tick ledger] in *.
  - inv_bind Htick. inv_Ok Htick.
    unfold aggregate_orders in E. do 2 inv_bind E. inv_Ok E.
    destruct (scratch_symbols _ _ _ E0 Hstart) as [H1 S1].
    destruct (stop_loss_symbols _ _ _ E1 H1) as [H2 S2].
    destruct (market_make_symbols _ H2) as [H3 S3].
    split; [exact H3 | congruence].
  - inv_bind Htick. inv_Ok Htick.
    unfold aggregate_orders_conversions in E. inv_bind E. inv_Ok E.
    pose proof (arbitrage_exchange_enter_symbols _ _ E0 Hstart) as H1.
    apply arbitrage_exchange_enter_static in E0.
    cbn [arbitrage_otc_exit set_conversions arb_base arb_market_make
         with_arb_base].
    split.
    + now apply append_order_symbols, append_order_symbols.
    + cbn [append_order symbol]. unfold static in E0. congruence.
  - inv_bind Htick. inv_Ok Htick.
    unfold aggregate_basket_orders in E. cbv zeta in E.
    inv_bind E. inv_Ok E.
    destruct (scratch_symbols _ _ _ E0 Hstart) as [H1 S1].
    cbn [calculate_fair_value basket with_basket set_fair_value base]
      in S1.
    destruct (aggressive_stop_loss_symbols
                (with_basket (calculate_fair_value b) v0) H1) as [H2 S2].
    destruct (market_make_symbols _ H2) as [H3 S3].
    cbn [basket with_basket] in *.
    split; [exact H3 | congruence].
Qed.

(** X19: whatever an engine emits in one tick, every order it returns is
    an order for the engine's own symbol, and the engine does not change
    its symbol. *)
Theorem tick_orders_carry_symbol (e : Engine) (final : Strategy)
    (Hstart : symbols_ok (ledger e))
    (Htick : tick e = Ok final) :
  symbol final = symbol (ledger e)
  /\ Forall (fun o => o_symbol o = symbol (ledger e)) (orders final).
Proof.
  destruct (tick_symbols e final Hstart Htick) as [Hall Hsym].
  split; [exact Hsym |].
  unfold symbols_ok in Hall. now rewrite Hsym in Hall.
Qed.

Lemma tick_orders_carry_symbol_witness :
  exists m final,
    MarketMaking_init (example_state 0 (Unparseable EmptyString))
      (mkProductConfig "AMETHYSTS"%string "AMETHYSTS"%string 20 None None)
      config_AMETHYSTS = Ok m
    /\ tick (MM_engine m true) = Ok final
    /\ symbol final = symbol (ledger (MM_engine m true))
    /\ Forall (fun o => o_symbol o = symbol (ledger (MM_engine m true)))
              (orders final).
Proof.
  eexists _, _. split; [reflexivity |]. split; [reflexivity |].
  apply tick_orders_carry_symbol; [constructor | reflexivity].
Defined.

Section RunOrders.
Local Open Scope string_scope.

Lemma fresh_symbols_ok (s : Strategy) : fresh s -> symbols_ok s.
Proof.
  intros (_ & _ & _ & _ & Ho & _). unfold symbols_ok. rewrite Ho.
  constructor.
Qed.

Lemma BasketTrading_init_symbol (state : TradingState) (bc : ProductConfig)
    (cc : list (Symbol * ProductConfig)) (sc : BasketConfig)
    (b : BasketTrading) :
  BasketTrading_init state bc cc sc = Ok b ->
  symbol (base (basket b)) = SYMBOL bc /\ orders (base (basket b)) = [].
Proof.
  unfold BasketTrading_init. intros H. do 7 inv_bind H. inv_Ok H.
  cbn [basket base with_base set_fair_value set_position_limit symbol
       orders].
  match goal with
  | Hm : MarketMaking_init _ _ _ = Ok _ |- _ =>
      apply MarketMaking_init_inv, Strategy_init_fresh in Hm;
      destruct Hm as ((_ & _ & _ & _ & Ho & _) & Hsym & _)
  end.
  split; assumption.
Qed.

Lemma OTCArbitrage_init_symbol (state : TradingState) (pc : ProductConfig)
    (sc : OTCConfig) (o : OTCArbitrage) :
  OTCArbitrage_init state pc sc = Ok o -> symbol (arb_base o) = SYMBOL pc.
Proof.
  unfold OTCArbitrage_init. intros H. do 3 inv_bind H. inv_Ok H.
  cbn [arb_base].
  match goal with
  | Hs : Strategy_init _ _ = Ok _ |- _ =>
      apply Strategy_init_fresh in Hs; destruct Hs as (_ & Hsym & _)
  end.
  exact Hsym.
Qed.

(** X20: the order map that [run] returns has exactly the four keys
    AMETHYSTS, STARFRUIT, ORCHIDS and GIFT_BASKET, in this order, and every
    order filed under a key is an order for that symbol: no order is sent
    for the constituents CHOCOLATE, STRAWBERRIES and ROSES. *)
Theorem run_orders_keyed_by_symbol (tr tr' : Trader) (state : TradingState)
    (out : Output)
    (Hrun : run tr state = Ok (out, tr')) :
  map fst (result out) = ["AMETHYSTS"; "STARFRUIT"; "ORCHIDS"; "GIFT_BASKET"]
  /\ (forall sym os,
        In (sym, os) (result out) ->
        Forall (fun o => o_symbol o = sym) os).
Proof.
  destruct (run_Ok_full _ _ _ _ Hrun)
    as (tr1 & mA & mA' & lr & history & lr' & mS' & o & o' & b & b'
        & _ & HmA & HaA & Hlr & _ & _ & Hpred & HaS & Ho & Hao
        & Hb & Hab & ->).
  cbn [result]. split; [reflexivity |].
  (* AMETHYSTS *)
  pose proof (Strategy_init_fresh _ _ _ (MarketMaking_init_inv _ _ _ _ HmA))
    as (HfA & HsA & _).
  assert (TA : tick (MM_engine mA true) = Ok (base mA'))
    by (cbn [tick]; now rewrite HaA).
  destruct (tick_symbols (MM_engine mA true) _
              (fresh_symbols_ok _ HfA) TA) as [OA SA].
  cbn [ledger SYMBOL] in *.
  (* STARFRUIT *)
  destruct (LinearRegressionMM_init_inv _ _ _ _ Hlr) as (HsS0 & _).
  pose proof (Strategy_init_fresh _ _ _ HsS0) as (HfS & HsS & _).
  destruct (predict_price_base _ _ _ Hpred) as [Hbase _].
  rewrite <- Hbase in HfS, HsS.
  assert (TS : tick (MM_engine (mm lr') true) = Ok (base mS'))
    by (cbn [tick]; now rewrite HaS).
  destruct (tick_symbols (MM_engine (mm lr') true) _
              (fresh_symbols_ok _ HfS) TS) as [OS SS].
  cbn [ledger SYMBOL] in *.
  (* ORCHIDS *)
  destruct (OTCArbitrage_init_fresh _ _ _ _ Ho) as [HfO _].
  pose proof (OTCArbitrage_init_symbol _ _ _ _ Ho) as HsO.
  cbn [SYMBOL] in HsO.
  assert (TO : tick (OTC_engine o) = Ok (arb_base o'))
    by (cbn [tick]; now rewrite Hao).
  destruct (tick_symbols (OTC_engine o) _
              (fresh_symbols_ok _ HfO) TO) as [OO SO].
  cbn [ledger] in *.
  (* GIFT_BASKET *)
  destruct (BasketTrading_init_symbol _ _ _ _ _ Hb) as [HsB HoB].
  cbn [SYMBOL] in HsB.
  assert (HB0 : symbols_ok (base (basket b)))
    by (unfold symbols_ok; rewrite HoB; constructor).
  assert (TB : tick (Basket_engine b) = Ok (base (basket b')))
    by (cbn [tick]; now rewrite Hab).
  destruct (tick_symbols (Basket_engine b) _ HB0 TB) as [OB SB].
  cbn [ledger] in *.
  unfold symbols_ok in OA, OS, OO, OB.
  intros sym os [E | [E | [E | [E | []]]]]; inversion E; subst sym os.
  - now rewrite <- HsA, <- SA.
  - now rewrite <- HsS, <- SS.
  - now rewrite <- HsO, <- SO.
  - now rewrite <- HsB, <- SB.
Qed.

Lemma run_orders_keyed_by_symbol_witness :
  exists out tr',
    run Trader_initial (example_state 0 (Unparseable EmptyString))
    = Ok (out, tr')
    /\ map fst (result out)
       = ["AMETHYSTS"; "STARFRUIT"; "ORCHIDS"; "GIFT_BASKET"]
    /\ (forall sym os,
          In (sym, os) (result out) ->
          Forall (fun o => o_symbol o = sym) os).
Proof.
  eexists _, _. split; [vm_compute; reflexivity |].
  eapply (run_orders_keyed_by_symbol Trader_initial _
            (example_state 0 (Unparseable EmptyString))).
  vm_compute. reflexivity.
Defined.

End RunOrders.

(** ** Scratching trades on the right side of the reserve price *)

(** X21: on a fresh ledger [scratch_under_valued] returns, and it emits at
    most one order: a sell at the best bid, only when the best bid is at or
    above the reserve price and the bid side has at least two levels, for
    at most the quantity resting there; or a buy at the best ask, only when
    the sell test fails, the best ask is at or below the reserve price and
    the ask side has at least two levels, for at most the quantity resting
    there.  The reserve price is the mid-VWAP when asked for, otherwise the
    fair value. *)
Theorem scratch_trades_against_reserve (m : MarketMaking) (use_mid : bool)
    (Hfresh : fresh (base m))
    (Hsigned : book_signed (base m)) :
  let s := base m in
  let reserve_price := if use_mid then mid_vwap s else fair_value m in
  exists m1,
    scratch_under_valued m use_mid = Ok m1
    /\ (m1 = m
        \/ (exists resting q,
              getitem Z.eqb (bids s) (best_bid s) = Ok resting
              /\ (reserve_price <= inject_Z (best_bid s))%Q
              /\ 2 <= len (bids s)
              /\ - resting <= q <= 0
              /\ orders (base m1)
                 = orders s ++ [mkOrder (symbol s) (best_bid s) q])
        \/ (exists resting q,
              getitem Z.eqb (asks s) (best_ask s) = Ok resting
              /\ (inject_Z (best_ask s) <= reserve_price)%Q
              /\ 2 <= len (asks s)
              /\ ~ ((reserve_price <= inject_Z (best_bid s))%Q
                    /\ 2 <= len (bids s))
              /\ 0 <= q <= - resting
              /\ orders (base m1)
                 = orders s ++ [mkOrder (symbol s) (best_ask s) q])).
Proof.
  cbv zeta.
  pose proof (fresh_book_ready _ Hfresh Hsigned)
    as ((vb & Hvb & Hvb0) & (va & Hva & Hva0) & _).
  unfold scratch_under_valued.
  destruct (within_sl_inventory m); [| exists m; split; [reflexivity | now left]].
  destruct (_ && _) eqn:Csell.
  - apply andb_true_iff in Csell. destruct Csell as [Hres Hlen].
    apply Qle_bool_iff in Hres. apply Z.leb_le in Hlen.
    rewrite Hvb. cbn [bind]. eexists. split; [reflexivity |].
    right. left. exists vb. eexists. split; [reflexivity |].
    split; [exact Hres |]. split; [exact Hlen |].
    split; [| reflexivity]. lia.
  - destruct (Qle_bool (inject_Z (best_ask (base m))) _ && _) eqn:Cbuy.
    + apply andb_true_iff in Cbuy. destruct Cbuy as [Hres Hlen].
      apply Qle_bool_iff in Hres. apply Z.leb_le in Hlen.
      rewrite Hva. cbn [bind]. eexists. split; [reflexivity |].
      right. right. exists va. eexists. split; [reflexivity |].
      split; [exact Hres |]. split; [exact Hlen |].
      split.
      * intros [Hb Hl]. apply Qle_bool_iff in Hb. apply Z.leb_le in Hl.
        rewrite Hb, Hl in Csell. discriminate.
      * split; [| reflexivity]. lia.
    + exists m. split; [reflexivity | now left].
Qed.

Lemma scratch_trades_against_reserve_witness :
  exists m,
    MarketMaking_init (example_state 0 (Unparseable EmptyString))
      (mkProductConfig "AMETHYSTS"%string "AMETHYSTS"%string 20 None None)
      config_AMETHYSTS = Ok m
    /\ fresh (base m)
    /\ book_signed (base m)
    /\ exists m1,
         scratch_under_valued m false = Ok m1
         /\ (m1 = m
             \/ (exists resting q,
                   getitem Z.eqb (bids (base m)) (best_bid (base m))
                   = Ok resting
                   /\ (fair_value m <= inject_Z (best_bid (base m)))%Q
                   /\ 2 <= len (bids (base m))
                   /\ - resting <= q <= 0
                   /\ orders (base m1)
                      = orders (base m)
                        ++ [mkOrder (symbol (base m)) (best_bid (base m)) q])
             \/ (exists resting q,
                   getitem Z.eqb (asks (base m)) (best_ask (base m))
                   = Ok resting
                   /\ (inject_Z (best_ask (base m)) <= fair_value m)%Q
                   /\ 2 <= len (asks (base m))
                   /\ ~ ((fair_value m <= inject_Z (best_bid (base m)))%Q
                         /\ 2 <= len (bids (base m)))
                   /\ 0 <= q <= - resting
                   /\ orders (base m1)
                      = orders (base m)
                        ++ [mkOrder (symbol (base m)) (best_ask (base m)) q])).
Proof.
  eexists. split; [reflexivity |].
  match goal with
  | |- fresh ?s /\ book_signed ?s /\ _ =>
      assert (Hf : fresh s) by (unfold fresh; cbn; repeat split; reflexivity);
      assert (Hs : book_signed s)
        by (unfold book_signed; cbn;
            split; repeat (constructor; [cbn; lia |]); constructor)
  end.
  split; [exact Hf |]. split; [exact Hs |].
  exact (scratch_trades_against_reserve _ false Hf Hs).
Defined.
